(** * A shallow embedding of [modules/arxiv.py]

    The module is a client of the arXiv search service that remembers which
    papers it has already surfaced ([seen_papers], the ledger) and reuses
    per-paper summary files ([paper_summaries/<id>.json], the content cache).

    Conventions of the embedding:
    - a Python [str] is a [string]; its characters are read as code points
      below 256;
    - [Optional[T]] is [option T]; an attribute probed with [hasattr] is an
      outer [option] ([None]: the attribute is missing);
    - a call that may raise returns a [result]; state is passed explicitly
      (the client object, the files on disk, the log of remote requests);
    - [print] calls are omitted, except where evaluating their argument can
      raise. *)

From Stdlib Require Import ZArith QArith Ascii.
From Stdlib Require String.
From stdpp Require Import base gmap strings list fin_maps.

Local Open Scope Z_scope.

(** ** Exceptions and results *)

(** The exceptions met in this module.  [UnicodeDecodeError], a subclass of
    [ValueError], is what reading a file raises when its bytes are not text;
    [TransportError] stands for the errors of the transport below
    [arxiv.Client.results], though a remote generator may raise any exception.
    [IllTypedRecord] is not a Python exception: it marks a stored document
    whose field values are not of the types [PaperData] declares (see
    [PaperData.from_dict]). *)
Inductive exn :=
  | AttributeError
  | TypeError
  | ValueError (msg : string)
  | UnicodeDecodeError
  | ZeroDivisionError
  | TransportError (descr : string)
  | IllTypedRecord.

Inductive result (A : Type) :=
  | Ok (a : A)
  | Raise (e : exn).
Arguments Ok {A} a.
Arguments Raise {A} e.

#[export] Instance result_ret : MRet result := fun A a => Ok a.
#[export] Instance result_bind : MBind result := fun A B f r =>
  match r with Ok a => f a | Raise e => Raise e end.

(** ** Strings as Python uses them *)

Module Py.

(** [sep.join(parts)] *)
Fixpoint join (sep : string) (parts : list string) : string :=
  match parts with
  | [] => EmptyString
  | [x] => x
  | x :: rest => x +:+ sep +:+ join sep rest
  end.

(** [c in s] for a one-character [c] *)
Fixpoint contains (c : ascii) (s : string) : bool :=
  match s with
  | EmptyString => false
  | String d s' => if Ascii.eqb c d then true else contains c s'
  end.

(** [s.split(c)[-1]]: what follows the last occurrence of [c], the whole
    string when there is none.  [acc] is the segment read so far. *)
Fixpoint last_segment_from (c : ascii) (acc s : string) : string :=
  match s with
  | EmptyString => acc
  | String d s' =>
      if Ascii.eqb c d then last_segment_from c EmptyString s'
      else last_segment_from c (acc +:+ String d EmptyString) s'
  end.

Definition last_segment (c : ascii) (s : string) : string :=
  last_segment_from c EmptyString s.

(** [s.startswith(p)] *)
Definition startswith (p s : string) : bool := String.prefix p s.

(** [s.endswith(p)] for a one-character [p] *)
Fixpoint endswith_char (c : ascii) (s : string) : bool :=
  match s with
  | EmptyString => false
  | String d EmptyString => Ascii.eqb c d
  | String _ s' => endswith_char c s'
  end.

(** [s[n:]] *)
Fixpoint drop (n : nat) (s : string) : string :=
  match n, s with
  | O, _ => s
  | S _, EmptyString => EmptyString
  | S n', String _ s' => drop n' s'
  end.

(** [str.isspace] on one character, for code points below 256. *)
Definition isspace (c : ascii) : bool :=
  let n := nat_of_ascii c in
  ((9 <=? n) && (n <=? 13) || (28 <=? n) && (n <=? 32)
   || (n =? 133) || (n =? 160))%nat.

Fixpoint lstrip (s : string) : string :=
  match s with
  | EmptyString => EmptyString
  | String c s' => if isspace c then lstrip s' else s
  end.

Fixpoint rstrip (s : string) : string :=
  match s with
  | EmptyString => EmptyString
  | String c s' =>
      match rstrip s' with
      | EmptyString => if isspace c then EmptyString else String c EmptyString
      | t => String c t
      end
  end.

(** [s.strip()] *)
Definition strip (s : string) : string := rstrip (lstrip s).

(** Truth value of a [str]: non-empty. *)
Definition truthy (s : string) : bool :=
  match s with EmptyString => false | String _ _ => true end.

(** Truth value of an [Optional[str]]. *)
Definition truthy_opt (o : option string) : bool :=
  match o with None => false | Some s => truthy s end.

(** The double quote character, and a string holding just it. *)
Definition dquote_char : ascii := ascii_of_nat 34.
Definition dquote : string := String dquote_char EmptyString.

(** [os.path.join(a, b)] on POSIX. *)
Definition path_join (a b : string) : string :=
  if startswith "/" b then b
  else if negb (truthy a) || endswith_char "/" a then a +:+ b
  else a +:+ "/" +:+ b.

End Py.

(** ** JSON documents

    What [json.load] returns and [json.dump] accepts.  An object is a finite
    map from keys to documents. *)
#[warnings="-register-all"]
Inductive json :=
  | JNull
  | JBool (b : bool)
  | JNum (n : Z)
  | JStr (s : string)
  | JList (l : list json)
  | JDict (m : gmap string json).

(** ** Records: [PaperData] *)

Module PaperData.

Record t := mk {
  id : string;
  title : string;
  url : string;
  pdf_url : option string;
  doi : option string;
  comment : option string;
  published : option string;
  authors : option (list string);
  abstract : option string;
  keywords : option (list string);
  summary : option string;
  categories : option (list string)
}.

Definition opt_str (o : option string) : json :=
  match o with None => JNull | Some s => JStr s end.

Definition opt_strs (o : option (list string)) : json :=
  match o with None => JNull | Some l => JList (JStr <$> l) end.

(** [to_dict]: [dataclasses.asdict], one entry per field. *)
Definition to_dict (p : t) : json :=
  JDict (list_to_map
    [ ("id", JStr (id p)); ("title", JStr (title p)); ("url", JStr (url p));
      ("pdf_url", opt_str (pdf_url p)); ("doi", opt_str (doi p));
      ("comment", opt_str (comment p)); ("published", opt_str (published p));
      ("authors", opt_strs (authors p)); ("abstract", opt_str (abstract p));
      ("keywords", opt_strs (keywords p)); ("summary", opt_str (summary p));
      ("categories", opt_strs (categories p)) ]).

Definition field_names : gset string :=
  list_to_set
    [ "id"; "title"; "url"; "pdf_url"; "doi"; "comment"; "published";
      "authors"; "abstract"; "keywords"; "summary"; "categories" ].

(** Reading a field value at its declared type.  A dataclass does not check
    the types of its arguments; the embedding's Record is typed, so a value
    of another type has no image and is reported as [IllTypedRecord]. *)
Definition as_str (j : json) : result string :=
  match j with JStr s => Ok s | _ => Raise IllTypedRecord end.

Definition as_opt_str (j : json) : result (option string) :=
  match j with
  | JNull => Ok None
  | JStr s => Ok (Some s)
  | _ => Raise IllTypedRecord
  end.

Fixpoint as_strs (l : list json) : result (list string) :=
  match l with
  | [] => Ok []
  | JStr s :: l' =>
      match as_strs l' with Ok r => Ok (s :: r) | Raise e => Raise e end
  | _ :: _ => Raise IllTypedRecord
  end.

Definition as_opt_strs (j : json) : result (option (list string)) :=
  match j with
  | JNull => Ok None
  | JList l =>
      match as_strs l with Ok r => Ok (Some r) | Raise e => Raise e end
  | _ => Raise IllTypedRecord
  end.

(** The value of an optional keyword argument: its default is [None]. *)
Definition kwarg (m : gmap string json) (k : string) : json :=
  default JNull (m !! k).

(** [from_dict]: the constructor called with the entries of [data] as
    keyword arguments.  The call raises [TypeError] when [data] is
    not a mapping, when a key is not a field name, and when one of the
    three fields without a default is missing. *)
Definition from_dict (data : json) : result t :=
  match data with
  | JDict m =>
      if bool_decide (dom m ⊆ field_names) then
        match m !! "id", m !! "title", m !! "url" with
        | Some ji, Some jt, Some ju =>
            i ← as_str ji;
            t ← as_str jt;
            u ← as_str ju;
            pdf ← as_opt_str (kwarg m "pdf_url");
            d ← as_opt_str (kwarg m "doi");
            c ← as_opt_str (kwarg m "comment");
            pub ← as_opt_str (kwarg m "published");
            au ← as_opt_strs (kwarg m "authors");
            ab ← as_opt_str (kwarg m "abstract");
            kw ← as_opt_strs (kwarg m "keywords");
            su ← as_opt_str (kwarg m "summary");
            ca ← as_opt_strs (kwarg m "categories");
            Ok (mk i t u pdf d c pub au ab kw su ca)
        | _, _, _ => Raise TypeError
        end
      else Raise TypeError
  | _ => Raise TypeError
  end.

End PaperData.

(** ** What the remote service returns: [arxiv.Result]

    [published] is a [datetime]; it is represented by its [isoformat()]
    rendering, the only way the client reads it.  [authors] holds the [name]
    of each author.  [pdf_url], [doi] and [comment] may be [None]; the client
    probes [pdf_url], [published], [doi] and [comment] with [hasattr]. *)
Module ArxivResult.

Record t := mk {
  entry_id : string;
  title : string;
  pdf_url : option (option string);
  published : option string;
  authors : list string;
  summary : string;
  categories : list string;
  doi : option (option string);
  comment : option (option string)
}.

End ArxivResult.

(** [arxiv.Search]: the request object handed to [client.results].  The sort
    order is recorded as one flag (submitted date, descending); [offset] is
    the attribute [search_papers] sets after construction. *)
Record Search := mkSearch {
  query : string;
  id_list : list string;
  max_results : option Z;
  newest_first : bool;
  offset : option Z
}.

(** The generator returned by [client.results]: it yields [items] in order and
    then either stops or raises [failure], which may be any exception. *)
Record generator := mkGen {
  items : list ArxivResult.t;
  failure : option exn
}.

(** [list(gen)] *)
Definition list_of_generator (g : generator) : result (list ArxivResult.t) :=
  match failure g with
  | Some e => Raise e
  | None => Ok (items g)
  end.

(** ** Files and the client object *)

(** What reading a file gives.  The disk maps the path strings the client
    forms to files; it resolves neither [.] nor [..] nor links and takes
    names that differ to name different files, so what is proved about
    distinct files is stated for the paths of ids without a slash,
    [paper_summaries/<id>.json], and the ledger path. *)
Inductive file :=
  | Unreadable              (* opening it for reading raises [IOError] *)
  | Undecodable             (* its bytes are not text: [UnicodeDecodeError] *)
  | Garbled                 (* its text is not JSON: [JSONDecodeError] *)
  | Document (doc : json).

(** The state the client works on: its attribute [seen_papers], the files on
    disk by path, and the requests sent to the remote service so far (oldest
    first), kept to count them. *)
Record world := mkWorld {
  seen_papers : gmap string string;
  disk : gmap string file;
  requests : list Search
}.

Definition SEEN_PAPERS_FILE : string := "seen_papers.json".
Definition SUMMARIES_DIR : string := "paper_summaries".

(** [key in d] for a dict *)
Definition in_dict {V} (key : string) (d : gmap string V) : bool :=
  match d !! key with Some _ => true | None => false end.


(** ** The client: [ArxivClient] *)

Section Client.

(** [self.client.results]: the remote service, as the generator it returns
    for each request. *)
Variable results : Search → generator.

(** Whether opening a path for writing and dumping to it succeeds; when it
    does not ([IOError]) the file is left as it was. *)
Variable write_ok : string → bool.

Definition write_file (path : string) (doc : json) (d : gmap string file)
  : gmap string file :=
  if write_ok path then <[path := Document doc]> d else d.

(** [_save_seen_papers] *)
Definition _save_seen_papers (w : world) : world :=
  mkWorld (seen_papers w)
          (write_file SEEN_PAPERS_FILE (JDict (JStr <$> seen_papers w)) (disk w))
          (requests w).

Definition summary_filepath (paper_id : string) : string :=
  Py.path_join SUMMARIES_DIR (paper_id +:+ ".json").

(** [_load_summary_from_file]; only [JSONDecodeError] and [IOError] are
    caught. *)
Definition _load_summary_from_file (d : gmap string file) (paper_id : string)
  : result (option PaperData.t) :=
  match d !! summary_filepath paper_id with
  | Some (Document data) => p ← PaperData.from_dict data; Ok (Some p)
  | Some Undecodable => Raise UnicodeDecodeError
  | Some Unreadable | Some Garbled => Ok None
  | None => Ok None
  end.

(** The test that opens [save_summary_to_file]:
    [not paper_data.summary or not paper_data.summary.strip()]. *)
Definition blank_summary (paper_data : PaperData.t) : bool :=
  match PaperData.summary paper_data with
  | None => true
  | Some s => negb (Py.truthy s) || negb (Py.truthy (Py.strip s))
  end.

(** [save_summary_to_file] *)
Definition save_summary_to_file (paper_data : PaperData.t) (w : world) : world :=
  if blank_summary paper_data then w
  else mkWorld (seen_papers w)
               (write_file (summary_filepath (PaperData.id paper_data))
                           (PaperData.to_dict paper_data) (disk w))
               (requests w).

(** [mark_papers_as_seen]; [current_date] is the clock reading
    [datetime.now().isoformat()].  A [PaperData] object is always true. *)
Definition mark_papers_as_seen (current_date : string)
    (papers : list PaperData.t) (w : world) : world :=
  _save_seen_papers
    (mkWorld (foldl (fun seen paper_data =>
                       <[PaperData.id paper_data := current_date]> seen)
                    (seen_papers w) papers)
             (disk w) (requests w)).

(** [_construct_query] *)
Definition quote_encoded (term : string) : string :=
  if Py.contains " " term then "%22" +:+ term +:+ "%22" else term.

Definition _construct_query (search_terms categories : option (list string))
  : string :=
  let query_parts : list string := [] in
  let query_parts :=
    match categories with
    | None | Some [] => query_parts
    | Some [cat] => query_parts ++ ["cat:" +:+ cat]
    | Some cats =>
        query_parts ++
          ["(" +:+ Py.join " OR " ((fun cat => "cat:" +:+ cat) <$> cats) +:+ ")"]
    end in
  let query_parts :=
    match search_terms with
    | None | Some [] => query_parts
    | Some [term] => query_parts ++ [quote_encoded term]
    | Some terms =>
        query_parts ++
          ["(" +:+ Py.join " OR " (quote_encoded <$> terms) +:+ ")"]
    end in
  match query_parts with
  | [] => EmptyString
  | _ => Py.join " AND " query_parts
  end.

(** [_convert_result] *)
Definition _convert_result (r : ArxivResult.t) : result PaperData.t :=
  let arxiv_id := Py.last_segment "/" (ArxivResult.entry_id r) in
  pdf_url ←
    match ArxivResult.pdf_url r with
    | None => Ok ("https://arxiv.org/pdf/" +:+ arxiv_id +:+ ".pdf")
    | Some (Some u) => Ok u
    | Some None => Raise AttributeError
    end;
  let pdf_url :=
    if Py.startswith "http:" pdf_url then "https" +:+ Py.drop 4 pdf_url
    else pdf_url in
  Ok {| PaperData.id := arxiv_id;
        PaperData.categories := Some (ArxivResult.categories r);
        PaperData.title := ArxivResult.title r;
        PaperData.url := ArxivResult.entry_id r;
        PaperData.published := ArxivResult.published r;
        PaperData.authors := Some (ArxivResult.authors r);
        PaperData.abstract := Some (ArxivResult.summary r);
        PaperData.keywords := Some (ArxivResult.categories r);
        PaperData.pdf_url := Some pdf_url;
        PaperData.doi :=
          match ArxivResult.doi r with Some d => d | None => None end;
        PaperData.comment :=
          match ArxivResult.comment r with Some c => c | None => None end;
        PaperData.summary := None |}.

(** *** [search_papers] *)

(** The local variables of [search_papers] that live across iterations. *)
Record locals := mkLocals {
  found_papers : list PaperData.t;
  seen_in_this_run : gset string;
  start_index : Z;
  consecutive_seen_requests : Z
}.

Definition max_consecutive_seen : Z := 3.

(** The [for paper in results] loop of one batch.  It returns the updated
    [found_papers], [seen_in_this_run] and [new_papers_in_batch], and the
    exception that left the loop, if one did. *)
Fixpoint for_paper_in_results (w : world) (max_results : Z)
    (batch : list ArxivResult.t) (found : list PaperData.t)
    (seen_run : gset string) (new_papers_in_batch : Z)
  : list PaperData.t * gset string * Z * option exn :=
  match batch with
  | [] => (found, seen_run, new_papers_in_batch, None)
  | paper :: rest =>
      let paper_id := Py.last_segment "/" (ArxivResult.entry_id paper) in
      if in_dict paper_id (seen_papers w) || bool_decide (paper_id ∈ seen_run)
      then for_paper_in_results w max_results rest found seen_run
             new_papers_in_batch
      else
        match
          existing_summary_paper ← _load_summary_from_file (disk w) paper_id;
          match existing_summary_paper with
          | Some existing =>
              if Py.truthy_opt (PaperData.summary existing) then Ok existing
              else _convert_result paper
          | None => _convert_result paper
          end
        with
        | Raise e => (found, seen_run, new_papers_in_batch, Some e)
        | Ok paper_data =>
            let found := found ++ [paper_data] in
            let seen_run := {[paper_id]} ∪ seen_run in
            let new_papers_in_batch := new_papers_in_batch + 1 in
            if Z.of_nat (length found) >=? max_results
            then (found, seen_run, new_papers_in_batch, None)
            else for_paper_in_results w max_results rest found seen_run
                   new_papers_in_batch
        end
  end.

(** How one iteration of the [while] loop ends. *)
Inductive flow :=
  | Continue (l : locals) (w : world)   (* back to the loop test *)
  | Break (l : locals) (w : world)      (* [break], also from the handler *)
  | Propagate (e : exn) (w : world).    (* raised outside the [try] *)

Definition loop_test (max_results : Z) (l : locals) : bool :=
  (Z.of_nat (length (found_papers l)) <? max_results)
  && (consecutive_seen_requests l <? max_consecutive_seen).

Definition page_request (query : string) (request_size : Z) (l : locals)
  : Search :=
  mkSearch query [] (Some request_size) true (Some (start_index l)).

(** [time.sleep(delay)] raises [ValueError] on a negative delay and
    [OverflowError] on a delay whose nanoseconds do not fit 64 bits.  The
    delay is read as the exact rational it denotes. *)
Definition sleep_limit : Q := 9223372036854775808 # 1000000000.

Definition sleep_raises (delay : Q) : bool :=
  negb (Qle_bool 0 delay) || Qle_bool sleep_limit delay.

(** The body of the [while] loop.  The progress message divides by
    [request_size] before the [try] is entered; [time.sleep] raises inside
    the [try]. *)
Definition loop_body (query : string) (max_results request_size : Z)
    (timeout_seconds : Q) (l : locals) (w : world) : flow :=
  if request_size =? 0 then Propagate ZeroDivisionError w
  else
    let search := page_request query request_size l in
    let w := mkWorld (seen_papers w) (disk w) (requests w ++ [search]) in
    match list_of_generator (results search) with
    | Raise _ => Break l w
    | Ok [] => Break l w
    | Ok batch =>
        match for_paper_in_results w max_results batch (found_papers l)
                (seen_in_this_run l) 0 with
        | (found, seen_run, _, Some _) =>
            Break (mkLocals found seen_run (start_index l)
                     (consecutive_seen_requests l)) w
        | (found, seen_run, new_papers_in_batch, None) =>
            let consecutive :=
              if new_papers_in_batch =? 0
              then consecutive_seen_requests l + 1 else 0 in
            let l' := mkLocals found seen_run (start_index l + request_size)
                        consecutive in
            if loop_test max_results l' then
              if sleep_raises timeout_seconds then Break l' w
              else Continue l' w
            else Continue l' w
        end
    end.

(** The [while] loop, unrolled at most [fuel] times; [None] when that is
    not enough to leave it. *)
Fixpoint while_loop (fuel : nat) (query : string)
    (max_results request_size : Z) (timeout_seconds : Q)
    (l : locals) (w : world) : option (result locals * world) :=
  match fuel with
  | O => None
  | S fuel' =>
      if loop_test max_results l then
        match loop_body query max_results request_size timeout_seconds l w with
        | Continue l' w' =>
            while_loop fuel' query max_results request_size timeout_seconds
              l' w'
        | Break l' w' => Some (Ok l', w')
        | Propagate e w' => Some (Raise e, w')
        end
      else Some (Ok l, w)
  end.

Definition initial_locals : locals := mkLocals [] ∅ 0 0.

(** A number of unrollings the loop never exhausts
    (see [search_papers_returns]). *)
Definition enough_fuel (max_results : Z) : nat :=
  S (Z.to_nat (3 * Z.max 0 max_results + 3)).

(** What follows the loop: mark and return. *)
Definition mark_and_return (current_date : string)
    (r : option (result locals * world))
  : option (result (list PaperData.t) * world) :=
  match r with
  | None => None
  | Some (Raise e, w') => Some (Raise e, w')
  | Some (Ok l, w') =>
      Some (Ok (found_papers l),
            mark_papers_as_seen current_date (found_papers l) w')
  end.

(** [search_papers]; the result is [None] only if the loop did not end
    within [enough_fuel]. *)
Definition search_papers (current_date : string)
    (search_terms categories : option (list string))
    (max_results request_size : Z) (timeout_seconds : Q) (w : world)
  : option (result (list PaperData.t) * world) :=
  let query := _construct_query search_terms categories in
  if negb (Py.truthy query) then Some (Ok [], w)
  else
    mark_and_return current_date
      (while_loop (enough_fuel max_results) query max_results request_size
         timeout_seconds initial_locals w).

(** [search_interpretability_papers] *)
Definition search_interpretability_papers (current_date : string)
    (max_results request_size : Z) (timeout_seconds : Q) (w : world) :=
  search_papers current_date (Some ["mechanistic interpretability"])
    (Some ["cs.AI"; "cs.LG"; "cs.CL"]) max_results request_size
    timeout_seconds w.

(** *** [search] *)

(** [search_terms] of [search] is a list of terms or one string. *)
Inductive terms_arg :=
  | TermList (terms : list string)
  | TermStr (term : string).

Definition quote_literal (term : string) : string :=
  if Py.contains " " term then Py.dquote +:+ term +:+ Py.dquote else term.

(** The query string [search] builds before it creates its request. *)
Definition search_query (search_terms : option terms_arg)
    (categories : option (list string)) : string :=
  let query_parts : list string := [] in
  let query_parts :=
    match categories with
    | None | Some [] => query_parts
    | Some cats =>
        let joined := Py.join " OR " ((fun cat => "cat:" +:+ cat) <$> cats) in
        if (1 <? Z.of_nat (length cats))
        then query_parts ++ ["(" +:+ joined +:+ ")"]
        else query_parts ++ [joined]
    end in
  let query_parts :=
    match search_terms with
    | None | Some (TermList []) | Some (TermStr EmptyString) => query_parts
    | Some (TermList terms) =>
        query_parts ++
          ["(" +:+ Py.join " OR " (quote_literal <$> terms) +:+ ")"]
    | Some (TermStr term) => query_parts ++ [quote_literal term]
    end in
  match query_parts with
  | [] => EmptyString
  | _ => Py.join " AND " query_parts
  end.

(** The [for paper in results_generator] loop of [search]: nothing is
    caught here, and the generator's own failure is met only if the loop
    has not left before. *)
Fixpoint for_paper_in_generator (w : world) (max_results : Z)
    (pending : list ArxivResult.t) (failure_at_end : option exn)
    (found : list PaperData.t) (seen_run : gset string)
  : result (list PaperData.t) :=
  match pending with
  | [] =>
      match failure_at_end with
      | Some e => Raise e
      | None => Ok found
      end
  | paper :: rest =>
      let paper_id := Py.last_segment "/" (ArxivResult.entry_id paper) in
      if in_dict paper_id (seen_papers w) || bool_decide (paper_id ∈ seen_run)
      then for_paper_in_generator w max_results rest failure_at_end found
             seen_run
      else
        paper_data ←
          (existing_summary_paper ← _load_summary_from_file (disk w) paper_id;
           match existing_summary_paper with
           | Some existing =>
               if Py.truthy_opt (PaperData.summary existing) then Ok existing
               else _convert_result paper
           | None => _convert_result paper
           end);
        let found := found ++ [paper_data] in
        let seen_run := {[paper_id]} ∪ seen_run in
        if Z.of_nat (length found) >=? max_results then Ok found
        else for_paper_in_generator w max_results rest failure_at_end found
               seen_run
  end.

Definition search (current_date : string) (search_terms : option terms_arg)
    (categories : option (list string)) (max_results : Z) (w : world)
  : result (list PaperData.t) * world :=
  let query := search_query search_terms categories in
  let request := mkSearch query [] (Some 100) true None in
  let w := mkWorld (seen_papers w) (disk w) (requests w ++ [request]) in
  let results_generator := results request in
  match for_paper_in_generator w max_results (items results_generator)
          (failure results_generator) [] ∅ with
  | Raise e => (Raise e, w)
  | Ok found => (Ok found, mark_papers_as_seen current_date found w)
  end.

(** *** [get_paper_by_id] and [get_pdf_url] *)

Definition note_seen (current_date paper_id : string) (w : world) : world :=
  if in_dict paper_id (seen_papers w) then w
  else _save_seen_papers
         (mkWorld (<[paper_id := current_date]> (seen_papers w))
                  (disk w) (requests w)).

(** [get_paper_by_id]; [next] on the generator gives its first item, raises
    [StopIteration] (caught: the answer is [None]) when it ends at once, and
    the generator's failure otherwise. *)
Definition get_paper_by_id (current_date paper_id : string) (w : world)
  : result (option PaperData.t) * world :=
  let from_arxiv :=
    let request := mkSearch EmptyString [paper_id] None false None in
    let w := mkWorld (seen_papers w) (disk w) (requests w ++ [request]) in
    match items (results request), failure (results request) with
    | result :: _, _ =>
        match _convert_result result with
        | Raise e => (Raise e, w)
        | Ok paper_data =>
            (Ok (Some paper_data), note_seen current_date paper_id w)
        end
    | [], Some e => (Raise e, w)
    | [], None => (Ok None, w)
    end in
  match _load_summary_from_file (disk w) paper_id with
  | Raise e => (Raise e, w)
  | Ok (Some existing) =>
      if Py.truthy_opt (PaperData.summary existing)
      then (Ok (Some existing), note_seen current_date paper_id w)
      else from_arxiv
  | Ok None => from_arxiv
  end.

Definition no_pdf_message (paper_id : string) : string :=
  "Paper with ID " +:+ paper_id +:+ " not found or has no PDF URL.".

(** [get_pdf_url] *)
Definition get_pdf_url (current_date paper_id : string) (w : world)
  : result string * world :=
  match get_paper_by_id current_date paper_id w with
  | (Raise e, w') => (Raise e, w')
  | (Ok (Some paper), w') =>
      match PaperData.pdf_url paper with
      | Some u =>
          if Py.truthy u then (Ok u, w')
          else (Raise (ValueError (no_pdf_message paper_id)), w')
      | None => (Raise (ValueError (no_pdf_message paper_id)), w')
      end
  | (Ok None, w') => (Raise (ValueError (no_pdf_message paper_id)), w')
  end.

End Client.


(** ** Loading the ledger: [_load_seen_papers] and [__init__] *)

(** Reading a ledger document at the declared type [Dict[str, str]].  As for
    [PaperData.from_dict], a document of another shape has no image in the
    typed embedding and is reported as [IllTypedRecord]. *)
Definition str_of (j : json) : option string :=
  match j with JStr s => Some s | _ => None end.

Definition ledger_of_json (data : json) : result (gmap string string) :=
  match data with
  | JDict m =>
      if bool_decide (map_Forall (fun _ v => is_Some (str_of v)) m)
      then Ok (omap str_of m)
      else Raise IllTypedRecord
  | _ => Raise IllTypedRecord
  end.

(** [_load_seen_papers]: the document of the ledger file; the empty dict when
    the file is missing, cannot be read or is not JSON.  Only
    [JSONDecodeError] and [IOError] are caught. *)
Definition _load_seen_papers (d : gmap string file)
  : result (gmap string string) :=
  match d !! SEEN_PAPERS_FILE with
  | Some (Document data) => ledger_of_json data
  | Some Undecodable => Raise UnicodeDecodeError
  | Some Unreadable | Some Garbled => Ok ∅
  | None => Ok ∅
  end.

(** * Sample inputs

    Concrete records, worlds and remote services at which the properties
    below are instantiated. *)

Definition sample_record : PaperData.t :=
  {| PaperData.id := "save002";
     PaperData.title := "Paper to Save";
     PaperData.url := "http://example.com/save002";
     PaperData.pdf_url := None;
     PaperData.doi := None;
     PaperData.comment := None;
     PaperData.published := Some "2023-01-02T00:00:00Z";
     PaperData.authors := Some ["Saver One"];
     PaperData.abstract := None;
     PaperData.keywords := None;
     PaperData.summary := Some "This summary should be saved to a file.";
     PaperData.categories := None |}.

Definition empty_world : world := mkWorld ∅ ∅ [].


(** A remote result as the service returns it, and a second one. *)
Definition paper_one : ArxivResult.t :=
  {| ArxivResult.entry_id := "http://arxiv.org/abs/2301.00001v1";
     ArxivResult.title := "First paper";
     ArxivResult.pdf_url := Some (Some "http://arxiv.org/pdf/2301.00001v1");
     ArxivResult.published := Some "2023-01-01T00:00:00+00:00";
     ArxivResult.authors := ["Author A"];
     ArxivResult.summary := "Abstract of the first paper.";
     ArxivResult.categories := ["cs.AI"];
     ArxivResult.doi := Some None;
     ArxivResult.comment := Some None |}.

Definition paper_two : ArxivResult.t :=
  {| ArxivResult.entry_id := "http://arxiv.org/abs/2301.00002v1";
     ArxivResult.title := "Second paper";
     ArxivResult.pdf_url := Some (Some "http://arxiv.org/pdf/2301.00002v1");
     ArxivResult.published := Some "2023-01-02T00:00:00+00:00";
     ArxivResult.authors := ["Author B"];
     ArxivResult.summary := "Abstract of the second paper.";
     ArxivResult.categories := ["cs.LG"];
     ArxivResult.doi := Some None;
     ArxivResult.comment := Some None |}.

(** Writes that always succeed. *)
Definition always_writes : string → bool := fun _ => true.

(** A service that answers every request with [paper_one]. *)
Definition one_paper_service : Search → generator :=
  fun _ => mkGen [paper_one] None.

(** * Auxiliary definitions for the statements *)

(** The record [search_papers] and [search] take for a new candidate: the
    expression their loops evaluate between the duplicate test and the
    [append]. *)
Definition record_for (d : gmap string file) (paper : ArxivResult.t)
  : result PaperData.t :=
  existing_summary_paper ←
    _load_summary_from_file d
      (Py.last_segment "/" (ArxivResult.entry_id paper));
  match existing_summary_paper with
  | Some existing =>
      if Py.truthy_opt (PaperData.summary existing) then Ok existing
      else _convert_result paper
  | None => _convert_result paper
  end.

(** The id [search_papers] derives from a remote result. *)
Definition paper_id_of (paper : ArxivResult.t) : string :=
  Py.last_segment "/" (ArxivResult.entry_id paper).

(** The test that skips a candidate. *)
Definition already_seen (w : world) (seen_run : gset string)
    (paper : ArxivResult.t) : bool :=
  in_dict (paper_id_of paper) (seen_papers w)
  || bool_decide (paper_id_of paper ∈ seen_run).

(** The content cache is typed and keyed by record id: a document stored as
    [paper_summaries/<id>.json], for an id without a slash, either is refused
    by the constructor with [TypeError] or holds field values of the declared
    types, and then the record carries the id the file is named after.
    [save_summary_to_file] writes files of this form only. *)
Definition cache_keyed_by_id (d : gmap string file) : Prop :=
  ∀ paper_id data,
    Py.contains "/" paper_id = false →
    d !! summary_filepath paper_id = Some (Document data) →
    match PaperData.from_dict data with
    | Ok p => PaperData.id p = paper_id
    | Raise e => e = TypeError
    end.

(** The ids of a list of records. *)
Definition ids_of (papers : list PaperData.t) : list string :=
  PaperData.id <$> papers.

(** What holds of [found_papers] and [seen_in_this_run] throughout a call:
    the ids found are pairwise distinct, they are exactly the members of
    [seen_in_this_run], and none was in [seen_papers] at the start. *)
Definition run_invariant (w : world) (found : list PaperData.t)
    (seen_run : gset string) : Prop :=
  NoDup (ids_of found)
  ∧ (∀ x, x ∈ seen_run ↔ x ∈ ids_of found)
  ∧ (∀ x, x ∈ seen_run → in_dict x (seen_papers w) = false).


(** A bound on the iterations left: each complete iteration lowers it. *)
Definition loop_measure (max_results : Z) (l : locals) : nat :=
  Z.to_nat (3 * (max_results - Z.of_nat (length (found_papers l)))
            + (max_consecutive_seen - consecutive_seen_requests l)).

(** The world with one more request in its log. *)
Definition with_request (w : world) (s : Search) : world :=
  mkWorld (seen_papers w) (disk w) (requests w ++ [s]).

(** A record whose summary is blank but not empty, and a world whose content
    cache holds it under the id of [paper_one]. *)
Definition blank_record : PaperData.t :=
  {| PaperData.id := "2301.00001v1";
     PaperData.title := "Cached title";
     PaperData.url := "http://arxiv.org/abs/2301.00001v1";
     PaperData.pdf_url := None;
     PaperData.doi := None;
     PaperData.comment := None;
     PaperData.published := None;
     PaperData.authors := None;
     PaperData.abstract := None;
     PaperData.keywords := None;
     PaperData.summary := Some "   ";
     PaperData.categories := None |}.

Definition blank_cache_world : world :=
  mkWorld ∅
    {[ summary_filepath "2301.00001v1" := Document (PaperData.to_dict blank_record) ]}
    [].

(** A cached record with a summary and an empty [pdf_url]. *)
Definition no_url_record : PaperData.t :=
  {| PaperData.id := "2301.00003v1";
     PaperData.title := "Cached without link";
     PaperData.url := "http://arxiv.org/abs/2301.00003v1";
     PaperData.pdf_url := Some EmptyString;
     PaperData.doi := None;
     PaperData.comment := None;
     PaperData.published := None;
     PaperData.authors := None;
     PaperData.abstract := None;
     PaperData.keywords := None;
     PaperData.summary := Some "A summary.";
     PaperData.categories := None |}.

Definition no_url_world : world :=
  mkWorld ∅
    {[ summary_filepath "2301.00003v1" := Document (PaperData.to_dict no_url_record) ]}
    [].

(** A clock reading. *)
Definition a_date : string := "2024-01-01T00:00:00".

(** The records [_convert_result] makes of [paper_one] and [paper_two]. *)
Definition record_one : PaperData.t :=
  {| PaperData.id := "2301.00001v1";
     PaperData.title := "First paper";
     PaperData.url := "http://arxiv.org/abs/2301.00001v1";
     PaperData.pdf_url := Some "https://arxiv.org/pdf/2301.00001v1";
     PaperData.doi := None;
     PaperData.comment := None;
     PaperData.published := Some "2023-01-01T00:00:00+00:00";
     PaperData.authors := Some ["Author A"];
     PaperData.abstract := Some "Abstract of the first paper.";
     PaperData.keywords := Some ["cs.AI"];
     PaperData.summary := None;
     PaperData.categories := Some ["cs.AI"] |}.

Definition record_two : PaperData.t :=
  {| PaperData.id := "2301.00002v1";
     PaperData.title := "Second paper";
     PaperData.url := "http://arxiv.org/abs/2301.00002v1";
     PaperData.pdf_url := Some "https://arxiv.org/pdf/2301.00002v1";
     PaperData.doi := None;
     PaperData.comment := None;
     PaperData.published := Some "2023-01-02T00:00:00+00:00";
     PaperData.authors := Some ["Author B"];
     PaperData.abstract := Some "Abstract of the second paper.";
     PaperData.keywords := Some ["cs.LG"];
     PaperData.summary := None;
     PaperData.categories := Some ["cs.LG"] |}.

(** A world that has seen [paper_one] already. *)
Definition seen_one_world : world :=
  mkWorld {[ "2301.00001v1" := "2023-12-31T00:00:00" ]} ∅ [].

(** A world whose content cache was filled by [save_summary_to_file]. *)
Definition saved_world : world :=
  save_summary_to_file always_writes sample_record empty_world.

(** A record with the id of [paper_two] and a summary, and a world whose
    content cache holds it in the file named after [paper_one]. *)
Definition misfiled_record : PaperData.t :=
  {| PaperData.id := "2301.00002v1";
     PaperData.title := "Second paper";
     PaperData.url := "http://arxiv.org/abs/2301.00002v1";
     PaperData.pdf_url := None;
     PaperData.doi := None;
     PaperData.comment := None;
     PaperData.published := None;
     PaperData.authors := None;
     PaperData.abstract := None;
     PaperData.keywords := None;
     PaperData.summary := Some "A summary of the second paper.";
     PaperData.categories := None |}.

Definition misfiled_world : world :=
  mkWorld ∅
    {[ summary_filepath "2301.00001v1"
       := Document (PaperData.to_dict misfiled_record) ]}
    [].

(** The document of [record_one] with a number for [published], a value
    that is not of the declared type, in the file named after [paper_one]. *)
Definition ill_typed_document : json :=
  match PaperData.to_dict record_one with
  | JDict m => JDict (<["published" := JNum 2023]> m)
  | j => j
  end.

Definition ill_typed_world : world :=
  mkWorld ∅
    {[ summary_filepath "2301.00001v1" := Document ill_typed_document ]}
    [].

(** A service that answers every request with the same two papers. *)
Definition two_paper_service : Search → generator :=
  fun _ => mkGen [paper_one; paper_two] None.



Definition world_after_first_page : world :=
  with_request empty_world (page_request "cat:cs.AI" 20 initial_locals).

(** The world a first call for one paper leaves. *)
Definition world_after_first_call : world :=
  mark_papers_as_seen always_writes a_date [record_one] world_after_first_page.

(** The world a call for five papers leaves against [one_paper_service],
    which has one paper only. *)
Definition world_after_stalled_call : world :=
  match search_papers one_paper_service always_writes a_date None
          (Some ["cs.AI"]) 5 20 1%Q empty_world with
  | Some (_, w') => w'
  | None => empty_world
  end.

(** A service whose every request fails in the transport. *)
Definition failing_service : Search → generator :=
  fun _ => mkGen [] (Some (TransportError "connection reset")).

(** A world whose summary file for [paper_one] is not text. *)
Definition undecodable_world : world :=
  mkWorld ∅ {[ summary_filepath "2301.00001v1" := Undecodable ]} [].

(** The worlds the client's own operations lead to, starting without any
    file on disk, when the ids handed to it hold no slash. *)
Inductive client_world (results : Search → generator)
    (write_ok : string → bool) : world → Prop :=
  | client_world_start seen reqs :
      client_world results write_ok (mkWorld seen ∅ reqs)
  | client_world_save p w :
      Py.contains "/" (PaperData.id p) = false →
      client_world results write_ok w →
      client_world results write_ok (save_summary_to_file write_ok p w)
  | client_world_mark now papers w :
      client_world results write_ok w →
      client_world results write_ok (mark_papers_as_seen write_ok now papers w)
  | client_world_search_papers now terms cats max_results request_size timeout
      w res w' :
      client_world results write_ok w →
      search_papers results write_ok now terms cats max_results request_size
        timeout w = Some (res, w') →
      client_world results write_ok w'
  | client_world_search now terms cats max_results w :
      client_world results write_ok w →
      client_world results write_ok
        (search results write_ok now terms cats max_results w).2
  | client_world_get_paper_by_id now paper_id w :
      Py.contains "/" paper_id = false →
      client_world results write_ok w →
      client_world results write_ok
        (get_paper_by_id results write_ok now paper_id w).2
  | client_world_get_pdf_url now paper_id w :
      Py.contains "/" paper_id = false →
      client_world results write_ok w →
      client_world results write_ok
        (get_pdf_url results write_ok now paper_id w).2.

(** The disk [d'] is [d], possibly with the ledger file rewritten. *)
Definition ledger_rewritten (d d' : gmap string file) : Prop :=
  d' = d ∨ ∃ doc, d' = <[SEEN_PAPERS_FILE := Document doc]> d.

(** * Further definitions for the statements *)

(** A string made of whitespace only. *)
Fixpoint all_space (s : string) : bool :=
  match s with
  | EmptyString => true
  | String c s' => Py.isspace c && all_space s'
  end.

(** The ledger file holds what the client has in [seen_papers]. *)
Definition ledger_synced (w : world) : Prop :=
  _load_seen_papers (disk w) = Ok (seen_papers w).

(** The dictionary [PaperData.to_dict] builds, as a map. *)
Definition dict_of (p : PaperData.t) : gmap string json :=
  match PaperData.to_dict p with JDict m => m | _ => ∅ end.

(** The page requests of [search_papers] at offsets [0], [size], [2 * size],
    ... , [n] of them. *)
Definition page_requests (query : string) (size : Z) (n : nat) : list Search :=
  (fun k : nat => mkSearch query [] (Some size) true (Some (Z.of_nat k * size)))
    <$> seq 0 n.

(** A service that has nothing under any request. *)
Definition empty_service : Search → generator :=
  fun _ => mkGen [] None.

(** A negative delay. *)
Definition negative_delay : Q := (-1)%Q.
(** * Properties *)

(** ** Serialization of records *)

Lemma as_strs_fmap (l : list string) : PaperData.as_strs (JStr <$> l) = Ok l.
Proof.
  induction l as [|s l IH]; [reflexivity|].
  cbn [fmap list_fmap PaperData.as_strs]. cbn in IH. by rewrite IH.
Qed.

Lemma as_opt_str_opt_str (o : option string) :
  PaperData.as_opt_str (PaperData.opt_str o) = Ok o.
Proof. by destruct o. Qed.

Lemma as_opt_strs_opt_strs (o : option (list string)) :
  PaperData.as_opt_strs (PaperData.opt_strs o) = Ok o.
Proof.
  destruct o as [l|]; [|reflexivity].
  cbn [PaperData.opt_strs PaperData.as_opt_strs]. by rewrite as_strs_fmap.
Qed.

(** [from_dict] undoes [to_dict]. *)
Lemma from_dict_to_dict (p : PaperData.t) :
  PaperData.from_dict (PaperData.to_dict p) = Ok p.
Proof.
  destruct p as [i t u pdf d c pub au ab kw su ca].
  unfold PaperData.from_dict, PaperData.to_dict, PaperData.kwarg.
  cbn [PaperData.id PaperData.title PaperData.url PaperData.pdf_url
       PaperData.doi PaperData.comment PaperData.published PaperData.authors
       PaperData.abstract PaperData.keywords PaperData.summary
       PaperData.categories].
  generalize (as_opt_str_opt_str pdf) (as_opt_str_opt_str d)
    (as_opt_str_opt_str c) (as_opt_str_opt_str pub) (as_opt_str_opt_str ab)
    (as_opt_str_opt_str su) (as_opt_strs_opt_strs au)
    (as_opt_strs_opt_strs kw) (as_opt_strs_opt_strs ca).
  generalize (PaperData.opt_str pdf) (PaperData.opt_str d)
    (PaperData.opt_str c) (PaperData.opt_str pub) (PaperData.opt_str ab)
    (PaperData.opt_str su) (PaperData.opt_strs au) (PaperData.opt_strs kw)
    (PaperData.opt_strs ca).
  intros j1 j2 j3 j4 j5 j6 j7 j8 j9 H1 H2 H3 H4 H5 H6 H7 H8 H9.
  set (m := list_to_map _).
  assert (Hdom : dom m ⊆ PaperData.field_names) by (vm_compute; set_solver).
  rewrite (bool_decide_eq_true_2 _ Hdom).
  assert (m !! "id" = Some (JStr i)) as -> by reflexivity.
  assert (m !! "title" = Some (JStr t)) as -> by reflexivity.
  assert (m !! "url" = Some (JStr u)) as -> by reflexivity.
  assert (m !! "pdf_url" = Some j1) as -> by reflexivity.
  assert (m !! "doi" = Some j2) as -> by reflexivity.
  assert (m !! "comment" = Some j3) as -> by reflexivity.
  assert (m !! "published" = Some j4) as -> by reflexivity.
  assert (m !! "abstract" = Some j5) as -> by reflexivity.
  assert (m !! "summary" = Some j6) as -> by reflexivity.
  assert (m !! "authors" = Some j7) as -> by reflexivity.
  assert (m !! "keywords" = Some j8) as -> by reflexivity.
  assert (m !! "categories" = Some j9) as -> by reflexivity.
  cbn [default from_option PaperData.as_str mbind result_bind]. unfold id.
  rewrite H1, H2, H3, H4, H5, H6, H7, H8, H9. reflexivity.
Qed.

(** ** The content cache: saving and loading one record *)

Section ContentCache.

Variable write_ok : string → bool.

(** After a successful write the file holds the record's dictionary. *)
Lemma save_summary_to_file_disk (p : PaperData.t) (w : world) :
  blank_summary p = false →
  write_ok (summary_filepath (PaperData.id p)) = true →
  disk (save_summary_to_file write_ok p w) !! summary_filepath (PaperData.id p)
  = Some (Document (PaperData.to_dict p)).
Proof.
  intros Hblank Hok. unfold save_summary_to_file, write_file.
  rewrite Hblank, Hok. cbn [disk]. apply lookup_insert_eq.
Qed.

(** A record with a blank summary is not written. *)
Lemma save_summary_to_file_blank (p : PaperData.t) (w : world) :
  blank_summary p = true → save_summary_to_file write_ok p w = w.
Proof. intros Hblank. unfold save_summary_to_file. by rewrite Hblank. Qed.

(** C8. Saving a record whose summary is neither null nor blank with
    [save_summary_to_file] and loading it back with
    [_load_summary_from_file] under the same id gives a record equal to the
    original in all fields, when the write to the summary file succeeds. *)
Theorem save_then_load_roundtrip (p : PaperData.t) (w : world) :
  blank_summary p = false →
  write_ok (summary_filepath (PaperData.id p)) = true →
  _load_summary_from_file (disk (save_summary_to_file write_ok p w))
    (PaperData.id p) = Ok (Some p).
Proof.
  intros Hblank Hok. unfold _load_summary_from_file.
  rewrite (save_summary_to_file_disk p w Hblank Hok).
  by rewrite from_dict_to_dict.
Qed.

End ContentCache.

Lemma save_then_load_roundtrip_witness :
  _load_summary_from_file
    (disk (save_summary_to_file (fun _ => true) sample_record empty_world))
    "save002" = Ok (Some sample_record).
Proof.
  apply (save_then_load_roundtrip (fun _ => true) sample_record empty_world);
    reflexivity.
Defined.

(** ** Conversion of a remote result *)

(** C9. Whenever [_convert_result] produces a record, its [keywords] field is
    the very value of its [categories] field, namely the categories of the
    remote result; the conversion fails only when the result's [pdf_url]
    attribute is [None]. *)
Theorem convert_result_keywords_are_categories (r : ArxivResult.t) :
  match _convert_result r with
  | Ok p =>
      PaperData.keywords p = PaperData.categories p
      ∧ PaperData.categories p = Some (ArxivResult.categories r)
  | Raise e => ArxivResult.pdf_url r = Some None ∧ e = AttributeError
  end.
Proof.
  unfold _convert_result.
  destruct (ArxivResult.pdf_url r) as [[u|]|]; cbn; auto.
Qed.

Lemma convert_result_id (r : ArxivResult.t) (p : PaperData.t) :
  _convert_result r = Ok p →
  PaperData.id p = Py.last_segment "/" (ArxivResult.entry_id r).
Proof.
  unfold _convert_result.
  destruct (ArxivResult.pdf_url r) as [[u|]|]; cbn; intros H;
    by (inversion H || discriminate).
Qed.


(** ** The two query builders *)

(** C6. On the terms ["a b"; "c"] (the first holds a space) and no category,
    [_construct_query], used by [search_papers], and the query built by
    [search] differ: the former wraps the phrase in [%22], the latter in
    literal double quotes. *)
Theorem query_builders_disagree :
  ∃ (terms : list string) (categories : option (list string)),
    (∃ term, term ∈ terms ∧ Py.contains " " term = true)
    ∧ _construct_query (Some terms) categories = "(%22a b%22 OR c)"
    ∧ search_query (Some (TermList terms)) categories
      = "(" +:+ Py.dquote +:+ "a b" +:+ Py.dquote +:+ " OR c)"
    ∧ _construct_query (Some terms) categories
      ≠ search_query (Some (TermList terms)) categories.
Proof.
  exists ["a b"; "c"], None. repeat split.
  - exists "a b". split; [set_solver | reflexivity].
  - discriminate.
Qed.

(** For a single phrase the builders also disagree on the parentheses. *)
Example query_builders_single_phrase :
  _construct_query (Some ["mechanistic interpretability"]) None
  = "%22mechanistic interpretability%22"
  ∧ search_query (Some (TermList ["mechanistic interpretability"])) None
    = "(" +:+ Py.dquote +:+ "mechanistic interpretability" +:+ Py.dquote +:+ ")".
Proof. split; reflexivity. Qed.

(** ** No search criteria *)

Lemma construct_query_nothing :
  _construct_query None None = EmptyString
  ∧ _construct_query (Some []) (Some []) = EmptyString
  ∧ _construct_query None (Some []) = EmptyString
  ∧ _construct_query (Some []) None = EmptyString.
Proof. repeat split. Qed.

Section NoCriteria.

Variable results : Search → generator.
Variable write_ok : string → bool.

(** [search_papers] returns the empty list at once, and the world, with its
    log of requests, is untouched. *)
Lemma search_papers_without_criteria
    (now : string) (max_results request_size : Z) (timeout : Q) (w : world) :
  search_papers results write_ok now None None max_results request_size
    timeout w = Some (Ok [], w).
Proof. reflexivity. Qed.

(** [search] builds the empty query too, but sends it. *)
Lemma search_without_criteria_requests
    (now : string) (max_results : Z) (w : world) :
  search_query None None = EmptyString
  ∧ requests (search results write_ok now None None max_results w).2
    = requests w ++ [mkSearch EmptyString [] (Some 100) true None].
Proof.
  split; [reflexivity|]. unfold search. cbn [search_query].
  destruct (for_paper_in_generator _ _ _ _ _ _); reflexivity.
Qed.

End NoCriteria.

(** C5. With neither terms nor categories, [search] builds the empty query
    and still sends it: one request is added to the log whatever the service
    is, and against a service that answers with a paper the call returns that
    paper instead of the empty list.  ([search_papers] does return at once,
    see [search_papers_without_criteria].) *)
Theorem search_without_criteria_contacts_remote :
  (∀ results write_ok now max_results w,
     requests (search results write_ok now None None max_results w).2
     = requests w ++ [mkSearch (search_query None None) [] (Some 100) true None])
  ∧ search_query None None = EmptyString
  ∧ ∃ p, _convert_result paper_one = Ok p
      ∧ (search one_paper_service always_writes "2024-01-01T00:00:00" None None
           10 empty_world).1 = Ok [p].
Proof.
  split; [|split].
  - intros. apply search_without_criteria_requests.
  - reflexivity.
  - eexists. split; [reflexivity|]. vm_compute. reflexivity.
Qed.

(** ** The loop over one batch *)

Section Batch.

Variable w : world.
Variable max_results : Z.

(** Induction following the cases of [for_paper_in_results]. *)
Lemma for_paper_in_results_cases
    (R : list ArxivResult.t → list PaperData.t → gset string → Z →
         list PaperData.t * gset string * Z * option exn → Prop) :
  (∀ found run new, R [] found run new (found, run, new, None)) →
  (∀ paper rest found run new out,
     already_seen w run paper = true →
     R rest found run new out → R (paper :: rest) found run new out) →
  (∀ paper rest found run new e,
     already_seen w run paper = false →
     record_for (disk w) paper = Raise e →
     R (paper :: rest) found run new (found, run, new, Some e)) →
  (∀ paper rest found run new paper_data,
     already_seen w run paper = false →
     record_for (disk w) paper = Ok paper_data →
     Z.of_nat (length (found ++ [paper_data])) >= max_results →
     R (paper :: rest) found run new
       (found ++ [paper_data], {[paper_id_of paper]} ∪ run, new + 1, None)) →
  (∀ paper rest found run new paper_data out,
     already_seen w run paper = false →
     record_for (disk w) paper = Ok paper_data →
     Z.of_nat (length (found ++ [paper_data])) < max_results →
     R rest (found ++ [paper_data]) ({[paper_id_of paper]} ∪ run) (new + 1)
       out →
     R (paper :: rest) found run new out) →
  ∀ batch found run new,
    R batch found run new
      (for_paper_in_results w max_results batch found run new).
Proof.
  intros Hnil Hskip Hraise Hquota Hnext.
  induction batch as [|paper rest IH]; intros found run new.
  - apply Hnil.
  - cbn [for_paper_in_results].
    change (in_dict _ (seen_papers w) || bool_decide (_ ∈ run))
      with (already_seen w run paper).
    destruct (already_seen w run paper) eqn:Hseen.
    + apply Hskip; [done | apply IH].
    + change (_ ≫= _) with (record_for (disk w) paper).
      destruct (record_for (disk w) paper) as [paper_data|e] eqn:Hrec.
      * destruct (Z.geb_spec (Z.of_nat (length (found ++ [paper_data])))
                    max_results) as [Hge|Hlt].
        -- apply Hquota; [done | done | lia].
        -- apply Hnext with paper_data; [done | done | lia | apply IH].
      * by apply Hraise.
Qed.

End Batch.

(** ** Strings: the id of a remote result holds no slash *)

Lemma string_app_assoc (s t u : string) : (s +:+ t) +:+ u = s +:+ t +:+ u.
Proof.
  induction s as [|c s IH]; [done|].
  change (String c ((s +:+ t) +:+ u) = String c (s +:+ t +:+ u)).
  by rewrite IH.
Qed.

Lemma string_app_nil_r (s : string) : s +:+ EmptyString = s.
Proof.
  induction s as [|c s IH]; [done|].
  change (String c (s +:+ EmptyString) = String c s). by rewrite IH.
Qed.

Lemma contains_app c s t :
  Py.contains c (s +:+ t) = Py.contains c s || Py.contains c t.
Proof.
  induction s as [|d s IH]; [done|].
  change (String d s +:+ t) with (String d (s +:+ t)).
  cbn [Py.contains]. by destruct (Ascii.eqb c d).
Qed.

(** The last segment holds no separator and ends the string. *)
Lemma last_segment_from_spec c acc s :
  Py.contains c acc = false →
  Py.contains c (Py.last_segment_from c acc s) = false
  ∧ ∃ before, acc +:+ s = before +:+ Py.last_segment_from c acc s.
Proof.
  revert acc. induction s as [|d s IH]; intros acc Hacc.
  - cbn [Py.last_segment_from]. split; [done|]. exists EmptyString.
    by rewrite string_app_nil_r.
  - cbn [Py.last_segment_from]. destruct (Ascii.eqb c d) eqn:Hcd.
    + destruct (IH EmptyString eq_refl) as [Hno [before Hbefore]].
      split; [done|]. exists (acc +:+ String d before).
      rewrite string_app_assoc.
      change (String d before +:+ ?x) with (String d (before +:+ x)).
      by rewrite <- Hbefore.
    + destruct (IH (acc +:+ String d EmptyString)) as [Hno [before Hbefore]].
      { rewrite contains_app, Hacc. cbn. by rewrite Hcd. }
      split; [done|]. exists before. rewrite <- Hbefore.
      by rewrite string_app_assoc.
Qed.

Lemma paper_id_of_no_slash (paper : ArxivResult.t) :
  Py.contains "/" (paper_id_of paper) = false.
Proof.
  apply (last_segment_from_spec "/" EmptyString (ArxivResult.entry_id paper)
           eq_refl).
Qed.

(** What a typed cache keyed by id gives when a summary file is read. *)
Lemma load_summary_keyed (d : gmap string file) (paper_id : string)
    (p : PaperData.t) :
  cache_keyed_by_id d →
  Py.contains "/" paper_id = false →
  _load_summary_from_file d paper_id = Ok (Some p) →
  PaperData.id p = paper_id.
Proof.
  intros Hkeyed Hno. unfold _load_summary_from_file.
  destruct (d !! summary_filepath paper_id) as [[| | |data]|] eqn:Hfile;
    try done.
  specialize (Hkeyed _ _ Hno Hfile).
  destruct (PaperData.from_dict data); cbn; [|done]. by intros [= <-].
Qed.

Lemma record_for_id (d : gmap string file) (paper : ArxivResult.t)
    (paper_data : PaperData.t) :
  cache_keyed_by_id d →
  record_for d paper = Ok paper_data →
  PaperData.id paper_data = paper_id_of paper.
Proof.
  intros Hkeyed. unfold record_for.
  destruct (_load_summary_from_file d _) as [[existing|]|e] eqn:Hload;
    cbn [mbind result_bind]; [| |discriminate].
  - destruct (Py.truthy_opt _).
    + intros [= <-].
      apply (load_summary_keyed d _ _ Hkeyed (paper_id_of_no_slash paper) Hload).
    + apply convert_result_id.
  - apply convert_result_id.
Qed.

Lemma already_seen_false (w : world) (run : gset string) (paper : ArxivResult.t) :
  already_seen w run paper = false →
  in_dict (paper_id_of paper) (seen_papers w) = false ∧ paper_id_of paper ∉ run.
Proof.
  unfold already_seen. intros [H1 H2]%orb_false_iff. split; [done|].
  by apply bool_decide_eq_false in H2.
Qed.

Section BatchFacts.

Variable w : world.
Variable max_results : Z.

Local Abbreviation batch_loop := (for_paper_in_results w max_results).

(** The loop only appends to [found_papers], and counts what it appends. *)
Lemma for_paper_in_results_appends batch found run new :
  ∃ added,
    (batch_loop batch found run new).1.1.1 = found ++ added
    ∧ (batch_loop batch found run new).1.2 = new + Z.of_nat (length added).
Proof.
  revert batch found run new.
  apply (for_paper_in_results_cases w max_results
           (fun _ found _ new out =>
              ∃ added, out.1.1.1 = found ++ added
                       ∧ out.1.2 = new + Z.of_nat (length added))).
  - intros. exists []. cbn. rewrite app_nil_r. split; [done | lia].
  - auto.
  - intros. exists []. cbn. rewrite app_nil_r. split; [done | lia].
  - intros. exists [paper_data]. cbn. split; [done | lia].
  - intros ??????? _ _ _ (added & -> & ->).
    exists (paper_data :: added). rewrite <- app_assoc. cbn [length app].
    split; [done | lia].
Qed.

(** It stops at the quota. *)
Lemma for_paper_in_results_quota batch found run new :
  Z.of_nat (length found) < max_results →
  Z.of_nat (length (batch_loop batch found run new).1.1.1) ≤ max_results.
Proof.
  revert batch found run new.
  apply (for_paper_in_results_cases w max_results
           (fun _ found _ _ out =>
              Z.of_nat (length found) < max_results →
              Z.of_nat (length out.1.1.1) ≤ max_results)); cbn.
  - intros; lia.
  - auto.
  - intros; lia.
  - intros ?????? _ _ Hge. rewrite length_app in *. cbn in *. lia.
  - intros ??????? _ _ Hlt IH _. apply IH. lia.
Qed.

(** It keeps the run invariant, when the cache is keyed by id. *)
Lemma for_paper_in_results_invariant batch found run new :
  cache_keyed_by_id (disk w) →
  run_invariant w found run →
  run_invariant w (batch_loop batch found run new).1.1.1
    (batch_loop batch found run new).1.1.2.
Proof.
  intros Hkeyed. revert batch found run new.
  assert (Hstep : ∀ paper found run paper_data,
            already_seen w run paper = false →
            record_for (disk w) paper = Ok paper_data →
            run_invariant w found run →
            run_invariant w (found ++ [paper_data])
              ({[paper_id_of paper]} ∪ run)).
  { intros paper found run paper_data [Hnew Hnotin]%already_seen_false
      Hid%record_for_id (Hnodup & Hrun & Hfresh); [|done].
    unfold run_invariant, ids_of in *. rewrite fmap_app. cbn [fmap list_fmap].
    rewrite Hid. split; [|split].
    - apply NoDup_app. split; [done|]. split; [|apply NoDup_singleton].
      intros x Hx ->%list_elem_of_singleton. apply Hnotin. by apply Hrun.
    - intros x. rewrite elem_of_union, elem_of_singleton, elem_of_app,
        list_elem_of_singleton, Hrun. tauto.
    - intros x [->%elem_of_singleton|Hx]%elem_of_union; auto. }
  apply (for_paper_in_results_cases w max_results
           (fun _ found run _ out =>
              run_invariant w found run →
              run_invariant w out.1.1.1 out.1.1.2)); cbn; eauto.
Qed.

(** A batch of already seen papers changes nothing. *)
Lemma for_paper_in_results_all_seen batch found run new :
  (∀ paper, paper ∈ batch → already_seen w run paper = true) →
  batch_loop batch found run new = (found, run, new, None).
Proof.
  induction batch as [|paper rest IH]; intros Hall; [reflexivity|].
  cbn [for_paper_in_results].
  change (in_dict _ (seen_papers w) || bool_decide (_ ∈ run))
    with (already_seen w run paper).
  rewrite (Hall paper) by set_solver. apply IH. intros. apply Hall. set_solver.
Qed.

End BatchFacts.

(** ** Marking records as seen *)

Lemma foldl_insert_lookup (now : string) (papers : list PaperData.t)
    (seen : gmap string string) (x : string) :
  foldl (fun seen paper_data => <[PaperData.id paper_data := now]> seen)
    seen papers !! x
  = if bool_decide (x ∈ ids_of papers) then Some now else seen !! x.
Proof.
  revert seen. induction papers as [|p papers IH]; intros seen; [done|].
  cbn [foldl]. rewrite IH. unfold ids_of. cbn [fmap list_fmap].
  destruct (decide (x = PaperData.id p)) as [->|Hne].
  - rewrite lookup_insert_eq, (bool_decide_eq_true_2 (_ ∈ _ :: _)) by set_solver.
    by destruct (bool_decide _).
  - rewrite lookup_insert_ne by done.
    apply (f_equal (fun b : bool => if b then Some now else seen !! x)).
    apply bool_decide_ext. rewrite elem_of_cons. tauto.
Qed.

Section Marking.

Variable write_ok : string → bool.

Lemma mark_papers_as_seen_lookup now papers w x :
  seen_papers (mark_papers_as_seen write_ok now papers w) !! x
  = if bool_decide (x ∈ ids_of papers) then Some now else seen_papers w !! x.
Proof. cbn. apply foldl_insert_lookup. Qed.


Lemma mark_papers_as_seen_keeps now papers w x :
  in_dict x (seen_papers w) = true →
  in_dict x (seen_papers (mark_papers_as_seen write_ok now papers w)) = true.
Proof.
  unfold in_dict. rewrite mark_papers_as_seen_lookup.
  by case_bool_decide.
Qed.

Lemma mark_papers_as_seen_requests now papers w :
  requests (mark_papers_as_seen write_ok now papers w) = requests w.
Proof. reflexivity. Qed.

End Marking.

(** ** The pagination loop *)

Section Loop.

Variable results : Search → generator.
Variable query : string.
Variable max_results request_size : Z.
Variable timeout_seconds : Q.

Local Abbreviation body :=
  (loop_body results query max_results request_size timeout_seconds).
Local Abbreviation loop :=
  (fun fuel => while_loop results fuel query max_results request_size
                 timeout_seconds).
Local Abbreviation request_of := (page_request query request_size).

(** What an iteration does, case by case. *)
Lemma loop_body_cases (l : locals) (w : world) :
  (request_size = 0 ∧ body l w = Propagate ZeroDivisionError w)
  ∨ (request_size ≠ 0
     ∧ let w1 := with_request w (request_of l) in
       match list_of_generator (results (request_of l)) with
       | Raise _ | Ok [] => body l w = Break l w1
       | Ok batch =>
           match for_paper_in_results w1 max_results batch (found_papers l)
                   (seen_in_this_run l) 0 with
           | (found, run, _, Some _) =>
               body l w = Break (mkLocals found run (start_index l)
                                   (consecutive_seen_requests l)) w1
           | (found, run, new, None) =>
               let l' := mkLocals found run (start_index l + request_size)
                           (if new =? 0 then consecutive_seen_requests l + 1
                            else 0) in
               body l w = (if loop_test max_results l'
                              && sleep_raises timeout_seconds
                           then Break l' w1 else Continue l' w1)
           end
       end).
Proof.
  unfold loop_body. destruct (Z.eqb_spec request_size 0) as [->|Hne].
  - by left.
  - right. split; [done|]. cbn zeta.
    change (mkWorld _ _ (requests w ++ [_])) with (with_request w (request_of l)).
    destruct (list_of_generator _) as [[|paper batch]|e]; [done| |done].
    destruct (for_paper_in_results _ _ _ _ _ _) as [[[found run] new] [e|]];
      [done|].
    destruct (loop_test _ _); [|done]. by destruct (sleep_raises _).
Qed.

(** The loop leaves [seen_papers] and the disk alone and logs one request
    per iteration. *)
Lemma loop_body_world (l : locals) (w : world) :
  match body l w with
  | Continue _ w' | Break _ w' => w' = with_request w (request_of l)
  | Propagate _ w' => w' = w
  end.
Proof.
  destruct (loop_body_cases l w) as [[_ ->]|[_ H]]; [done|]. cbn zeta in H.
  destruct (list_of_generator _) as [[|paper batch]|e];
    [by rewrite H| |by rewrite H].
  destruct (for_paper_in_results _ _ _ _ _ _) as [[[found run] new] [e|]];
    rewrite H; [done|].
  by destruct (_ && _).
Qed.

(** A complete iteration lowers the measure. *)
Lemma loop_body_measure (l l' : locals) (w w' : world) :
  loop_test max_results l = true →
  body l w = Continue l' w' →
  (loop_measure max_results l' < loop_measure max_results l)%nat.
Proof.
  intros [Hlen Hstall]%andb_true_iff Hbody.
  apply Z.ltb_lt in Hlen, Hstall. unfold max_consecutive_seen in *.
  destruct (loop_body_cases l w) as [[_ H]|[_ H]]; [congruence|].
  cbn zeta in H.
  destruct (list_of_generator _) as [[|paper batch]|e]; [congruence| |congruence].
  pose proof (for_paper_in_results_appends
                (with_request w (request_of l)) max_results
                (paper :: batch) (found_papers l) (seen_in_this_run l) 0)
    as (added & Hfound & Hnew).
  pose proof (for_paper_in_results_quota
                (with_request w (request_of l)) max_results
                (paper :: batch) (found_papers l) (seen_in_this_run l) 0 Hlen)
    as Hquota.
  destruct (for_paper_in_results _ _ _ _ _ _) as [[[found run] new] [e|]];
    [congruence|].
  cbn in Hfound, Hnew, Hquota. subst found.
  rewrite length_app in Hquota.
  assert (l' = mkLocals (found_papers l ++ added) run
                 (start_index l + request_size)
                 (if new =? 0 then consecutive_seen_requests l + 1 else 0))
    as ->.
  { rewrite H in Hbody. destruct (_ && _); congruence. }
  unfold loop_measure, max_consecutive_seen.
  cbn [found_papers consecutive_seen_requests]. rewrite length_app.
  destruct (Z.eqb_spec new 0) as [Hz|Hnz]; lia.
Qed.

(** The loop ends: it needs no more unrollings than the measure says. *)
Lemma while_loop_ends (fuel : nat) (l : locals) (w : world) :
  (loop_test max_results l = true → (loop_measure max_results l < fuel)%nat) →
  (0 < fuel)%nat →
  is_Some (loop fuel l w).
Proof.
  revert l w. induction fuel as [|fuel IH]; intros l w Hm Hpos; [lia|].
  cbn [while_loop]. destruct (loop_test max_results l) eqn:Htest; [|eauto].
  destruct (body l w) as [l' w'|l' w'|e w'] eqn:Hbody; [|eauto|eauto].
  pose proof (loop_body_measure l l' w w' Htest Hbody).
  specialize (Hm eq_refl).
  apply IH; [intros _; lia | lia].
Qed.

(** More unrollings do not change the outcome. *)
Lemma while_loop_more_fuel (fuel fuel' : nat) (l : locals) (w : world) r :
  loop fuel l w = Some r → (fuel ≤ fuel')%nat → loop fuel' l w = Some r.
Proof.
  revert fuel' l w. induction fuel as [|fuel IH]; intros fuel' l w; [done|].
  destruct fuel' as [|fuel']; [lia|]. cbn [while_loop].
  destruct (loop_test max_results l); [|done].
  destruct (body l w); [|done|done].
  intros H Hle. apply IH; [done | lia].
Qed.

(** A proof rule for the loop: [P] holds at each test, [Q] when it is left
    normally. *)
Lemma while_loop_rule (P Q : locals → world → Prop) :
  (∀ l w, P l w → loop_test max_results l = false → Q l w) →
  (∀ l w l' w', P l w → loop_test max_results l = true →
                body l w = Break l' w' → Q l' w') →
  (∀ l w l' w', P l w → loop_test max_results l = true →
                body l w = Continue l' w' → P l' w') →
  ∀ fuel l w l' w',
    P l w → loop fuel l w = Some (Ok l', w') → Q l' w'.
Proof.
  intros Hexit Hbreak Hnext.
  induction fuel as [|fuel IH]; intros l w l' w' HP; [done|].
  cbn [while_loop]. destruct (loop_test max_results l) eqn:Htest.
  - destruct (body l w) as [l1 w1|l1 w1|e w1] eqn:Hbody.
    + apply IH. eauto.
    + intros [= <- <-]. eauto.
    + done.
  - intros [= <- <-]. eauto.
Qed.

(** The only exception that leaves the loop is the division by zero. *)
Lemma while_loop_raises (fuel : nat) (l : locals) (w : world) e w' :
  loop fuel l w = Some (Raise e, w') →
  e = ZeroDivisionError ∧ request_size = 0.
Proof.
  revert l w. induction fuel as [|fuel IH]; intros l w; [done|].
  cbn [while_loop]. destruct (loop_test max_results l); [|done].
  destruct (loop_body_cases l w) as [[Hz ->]|[Hnz H]].
  - by intros [= <- <-].
  - pose proof (loop_body_world l w) as Hw.
    destruct (body l w) as [l1 w1|l1 w1|e1 w1] eqn:Hbody; [apply IH|done|].
    cbn zeta in H. exfalso.
    destruct (list_of_generator _) as [[|paper batch]|e2]; [done| |done].
    destruct (for_paper_in_results _ _ _ _ _ _) as [[[found run] new] [e2|]];
      [done|].
    by destruct (_ && _).
Qed.


End Loop.

(** ** [search_papers] as a whole *)

Section Discovery.

Variable results : Search → generator.
Variable write_ok : string → bool.

Local Abbreviation discover := (search_papers results write_ok).

(** The loop of [search_papers] ends within [enough_fuel]. *)
Lemma search_papers_loop_ends query max_results request_size timeout w :
  is_Some (while_loop results (enough_fuel max_results) query max_results
             request_size timeout initial_locals w).
Proof.
  apply while_loop_ends; [|unfold enough_fuel; lia].
  unfold loop_test, loop_measure, enough_fuel, initial_locals,
    max_consecutive_seen.
  cbn [found_papers consecutive_seen_requests length].
  intros [H _]%andb_true_iff. apply Z.ltb_lt in H. lia.
Qed.

(** [search_papers] always returns. *)
Lemma search_papers_returns now terms cats max_results request_size timeout w :
  is_Some (discover now terms cats max_results request_size timeout w).
Proof.
  unfold search_papers. destruct (negb _); [eauto|].
  destruct (search_papers_loop_ends (_construct_query terms cats) max_results
              request_size timeout w) as [[[l|e] w'] ->]; cbn; eauto.
Qed.

(** With a query and a non-zero request size, it returns what the loop
    found, after marking it. *)
Lemma search_papers_run now terms cats max_results request_size timeout w :
  Py.truthy (_construct_query terms cats) = true →
  request_size ≠ 0 →
  ∃ l wl,
    while_loop results (enough_fuel max_results) (_construct_query terms cats)
      max_results request_size timeout initial_locals w = Some (Ok l, wl)
    ∧ discover now terms cats max_results request_size timeout w
      = Some (Ok (found_papers l),
              mark_papers_as_seen write_ok now (found_papers l) wl).
Proof.
  intros Hq Hsize. unfold search_papers. rewrite Hq. cbn [negb].
  destruct (search_papers_loop_ends (_construct_query terms cats) max_results
              request_size timeout w) as [[[l|e] w'] Hloop].
  - exists l, w'. by rewrite Hloop.
  - by apply while_loop_raises in Hloop as [_ ?].
Qed.

(** With a request size of zero the first iteration raises. *)
Lemma search_papers_zero_size now terms cats max_results timeout w :
  Py.truthy (_construct_query terms cats) = true →
  discover now terms cats max_results 0 timeout w
  = if 0 <? max_results then Some (Raise ZeroDivisionError, w)
    else Some (Ok [], mark_papers_as_seen write_ok now [] w).
Proof.
  intros Hq. unfold search_papers. rewrite Hq. cbn [negb].
  unfold enough_fuel. cbn [while_loop].
  unfold loop_test, initial_locals, max_consecutive_seen.
  cbn [found_papers consecutive_seen_requests length].
  change (Z.of_nat 0) with 0. by destruct (0 <? max_results).
Qed.

(** How the stall counter moves in a complete iteration. *)
Lemma loop_body_stall_counter query max_results request_size timeout l w l' w' :
  loop_body results query max_results request_size timeout l w
  = Continue l' w' →
  consecutive_seen_requests l'
  = if (length (found_papers l') =? length (found_papers l))%nat
    then consecutive_seen_requests l + 1 else 0.
Proof.
  intros Hbody.
  destruct (loop_body_cases results query max_results request_size timeout l w)
    as [[_ H]|[_ H]]; [congruence|].
  cbn zeta in H.
  destruct (list_of_generator _) as [[|paper batch]|e]; [congruence| |congruence].
  pose proof (for_paper_in_results_appends
                (with_request w (page_request query request_size l))
                max_results (paper :: batch) (found_papers l)
                (seen_in_this_run l) 0) as (added & Hfound & Hnew).
  destruct (for_paper_in_results _ _ _ _ _ _) as [[[found run] new] [e|]];
    [congruence|].
  cbn in Hfound, Hnew. rewrite H in Hbody.
  assert (l' = mkLocals found run (start_index l + request_size)
                 (if new =? 0 then consecutive_seen_requests l + 1 else 0))
    as -> by (destruct (_ && _); congruence).
  cbn [found_papers consecutive_seen_requests]. subst found new.
  rewrite length_app.
  destruct added as [|p added]; cbn [length].
  - rewrite Nat.add_0_r, Nat.eqb_refl. reflexivity.
  - destruct (Nat.eqb_spec (length (found_papers l) + S (length added))
                (length (found_papers l))) as [?|_]; [lia|].
    destruct (Z.eqb_spec (0 + Z.of_nat (S (length added))) 0); [lia|done].
Qed.

(** What an iteration does with a page that is not empty and that the
    [for] loop goes through without an exception. *)
Lemma loop_body_page query max_results request_size timeout l wl batch
    found run new :
  request_size ≠ 0 →
  list_of_generator (results (page_request query request_size l)) = Ok batch →
  batch ≠ [] →
  for_paper_in_results (with_request wl (page_request query request_size l))
    max_results batch (found_papers l) (seen_in_this_run l) 0
  = (found, run, new, None) →
  let l' := mkLocals found run (start_index l + request_size)
              (if (length found =? length (found_papers l))%nat
               then consecutive_seen_requests l + 1 else 0) in
  let wl' := with_request wl (page_request query request_size l) in
  loop_body results query max_results request_size timeout l wl
  = if loop_test max_results l' && sleep_raises timeout
    then Break l' wl' else Continue l' wl'.
Proof.
  intros Hsize Hpage Hbatch Hfor. cbn zeta.
  destruct (loop_body_cases results query max_results request_size timeout
              l wl) as [[? _]|[_ H]]; [done|].
  cbn zeta in H. rewrite Hpage in H.
  destruct batch as [|paper batch]; [done|].
  pose proof (for_paper_in_results_appends
                (with_request wl (page_request query request_size l))
                max_results (paper :: batch)
                (found_papers l) (seen_in_this_run l) 0)
    as (added & Hfound & Hnew).
  rewrite Hfor in H, Hfound, Hnew.
  cbn [fst snd] in Hfound, Hnew. rewrite H.
  replace (length found =? length (found_papers l))%nat with (new =? 0);
    [done|].
  subst found new. rewrite length_app.
  destruct added as [|p added]; cbn [length].
  - by rewrite Nat.add_0_r, Nat.eqb_refl.
  - destruct (Nat.eqb_spec (length (found_papers l) + S (length added))
                (length (found_papers l))) as [?|_]; [lia|].
    destruct (Z.eqb_spec (0 + Z.of_nat (S (length added))) 0); [lia|done].
Qed.

(** C2. When every result the service returns, on every page, is already
    in [seen_papers], [search_papers] returns after at most three requests,
    whatever [max_results] is.  The stall counter moves as follows.
    On a page that is not empty and whose results are all in [seen_papers]
    or in [seen_in_this_run], the iteration logs one request, leaves
    [found_papers] as it was and ends with [consecutive_seen_requests] one
    higher.  On any page that is not empty and that the [for] loop goes
    through without an exception, the iteration logs one request and ends
    with [consecutive_seen_requests] one higher if the page added nothing
    to [found_papers], and at 0 if it added something.  In both cases the
    loop goes back to its test, unless it is to go on and [time.sleep]
    raises.  The last part is the rule for every complete iteration. *)
Theorem stalled_search_stops_after_three_fetches
    now terms cats max_results request_size timeout w :
  (∀ s paper, paper ∈ items (results s) →
              in_dict (paper_id_of paper) (seen_papers w) = true) →
  (∃ res w',
     discover now terms cats max_results request_size timeout w
     = Some (res, w')
     ∧ (length (requests w') ≤ length (requests w) + 3)%nat)
  ∧ (∀ query l wl batch,
       request_size ≠ 0 →
       list_of_generator (results (page_request query request_size l))
       = Ok batch →
       batch ≠ [] →
       (∀ paper, paper ∈ batch →
                 already_seen wl (seen_in_this_run l) paper = true) →
       let l' := mkLocals (found_papers l) (seen_in_this_run l)
                   (start_index l + request_size)
                   (consecutive_seen_requests l + 1) in
       let wl' := with_request wl (page_request query request_size l) in
       loop_body results query max_results request_size timeout l wl
       = if loop_test max_results l' && sleep_raises timeout
         then Break l' wl' else Continue l' wl')
  ∧ (∀ query l wl batch found run new,
       request_size ≠ 0 →
       list_of_generator (results (page_request query request_size l))
       = Ok batch →
       batch ≠ [] →
       for_paper_in_results
         (with_request wl (page_request query request_size l))
         max_results batch (found_papers l) (seen_in_this_run l) 0
       = (found, run, new, None) →
       let l' := mkLocals found run (start_index l + request_size)
                   (if (length found =? length (found_papers l))%nat
                    then consecutive_seen_requests l + 1 else 0) in
       let wl' := with_request wl (page_request query request_size l) in
       loop_body results query max_results request_size timeout l wl
       = if loop_test max_results l' && sleep_raises timeout
         then Break l' wl' else Continue l' wl')
  ∧ (∀ query l wl l' wl',
       loop_body results query max_results request_size timeout l wl
       = Continue l' wl' →
       consecutive_seen_requests l'
       = if (length (found_papers l') =? length (found_papers l))%nat
         then consecutive_seen_requests l + 1 else 0).
Proof.
  intros Hseen.
  split; [|split; [|split; [|intros; by eapply loop_body_stall_counter]]];
    cycle 1.
  { intros query l wl batch Hsize Hpage Hbatch Hall l' wl'.
    pose proof (loop_body_page query max_results request_size timeout l wl
                  batch (found_papers l) (seen_in_this_run l) 0 Hsize Hpage
                  Hbatch) as H.
    cbn zeta in H. rewrite Nat.eqb_refl in H. apply H.
    apply for_paper_in_results_all_seen. intros paper Hin.
    specialize (Hall paper Hin). unfold already_seen in *.
    by cbn [with_request seen_papers]. }
  { intros query l wl batch found run new Hsize Hpage Hbatch Hfor.
    by apply loop_body_page with batch new. }
  destruct (Py.truthy (_construct_query terms cats)) eqn:Hq; cycle 1.
  { exists (Ok []), w. unfold search_papers. rewrite Hq. split; [done | lia]. }
  destruct (Z.eq_dec request_size 0) as [->|Hsize].
  { rewrite search_papers_zero_size by done.
    destruct (0 <? max_results); eexists _, _; (split; [done|]); cbn; lia. }
  destruct (search_papers_run now terms cats max_results request_size timeout
              w Hq Hsize) as (l & wl & Hloop & ->).
  eexists _, _. split; [done|]. rewrite mark_papers_as_seen_requests.
  set (query := _construct_query terms cats) in *.
  revert Hloop.
  apply (while_loop_rule results query max_results request_size timeout
           (fun l1 w1 =>
              seen_papers w1 = seen_papers w
              ∧ consecutive_seen_requests l1 ≤ 3
              ∧ Z.of_nat (length (requests w1))
                ≤ Z.of_nat (length (requests w)) + consecutive_seen_requests l1)
           (fun _ w1 => (length (requests w1) ≤ length (requests w) + 3)%nat)).
  - intros l1 w1 (_ & ? & ?) _. lia.
  - intros l1 w1 l2 w2 (_ & _ & Hcount) [_ Hstall]%andb_true_iff Hbody.
    apply Z.ltb_lt in Hstall. unfold max_consecutive_seen in Hstall.
    pose proof (loop_body_world results query max_results request_size
                  timeout l1 w1) as Hw.
    rewrite Hbody in Hw. subst w2. cbn [with_request requests].
    rewrite length_app. cbn [length]. lia.
  - intros l1 w1 l2 w2 (Hsame & _ & Hcount) [_ Hstall]%andb_true_iff Hbody.
    apply Z.ltb_lt in Hstall. unfold max_consecutive_seen in Hstall.
    destruct (loop_body_cases results query max_results request_size timeout
                l1 w1) as [[? _]|[_ H]]; [done|].
    cbn zeta in H.
    destruct (list_of_generator _) as [[|paper batch]|e] eqn:Hpage;
      [congruence| |congruence].
    rewrite for_paper_in_results_all_seen in H; cycle 1.
    { intros p Hp. unfold already_seen. cbn [with_request seen_papers].
      rewrite Hsame, (Hseen (page_request query request_size l1) p); [done|].
      unfold list_of_generator in Hpage.
      destruct (failure _); [done|]. by injection Hpage as ->. }
    rewrite H in Hbody. cbn [Z.eqb] in Hbody.
    assert (l2 = mkLocals (found_papers l1) (seen_in_this_run l1)
                   (start_index l1 + request_size)
                   (consecutive_seen_requests l1 + 1)
            ∧ w2 = with_request w1 (page_request query request_size l1))
      as [-> ->] by (destruct (_ && _); split; congruence).
    cbn [with_request seen_papers requests consecutive_seen_requests].
    rewrite length_app. cbn [length]. split; [done|]. lia.
  - cbn. split; [done|]. lia.
Qed.

(** The loop keeps the run invariant and does not touch [seen_papers] or
    the disk. *)
Lemma while_loop_run_invariant fuel query max_results request_size timeout
    w l wl :
  cache_keyed_by_id (disk w) →
  while_loop results fuel query max_results request_size timeout
    initial_locals w = Some (Ok l, wl) →
  run_invariant w (found_papers l) (seen_in_this_run l)
  ∧ seen_papers wl = seen_papers w ∧ disk wl = disk w.
Proof.
  intros Hkeyed.
  assert (Hbatch : ∀ l1 w1 batch,
            seen_papers w1 = seen_papers w → disk w1 = disk w →
            run_invariant w (found_papers l1) (seen_in_this_run l1) →
            let out := for_paper_in_results
                         (with_request w1 (page_request query request_size l1))
                         max_results batch (found_papers l1)
                         (seen_in_this_run l1) 0 in
            run_invariant w out.1.1.1 out.1.1.2).
  { intros l1 w1 batch Hs Hd Hinv out.
    pose proof (for_paper_in_results_invariant
                  (with_request w1 (page_request query request_size l1))
                  max_results batch (found_papers l1) (seen_in_this_run l1) 0)
      as H.
    unfold run_invariant in *. cbn [with_request seen_papers disk] in H.
    rewrite Hs, Hd in H. by apply H. }
  apply (while_loop_rule results query max_results request_size timeout
           (fun l1 w1 =>
              run_invariant w (found_papers l1) (seen_in_this_run l1)
              ∧ seen_papers w1 = seen_papers w ∧ disk w1 = disk w)
           (fun l1 w1 =>
              run_invariant w (found_papers l1) (seen_in_this_run l1)
              ∧ seen_papers w1 = seen_papers w ∧ disk w1 = disk w)).
  - auto.
  - intros l1 w1 l2 w2 (Hinv & Hs & Hd) _ Hbody.
    pose proof (loop_body_world results query max_results request_size
                  timeout l1 w1) as Hw.
    rewrite Hbody in Hw. subst w2. cbn [with_request seen_papers disk].
    split; [|done].
    destruct (loop_body_cases results query max_results request_size timeout
                l1 w1) as [[_ H]|[_ H]]; [congruence|].
    cbn zeta in H.
    destruct (list_of_generator _) as [[|paper batch]|e];
      [congruence| |congruence].
    specialize (Hbatch l1 w1 (paper :: batch) Hs Hd Hinv). cbn zeta in Hbatch.
    destruct (for_paper_in_results _ _ _ _ _ _) as [[[found run] new] [e|]];
      cbn in Hbatch; rewrite H in Hbody.
    + by injection Hbody as <-.
    + destruct (_ && _); [by injection Hbody as <-|done].
  - intros l1 w1 l2 w2 (Hinv & Hs & Hd) _ Hbody.
    pose proof (loop_body_world results query max_results request_size
                  timeout l1 w1) as Hw.
    rewrite Hbody in Hw. subst w2. cbn [with_request seen_papers disk].
    split; [|done].
    destruct (loop_body_cases results query max_results request_size timeout
                l1 w1) as [[_ H]|[_ H]]; [congruence|].
    cbn zeta in H.
    destruct (list_of_generator _) as [[|paper batch]|e];
      [congruence| |congruence].
    specialize (Hbatch l1 w1 (paper :: batch) Hs Hd Hinv). cbn zeta in Hbatch.
    destruct (for_paper_in_results _ _ _ _ _ _) as [[[found run] new] [e|]];
      cbn in Hbatch; rewrite H in Hbody; [done|].
    destruct (_ && _); [done|]. by injection Hbody as <-.
  - repeat split; try done.
    + apply NoDup_nil_2.
    + cbn. by intros ?%elem_of_nil.
Qed.

(** What [search_papers] returns is free of duplicates and new to
    [seen_papers]; afterwards [seen_papers] holds it too, and nothing else
    new; the summary files are read only. *)
Lemma search_papers_found now terms cats max_results request_size timeout
    w found w' :
  cache_keyed_by_id (disk w) →
  discover now terms cats max_results request_size timeout w
  = Some (Ok found, w') →
  NoDup (ids_of found)
  ∧ (∀ p, p ∈ found → in_dict (PaperData.id p) (seen_papers w) = false)
  ∧ (∀ x, in_dict x (seen_papers w')
          = in_dict x (seen_papers w) || bool_decide (x ∈ ids_of found))
  ∧ (disk w' = disk w
     ∨ ∃ doc, disk w' = <[SEEN_PAPERS_FILE := Document doc]> (disk w)).
Proof.
  intros Hkeyed Hrun.
  assert (Hnil : ∀ x, in_dict x (seen_papers w)
                      = in_dict x (seen_papers w) || bool_decide (x ∈ ids_of []))
    by (intros; cbn; by rewrite orb_false_r).
  assert (Hdisk : ∀ papers wl, disk wl = disk w →
            disk (mark_papers_as_seen write_ok now papers wl) = disk w
            ∨ ∃ doc, disk (mark_papers_as_seen write_ok now papers wl)
                     = <[SEEN_PAPERS_FILE := Document doc]> (disk w)).
  { intros papers wl Hd. cbn. unfold write_file. rewrite Hd.
    destruct (write_ok _); eauto. }
  destruct (Py.truthy (_construct_query terms cats)) eqn:Hq; cycle 1.
  { unfold search_papers in Hrun. rewrite Hq in Hrun.
    injection Hrun as <- <-. repeat split; auto using NoDup_nil_2.
    by intros p ?%elem_of_nil. }
  destruct (Z.eq_dec request_size 0) as [->|Hsize].
  { rewrite search_papers_zero_size in Hrun by done.
    destruct (0 <? max_results); [done|]. injection Hrun as <- <-.
    repeat split; auto using NoDup_nil_2. by intros p ?%elem_of_nil. }
  destruct (search_papers_run now terms cats max_results request_size timeout
              w Hq Hsize) as (l & wl & Hloop & Heq).
  rewrite Heq in Hrun. injection Hrun as <- <-.
  destruct (while_loop_run_invariant _ _ _ _ _ _ _ _ Hkeyed Hloop)
    as ((Hnodup & Hrun & Hfresh) & Hs & Hd).
  split; [done|]. split; [|split; [|by apply Hdisk]].
  - intros p Hp. apply Hfresh, Hrun. unfold ids_of.
    by apply list_elem_of_fmap_2.
  - intros x. unfold in_dict. rewrite mark_papers_as_seen_lookup, Hs.
    destruct (bool_decide _); [by rewrite orb_true_r|by rewrite orb_false_r].
Qed.

(** C3, in the form that holds of the code.  When the content cache is
    typed and keyed by record id, as [save_summary_to_file] leaves it, the
    call returns, the records it returns have pairwise distinct ids, and
    none of these ids was in [seen_papers] when the call started. *)
Theorem search_papers_returns_distinct_new_ids
    now terms cats max_results request_size timeout w :
  cache_keyed_by_id (disk w) →
  ∃ res w',
    discover now terms cats max_results request_size timeout w
    = Some (res, w')
    ∧ ∀ found, res = Ok found →
        NoDup (ids_of found)
        ∧ ∀ p, p ∈ found → in_dict (PaperData.id p) (seen_papers w) = false.
Proof.
  intros Hkeyed.
  destruct (search_papers_returns now terms cats max_results request_size
              timeout w) as [[res w'] Hrun].
  exists res, w'. split; [done|]. intros found ->.
  destruct (search_papers_found _ _ _ _ _ _ _ _ _ Hkeyed Hrun)
    as (? & ? & _); auto.
Qed.


End Discovery.

(** ** A second pass over a batch, after the first was marked *)

Section BatchAgain.

Variable max_results : Z.

Lemma for_paper_in_results_skip w paper rest found run new :
  already_seen w run paper = true →
  for_paper_in_results w max_results (paper :: rest) found run new
  = for_paper_in_results w max_results rest found run new.
Proof.
  intros H. cbn [for_paper_in_results].
  change (in_dict _ (seen_papers w) || bool_decide (_ ∈ run))
    with (already_seen w run paper).
  by rewrite H.
Qed.

Lemma for_paper_in_results_raise w paper rest found run new e :
  already_seen w run paper = false →
  record_for (disk w) paper = Raise e →
  for_paper_in_results w max_results (paper :: rest) found run new
  = (found, run, new, Some e).
Proof.
  intros H Hrec. cbn [for_paper_in_results].
  change (in_dict _ (seen_papers w) || bool_decide (_ ∈ run))
    with (already_seen w run paper).
  rewrite H. change (_ ≫= _) with (record_for (disk w) paper).
  by rewrite Hrec.
Qed.

(** [seen_in_this_run] only grows. *)
Lemma for_paper_in_results_run_grows w batch found run new :
  run ⊆ (for_paper_in_results w max_results batch found run new).1.1.2.
Proof.
  revert batch found run new.
  apply (for_paper_in_results_cases w max_results
           (fun _ _ run _ out => run ⊆ out.1.1.2)); cbn; intros;
    set_solver.
Qed.

(** Let a first pass over [batch] stay below the quota, and let a second
    world hold in [seen_papers], besides what the first world holds, the
    set [T], which covers what the first pass accepted and, if the first
    pass was cut short by an exception, nothing more.  Then a pass over
    [batch] in the second world accepts nothing and ends as the first
    did. *)
Lemma for_paper_in_results_again wa wb (T : gset string)
    batch found run new :
  (∀ paper, record_for (disk wb) paper = record_for (disk wa) paper) →
  (∀ x, in_dict x (seen_papers wb)
        = in_dict x (seen_papers wa) || bool_decide (x ∈ T)) →
  let out := for_paper_in_results wa max_results batch found run new in
  Z.of_nat (length out.1.1.1) < max_results →
  out.1.1.2 ⊆ T →
  (out.2 ≠ None → T ⊆ out.1.1.2) →
  for_paper_in_results wb max_results batch [] ∅ 0 = ([], ∅, 0, out.2).
Proof.
  intros Hdisk Hseen. cbn zeta.
  enough (H : run ⊆ (for_paper_in_results wa max_results batch found run
                       new).1.1.2
              ∧ (Z.of_nat (length (for_paper_in_results wa max_results batch
                                     found run new).1.1.1) < max_results →
                 (for_paper_in_results wa max_results batch found run
                    new).1.1.2 ⊆ T →
                 ((for_paper_in_results wa max_results batch found run
                     new).2 ≠ None →
                  T ⊆ (for_paper_in_results wa max_results batch found run
                         new).1.1.2) →
                 for_paper_in_results wb max_results batch [] ∅ 0
                 = ([], ∅, 0,
                    (for_paper_in_results wa max_results batch found run
                       new).2))) by apply H.
  revert batch found run new.
  apply (for_paper_in_results_cases wa max_results
           (fun batch _ run _ out =>
              run ⊆ out.1.1.2
              ∧ (Z.of_nat (length out.1.1.1) < max_results →
                 out.1.1.2 ⊆ T →
                 (out.2 ≠ None → T ⊆ out.1.1.2) →
                 for_paper_in_results wb max_results batch [] ∅ 0
                 = ([], ∅, 0, out.2)))); cbn [fst snd].
  - done.
  - intros paper rest found run new out Hskip [Hgrow IH].
    split; [done|]. intros Hlen Hsub Hexn.
    rewrite for_paper_in_results_skip; [by apply IH|].
    unfold already_seen in *. rewrite Hseen.
    apply orb_true_iff in Hskip as [->|Hin%bool_decide_eq_true]; [done|].
    rewrite (bool_decide_eq_true_2 (_ ∈ T)) by set_solver.
    by rewrite !orb_true_r.
  - intros paper rest found run new e Hnew Hrec.
    split; [done|]. intros _ Hsub Hexn.
    apply for_paper_in_results_raise; [|by rewrite Hdisk].
    apply already_seen_false in Hnew as [Hledger Hrun].
    unfold already_seen. rewrite Hseen, Hledger.
    rewrite (bool_decide_eq_false_2 (_ ∈ T)) by (specialize (Hexn ltac:(done)); set_solver).
    by rewrite (bool_decide_eq_false_2 (_ ∈ ∅)) by set_solver.
  - intros paper rest found run new paper_data _ _ Hquota.
    split; [set_solver|]. intros Hlen. lia.
  - intros paper rest found run new paper_data out _ _ _ [Hgrow IH].
    split; [set_solver|]. intros Hlen Hsub Hexn.
    rewrite for_paper_in_results_skip; [by apply IH|].
    unfold already_seen. rewrite Hseen.
    rewrite (bool_decide_eq_true_2 (_ ∈ T)) by set_solver.
    by rewrite !orb_true_r.
Qed.

End BatchAgain.

(** ** A second run of the loop, after the first was marked *)

Section LoopAgain.

Variable results : Search → generator.
Variable query : string.
Variable max_results request_size : Z.
Variable timeout_seconds : Q.

Local Abbreviation body :=
  (loop_body results query max_results request_size timeout_seconds).
Local Abbreviation loop :=
  (fun fuel => while_loop results fuel query max_results request_size
                 timeout_seconds).

(** One iteration only adds to [found_papers] and [seen_in_this_run]. *)
Lemma loop_body_grows l w l' w' :
  body l w = Continue l' w' ∨ body l w = Break l' w' →
  (length (found_papers l) ≤ length (found_papers l'))%nat
  ∧ seen_in_this_run l ⊆ seen_in_this_run l'.
Proof.
  intros Hbody.
  destruct (loop_body_cases results query max_results request_size
              timeout_seconds l w) as [[_ H]|[_ H]];
    [destruct Hbody; congruence|].
  cbn zeta in H.
  assert (Hsame : l' = l →
            (length (found_papers l) ≤ length (found_papers l'))%nat
            ∧ seen_in_this_run l ⊆ seen_in_this_run l') by (by intros ->).
  destruct (list_of_generator _) as [[|paper batch]|e];
    [apply Hsame; destruct Hbody; congruence|
    |apply Hsame; destruct Hbody; congruence].
  pose proof (for_paper_in_results_appends
                (with_request w (page_request query request_size l))
                max_results (paper :: batch) (found_papers l)
                (seen_in_this_run l) 0) as (added & Hfound & _).
  pose proof (for_paper_in_results_run_grows max_results
                (with_request w (page_request query request_size l))
                (paper :: batch) (found_papers l) (seen_in_this_run l) 0)
    as Hrun.
  destruct (for_paper_in_results _ _ _ _ _ _) as [[[found run] new] [e|]];
    cbn in Hfound, Hrun; subst found; rewrite H in Hbody.
  - assert (l' = mkLocals (found_papers l ++ added) run (start_index l)
                   (consecutive_seen_requests l)) as ->
      by (destruct Hbody; congruence).
    cbn. rewrite length_app. split; [lia | done].
  - assert (l' = mkLocals (found_papers l ++ added) run
                   (start_index l + request_size)
                   (if new =? 0 then consecutive_seen_requests l + 1 else 0))
      as -> by (destruct (_ && _); destruct Hbody; congruence).
    cbn. rewrite length_app. split; [lia | done].
Qed.

Lemma while_loop_grows fuel l w lf wf :
  loop fuel l w = Some (Ok lf, wf) →
  (length (found_papers l) ≤ length (found_papers lf))%nat
  ∧ seen_in_this_run l ⊆ seen_in_this_run lf.
Proof.
  apply (while_loop_rule results query max_results request_size
           timeout_seconds
           (fun l1 _ =>
              (length (found_papers l) ≤ length (found_papers l1))%nat
              ∧ seen_in_this_run l ⊆ seen_in_this_run l1)
           (fun l1 _ =>
              (length (found_papers l) ≤ length (found_papers l1))%nat
              ∧ seen_in_this_run l ⊆ seen_in_this_run l1)).
  - auto.
  - intros l1 w1 l2 w2 [Hlen Hrun] _ Hbody.
    destruct (loop_body_grows l1 w1 l2 w2) as [? ?]; [by right|].
    split; [lia | set_solver].
  - intros l1 w1 l2 w2 [Hlen Hrun] _ Hbody.
    destruct (loop_body_grows l1 w1 l2 w2) as [? ?]; [by left|].
    split; [lia | set_solver].
  - done.
Qed.

(** Let a first run of the loop from [l] end below the quota with
    [seen_in_this_run] equal to [T], and let a second world hold [T] in
    [seen_papers] besides what the first world holds.  Then a run of the
    loop in the second world, from the same page with nothing found and a
    stall counter at least as high, ends with nothing found. *)
Lemma while_loop_again (T : gset string) :
  request_size ≠ 0 →
  ∀ fuel l wa lf wf,
    loop fuel l wa = Some (Ok lf, wf) →
    Z.of_nat (length (found_papers lf)) < max_results →
    seen_in_this_run lf = T →
    0 ≤ consecutive_seen_requests l →
    ∀ stall wb fuel2 r,
      consecutive_seen_requests l ≤ stall →
      (∀ paper, record_for (disk wb) paper = record_for (disk wa) paper) →
      (∀ x, in_dict x (seen_papers wb)
            = in_dict x (seen_papers wa) || bool_decide (x ∈ T)) →
      loop fuel2 (mkLocals [] ∅ (start_index l) stall) wb = Some r →
      ∃ l2 wb', r = (Ok l2, wb') ∧ found_papers l2 = [].
Proof.
  intros Hsize. induction fuel as [|fuel IH];
    intros l wa lf wf Hfirst Hbelow HT Hpos stall wb fuel2 r Hstall Hdisk
      Hseen Hsecond; [done|].
  destruct fuel2 as [|fuel2]; [done|].
  cbn [while_loop] in Hfirst, Hsecond.
  set (l2 := mkLocals [] ∅ (start_index l) stall) in *.
  destruct (loop_test max_results l2) eqn:Htest2; cycle 1.
  { injection Hsecond as <-. by exists l2, wb. }
  destruct (loop_test max_results l) eqn:Htest1; cycle 1.
  { injection Hfirst as <- <-. exfalso.
    unfold loop_test, max_consecutive_seen in *.
    apply andb_true_iff in Htest2 as [_ H2]. apply Z.ltb_lt in H2.
    apply andb_false_iff in Htest1 as [H1|H1]; apply Z.ltb_ge in H1;
      cbn in H2; lia. }
  destruct (loop_body_cases results query max_results request_size
              timeout_seconds l wa) as [[? _]|[_ H1]]; [done|].
  destruct (loop_body_cases results query max_results request_size
              timeout_seconds l2 wb) as [[? _]|[_ H2]]; [done|].
  cbn zeta in H1, H2.
  change (page_request query request_size l2)
    with (page_request query request_size l) in H2.
  set (req := page_request query request_size l) in *.
  destruct (list_of_generator (results req)) as [[|paper batch]|e].
  { rewrite H2 in Hsecond. injection Hsecond as <-. by eexists _, _. }
  2: { rewrite H2 in Hsecond. injection Hsecond as <-. by eexists _, _. }
  pose proof (for_paper_in_results_again max_results (with_request wa req)
                (with_request wb req) T (paper :: batch) (found_papers l)
                (seen_in_this_run l) 0 Hdisk Hseen) as Hagain.
  cbn zeta in Hagain. cbn [l2 found_papers seen_in_this_run] in H2.
  destruct (for_paper_in_results (with_request wa req) _ _ _ _ _)
    as [[[found run] new] [e|]]; cbn [fst snd] in Hagain.
  - (* the first run left the batch by an exception *)
    rewrite H1 in Hfirst. injection Hfirst as <- <-.
    cbn [found_papers seen_in_this_run] in Hbelow, HT.
    rewrite Hagain in H2 by (done || set_solver).
    rewrite H2 in Hsecond. injection Hsecond as <-. by eexists _, _.
  - (* the first run went through the batch *)
    set (l' := mkLocals found run (start_index l + request_size)
                 (if new =? 0 then consecutive_seen_requests l + 1 else 0))
      in *.
    set (l2' := mkLocals [] ∅ (start_index l + request_size) (stall + 1)).
    assert (Hl' : Z.of_nat (length found) < max_results ∧ run ⊆ T).
    { rewrite H1 in Hfirst.
      destruct (loop_test max_results l' && _).
      - injection Hfirst as <- <-. cbn in Hbelow, HT. by subst T.
      - apply while_loop_grows in Hfirst as [Hlen Hrun].
        cbn in Hlen, Hrun. split; [lia | set_solver]. }
    destruct Hl' as [Hlen Hrun].
    rewrite Hagain in H2 by done. cbn [Z.eqb] in H2.
    change (start_index l2) with (start_index l) in H2.
    change (consecutive_seen_requests l2) with stall in H2.
    fold l2' in H2. rewrite H2 in Hsecond.
    destruct (loop_test max_results l2') eqn:Htest2'; cbn [andb] in Hsecond.
    + destruct (sleep_raises timeout_seconds) eqn:Hsleep.
      * injection Hsecond as <-. by eexists _, _.
      * rewrite H1 in Hfirst. rewrite andb_false_r in Hfirst.
        apply (IH l' (with_request wa req) lf wf Hfirst Hbelow HT)
          with (stall := stall + 1) (wb := with_request wb req)
               (fuel2 := fuel2);
          [| |exact Hdisk|exact Hseen|exact Hsecond];
          cbn; destruct (new =? 0); lia.
    + destruct fuel2 as [|fuel2]; [done|].
      cbn [while_loop] in Hsecond. rewrite Htest2' in Hsecond.
      injection Hsecond as <-. by eexists _, _.
Qed.

End LoopAgain.

(** ** Paths of the summary files *)

Lemma prefix_empty (s : string) : String.prefix EmptyString s = true.
Proof. by destruct s. Qed.

Lemma summary_filepath_cases (paper_id : string) :
  (∃ rest, paper_id = String "/" rest
           ∧ summary_filepath paper_id = paper_id +:+ ".json")
  ∨ (Py.startswith "/" paper_id = false
     ∧ summary_filepath paper_id = "paper_summaries/" +:+ paper_id +:+ ".json").
Proof.
  unfold summary_filepath, Py.path_join, Py.startswith.
  destruct paper_id as [|c rest]; [by right|].
  change (String c rest +:+ ".json") with (String c (rest +:+ ".json")).
  cbn [String.prefix].
  destruct (Ascii.ascii_dec "/" c) as [<-|Hc].
  - left. exists rest. by rewrite prefix_empty.
  - by right.
Qed.

(** No summary file is the ledger file. *)
Lemma summary_filepath_not_ledger (paper_id : string) :
  summary_filepath paper_id ≠ SEEN_PAPERS_FILE.
Proof.
  destruct (summary_filepath_cases paper_id) as [(rest & -> & ->)|[_ ->]];
    discriminate.
Qed.

Lemma string_app_length (s t : string) :
  String.length (s +:+ t) = (String.length s + String.length t)%nat.
Proof.
  induction s as [|c s IH]; [done|].
  change (String c s +:+ t) with (String c (s +:+ t)).
  cbn [String.length]. by rewrite IH.
Qed.

(** A common suffix can be dropped. *)
Lemma string_app_inv_tail (s1 s2 t : string) : s1 +:+ t = s2 +:+ t → s1 = s2.
Proof.
  revert s2. induction s1 as [|c s1 IH]; intros [|d s2] H.
  - done.
  - apply (f_equal String.length) in H.
    rewrite !string_app_length in H. cbn [String.length] in H. lia.
  - apply (f_equal String.length) in H.
    rewrite !string_app_length in H. cbn [String.length] in H. lia.
  - change (String c (s1 +:+ t) = String d (s2 +:+ t)) in H.
    injection H as -> H. f_equal. by apply IH.
Qed.

(** Distinct ids have distinct summary files. *)
Lemma summary_filepath_inj (id1 id2 : string) :
  summary_filepath id1 = summary_filepath id2 → id1 = id2.
Proof.
  destruct (summary_filepath_cases id1) as [(r1 & -> & ->)|[H1 ->]];
    destruct (summary_filepath_cases id2) as [(r2 & -> & ->)|[H2 ->]].
  - apply string_app_inv_tail.
  - discriminate.
  - discriminate.
  - intros H%(inj (String.app _)). by apply string_app_inv_tail in H.
Qed.

(** ** Who writes the content cache *)

Section CacheWriters.

Variable write_ok : string → bool.

(** Writing the ledger file does not change what the summary files of ids
    without a slash give. *)
Lemma load_summary_after_ledger_write (d : gmap string file) doc paper_id :
  Py.contains "/" paper_id = false →
  _load_summary_from_file (<[SEEN_PAPERS_FILE := Document doc]> d) paper_id
  = _load_summary_from_file d paper_id.
Proof.
  intros _. unfold _load_summary_from_file.
  rewrite lookup_insert_ne; [done|].
  intros H. by apply (summary_filepath_not_ledger paper_id).
Qed.

Lemma record_for_after_ledger_write (d : gmap string file) doc paper :
  record_for (<[SEEN_PAPERS_FILE := Document doc]> d) paper
  = record_for d paper.
Proof.
  unfold record_for.
  by rewrite load_summary_after_ledger_write
    by apply (paper_id_of_no_slash paper).
Qed.

(** [save_summary_to_file], given a record whose id holds no slash, keeps
    the cache typed and keyed by id. *)
Lemma save_summary_to_file_keeps_keyed (p : PaperData.t) (w : world) :
  Py.contains "/" (PaperData.id p) = false →
  cache_keyed_by_id (disk w) →
  cache_keyed_by_id (disk (save_summary_to_file write_ok p w)).
Proof.
  intros _ Hkeyed. unfold save_summary_to_file, write_file.
  destruct (blank_summary p); [done|]. cbn [disk].
  destruct (write_ok _); [|done].
  intros paper_id data Hno.
  destruct (decide (summary_filepath (PaperData.id p)
                    = summary_filepath paper_id)) as [Heq|Hne].
  - rewrite Heq, lookup_insert_eq. intros [= <-].
    rewrite from_dict_to_dict. by apply summary_filepath_inj.
  - rewrite lookup_insert_ne by done. by apply Hkeyed.
Qed.

(** So does [mark_papers_as_seen]. *)
Lemma mark_papers_as_seen_keeps_keyed now papers (w : world) :
  cache_keyed_by_id (disk w) →
  cache_keyed_by_id (disk (mark_papers_as_seen write_ok now papers w)).
Proof.
  intros Hkeyed. cbn. unfold write_file. destruct (write_ok _); [|done].
  intros paper_id data Hno.
  rewrite lookup_insert_ne by (intros H; by apply (summary_filepath_not_ledger paper_id)).
  by apply Hkeyed.
Qed.

(** An empty disk is keyed by id. *)
Lemma empty_disk_keyed : cache_keyed_by_id ∅.
Proof. intros paper_id data _. by rewrite lookup_empty. Qed.

End CacheWriters.

(** A cache with a misfiled record, or with a document that holds a value of
    another type than the declared one, is not typed and keyed by id. *)
Lemma untyped_or_misfiled_cache_not_keyed :
  ¬ cache_keyed_by_id (disk misfiled_world)
  ∧ ¬ cache_keyed_by_id (disk ill_typed_world).
Proof.
  split; intros H.
  - assert (Hfile : disk misfiled_world !! summary_filepath "2301.00001v1"
                    = Some (Document (PaperData.to_dict misfiled_record)))
      by (vm_compute; reflexivity).
    specialize (H "2301.00001v1" _ eq_refl Hfile).
    rewrite from_dict_to_dict in H. discriminate.
  - assert (Hfile : disk ill_typed_world !! summary_filepath "2301.00001v1"
                    = Some (Document ill_typed_document))
      by (vm_compute; reflexivity).
    specialize (H "2301.00001v1" _ eq_refl Hfile).
    vm_compute in H. discriminate.
Qed.

(** ** Two calls in a row *)

Section Twice.

Variable results : Search → generator.
Variable write_ok : string → bool.

Local Abbreviation discover := (search_papers results write_ok).

(** C7, in the form that holds of the code.  Let [search_papers] be called
    twice with the same arguments against the same service, the second call
    starting in the world the first one left, with a content cache typed and
    keyed by record id.  Then the second call returns no record whose id the
    first call returned, and it returns the empty list whenever the first
    call returned fewer than [max_results] records. *)
Theorem second_search_returns_nothing_seen_before
    now1 now2 terms cats max_results request_size timeout w found1 w1 :
  cache_keyed_by_id (disk w) →
  discover now1 terms cats max_results request_size timeout w
  = Some (Ok found1, w1) →
  ∃ found2 w2,
    discover now2 terms cats max_results request_size timeout w1
    = Some (Ok found2, w2)
    ∧ (∀ p, p ∈ found2 → PaperData.id p ∉ ids_of found1)
    ∧ (Z.of_nat (length found1) < max_results → found2 = []).
Proof.
  intros Hkeyed Hfirst.
  destruct (search_papers_found results write_ok _ _ _ _ _ _ _ _ _ Hkeyed
              Hfirst) as (_ & _ & Hseen1 & Hdisk1).
  assert (Hload : ∀ paper, record_for (disk w1) paper
                           = record_for (disk w) paper).
  { intros paper. destruct Hdisk1 as [->|[doc ->]]; [done|].
    apply record_for_after_ledger_write. }
  assert (Hkeyed1 : cache_keyed_by_id (disk w1)).
  { intros paper_id data Hno. destruct Hdisk1 as [->|[doc ->]];
      [by apply Hkeyed|].
    rewrite lookup_insert_ne
      by (intros H; by apply (summary_filepath_not_ledger paper_id)).
    by apply Hkeyed. }
  destruct (Py.truthy (_construct_query terms cats)) eqn:Hq; cycle 1.
  { unfold search_papers in *. rewrite Hq in *. cbn [negb] in *.
    injection Hfirst as <- <-. exists [], w. repeat split; try done.
    by intros p ?%elem_of_nil. }
  destruct (Z.eq_dec request_size 0) as [->|Hsize].
  { rewrite search_papers_zero_size in * by done.
    destruct (0 <? max_results); [done|]. injection Hfirst as <- <-.
    eexists _, _. repeat split; try done. by intros p ?%elem_of_nil. }
  destruct (search_papers_run results write_ok now2 terms cats max_results
              request_size timeout w1 Hq Hsize) as (l2 & wl2 & Hloop2 & Hsecond).
  rewrite Hsecond. eexists _, _. split; [done|]. split.
  - intros p Hp Hin.
    destruct (search_papers_found results write_ok _ _ _ _ _ _ _ _ _ Hkeyed1
                Hsecond) as (_ & Hnew & _).
    specialize (Hnew p Hp). rewrite Hseen1 in Hnew.
    rewrite (bool_decide_eq_true_2 _ Hin), orb_true_r in Hnew. done.
  - intros Hbelow.
    destruct (search_papers_run results write_ok now1 terms cats max_results
                request_size timeout w Hq Hsize)
      as (l1 & wl1 & Hloop1 & Hfirst').
    rewrite Hfirst' in Hfirst. injection Hfirst as <- <-.
    destruct (while_loop_run_invariant results _ _ _ _ _ _ _ _ Hkeyed Hloop1)
      as ((_ & Hrun & _) & _ & _).
    pose proof (while_loop_again results (_construct_query terms cats)
                  max_results request_size timeout (seen_in_this_run l1)
                  Hsize _ initial_locals w l1 wl1 Hloop1 Hbelow eq_refl)
      as Hagain.
    destruct (Hagain (Z.le_refl 0) 0
                (mark_papers_as_seen write_ok now1 (found_papers l1) wl1)
                (enough_fuel max_results) (Ok l2, wl2) (Z.le_refl 0))
      as (l2' & wb' & [= <- <-] & Hnone); [| |exact Hloop2|done].
    + exact Hload.
    + intros x. rewrite Hseen1. f_equal. apply bool_decide_ext.
      symmetry. apply Hrun.
Qed.

End Twice.

(** ** Reuse of a cached record *)

Section Reuse.

Variable w : world.
Variable max_results : Z.

(** What the batch loop appends for a new candidate is in [found_papers]
    right after what was there. *)
Lemma for_paper_in_results_accepts paper rest found run new paper_data :
  already_seen w run paper = false →
  record_for (disk w) paper = Ok paper_data →
  (for_paper_in_results w max_results (paper :: rest) found run new).1.1.1
  !! length found = Some paper_data.
Proof.
  intros Hnew Hrec. cbn [for_paper_in_results].
  change (in_dict _ (seen_papers w) || bool_decide (_ ∈ run))
    with (already_seen w run paper).
  rewrite Hnew. change (_ ≫= _) with (record_for (disk w) paper).
  rewrite Hrec. fold (paper_id_of paper). destruct (_ >=? _).
  - cbn. by rewrite list_lookup_middle.
  - destruct (for_paper_in_results_appends w max_results rest
                (found ++ [paper_data]) ({[paper_id_of paper]} ∪ run)
                (new + 1)) as (added & -> & _).
    rewrite <- app_assoc. cbn [app]. by rewrite list_lookup_middle.
Qed.

(** C1, in the form that holds of the code. For a candidate that is in neither [seen_papers] nor
    [seen_in_this_run] and whose summary file holds a record, the batch
    loop of [search_papers] takes that record as it is exactly when its
    summary is true (not null and not the empty string; a blank summary
    counts); otherwise it takes the fresh conversion of the remote result,
    or stops if the conversion raises. *)
Theorem cached_record_reused_iff_summary_true
    paper rest found run new cached :
  already_seen w run paper = false →
  _load_summary_from_file (disk w) (paper_id_of paper) = Ok (Some cached) →
  let out := for_paper_in_results w max_results (paper :: rest) found run
               new in
  (Py.truthy_opt (PaperData.summary cached) = true →
   out.1.1.1 !! length found = Some cached)
  ∧ (Py.truthy_opt (PaperData.summary cached) = false →
     match _convert_result paper with
     | Ok fresh => out.1.1.1 !! length found = Some fresh
     | Raise e => out = (found, run, new, Some e)
     end).
Proof.
  intros Hnew Hload out.
  assert (Hrec : record_for (disk w) paper
                 = if Py.truthy_opt (PaperData.summary cached) then Ok cached
                   else _convert_result paper).
  { unfold record_for. fold (paper_id_of paper). by rewrite Hload. }
  split; intros Hsum; rewrite Hsum in Hrec.
  - by apply for_paper_in_results_accepts.
  - destruct (_convert_result paper) as [fresh|e] eqn:Hconv.
    + by apply for_paper_in_results_accepts.
    + by apply for_paper_in_results_raise.
Qed.

End Reuse.

(** C1, as stated, fails: a cached record whose summary is three spaces is
    blank for [save_summary_to_file], yet [search_papers] returns it in place
    of the fresh conversion of the remote result. *)
Lemma blank_cached_summary_is_reused :
  blank_summary blank_record = true
  ∧ _load_summary_from_file (disk blank_cache_world) (paper_id_of paper_one)
    = Ok (Some blank_record)
  ∧ (∃ fresh, _convert_result paper_one = Ok fresh ∧ fresh ≠ blank_record)
  ∧ ∃ w', search_papers one_paper_service always_writes a_date None
            (Some ["cs.AI"]) 1 20 1%Q blank_cache_world
          = Some (Ok [blank_record], w').
Proof.
  split; [reflexivity|]. split; [vm_compute; reflexivity|]. split.
  - eexists. split; [reflexivity|]. discriminate.
  - eexists. vm_compute. reflexivity.
Qed.

(** ** Which exceptions the client lets out *)

Section Raising.

Variable results : Search → generator.
Variable write_ok : string → bool.

(** C10, in the form that holds of the code. [get_pdf_url] returns the
    [pdf_url] of the record [get_paper_by_id] yields when that [pdf_url] is
    neither null nor the empty string; it raises [ValueError] when
    [get_paper_by_id] yields no record, or a record whose [pdf_url] is null
    or empty; an exception of [get_paper_by_id] passes through unchanged.
    It is not the only operation that raises: [get_paper_by_id] lets out the
    [UnicodeDecodeError] of a summary file that is not text and, when the
    cache has no record for the id, whatever exception the first [next] on
    the remote generator raises; [search] lets out whatever exception a
    remote generator without items raises. *)
Theorem get_pdf_url_returns_or_raises now paper_id w :
  (∀ p u w',
     get_paper_by_id results write_ok now paper_id w = (Ok (Some p), w') →
     PaperData.pdf_url p = Some u → u ≠ EmptyString →
     get_pdf_url results write_ok now paper_id w = (Ok u, w'))
  ∧ (∀ p w',
       get_paper_by_id results write_ok now paper_id w = (Ok (Some p), w') →
       PaperData.pdf_url p = None ∨ PaperData.pdf_url p = Some EmptyString →
       get_pdf_url results write_ok now paper_id w
       = (Raise (ValueError (no_pdf_message paper_id)), w'))
  ∧ (∀ w',
       get_paper_by_id results write_ok now paper_id w = (Ok None, w') →
       get_pdf_url results write_ok now paper_id w
       = (Raise (ValueError (no_pdf_message paper_id)), w'))
  ∧ (∀ e w',
       get_paper_by_id results write_ok now paper_id w = (Raise e, w') →
       get_pdf_url results write_ok now paper_id w = (Raise e, w'))
  ∧ (disk w !! summary_filepath paper_id = Some Undecodable →
     get_paper_by_id results write_ok now paper_id w
     = (Raise UnicodeDecodeError, w))
  ∧ (∀ e,
       disk w !! summary_filepath paper_id = None →
       items (results (mkSearch EmptyString [paper_id] None false None)) = [] →
       failure (results (mkSearch EmptyString [paper_id] None false None))
       = Some e →
       get_paper_by_id results write_ok now paper_id w
       = (Raise e,
          with_request w (mkSearch EmptyString [paper_id] None false None)))
  ∧ (∀ terms cats max_results e,
       let request :=
         mkSearch (search_query terms cats) [] (Some 100) true None in
       items (results request) = [] →
       failure (results request) = Some e →
       search results write_ok now terms cats max_results w
       = (Raise e, with_request w request)).
Proof.
  split; [|split; [|split; [|split; [|split; [|split]]]]].
  - intros p u w' Hget Hurl Hu. unfold get_pdf_url. rewrite Hget, Hurl.
    by destruct u.
  - intros p w' Hget [Hurl|Hurl]; unfold get_pdf_url; by rewrite Hget, Hurl.
  - intros w' Hget. unfold get_pdf_url. by rewrite Hget.
  - intros e w' Hget. unfold get_pdf_url. by rewrite Hget.
  - intros Hfile. unfold get_paper_by_id, _load_summary_from_file.
    by rewrite Hfile.
  - intros e Hfile Hitems Hfail.
    unfold get_paper_by_id, _load_summary_from_file.
    by rewrite Hfile, Hitems, Hfail.
  - intros terms cats max_results e request Hitems Hfail. unfold search.
    fold request. by rewrite Hitems, Hfail.
Qed.

End Raising.

(** C10, as stated, fails twice: [get_paper_by_id] yields a record whose
    [pdf_url] is not null, the empty string, and [get_pdf_url] raises; and
    [get_pdf_url] is not alone in raising: [search] and [get_paper_by_id]
    let a failure of the transport out, and [get_paper_by_id] lets out the
    [UnicodeDecodeError], a [ValueError], of a summary file that is not
    text. *)
Lemma get_pdf_url_raises_on_empty_url :
  (∃ w',
     get_paper_by_id one_paper_service always_writes a_date "2301.00003v1"
       no_url_world = (Ok (Some no_url_record), w')
     ∧ PaperData.pdf_url no_url_record = Some EmptyString
     ∧ get_pdf_url one_paper_service always_writes a_date "2301.00003v1"
         no_url_world
       = (Raise (ValueError (no_pdf_message "2301.00003v1")), w'))
  ∧ (search failing_service always_writes a_date None (Some ["cs.AI"]) 10
       empty_world).1
    = Raise (TransportError "connection reset")
  ∧ (get_paper_by_id failing_service always_writes a_date "2301.00001v1"
       empty_world).1
    = Raise (TransportError "connection reset")
  ∧ (get_paper_by_id one_paper_service always_writes a_date "2301.00001v1"
       undecodable_world).1
    = Raise UnicodeDecodeError.
Proof.
  split; [|split; [|split]]; [|vm_compute; reflexivity..].
  eexists. split; [vm_compute; reflexivity|]. split; [reflexivity|].
  vm_compute. reflexivity.
Qed.

(** ** The bound of three fetches is reached *)

Section Stall.

Variable results : Search → generator.
Variable write_ok : string → bool.

(** X25. Against a service whose pages never fail, are never empty and hold
    only papers already in [seen_papers], a call with a query, a positive
    quota, a non-zero request size and a delay that [time.sleep] accepts
    (not negative and below [sleep_limit]) makes exactly three requests and
    returns the empty list. *)
Lemma stalled_search_makes_three_fetches
    now terms cats max_results request_size timeout w :
  Py.truthy (_construct_query terms cats) = true →
  0 < max_results →
  request_size ≠ 0 →
  sleep_raises timeout = false →
  (∀ s, failure (results s) = None ∧ items (results s) ≠ []) →
  (∀ s paper, paper ∈ items (results s) →
              in_dict (paper_id_of paper) (seen_papers w) = true) →
  ∃ w',
    search_papers results write_ok now terms cats max_results request_size
      timeout w = Some (Ok [], w')
    ∧ length (requests w') = (length (requests w) + 3)%nat.
Proof.
  intros Hq Hmax Hsize Hsleep Hpages Hseen.
  destruct (search_papers_run results write_ok now terms cats max_results
              request_size timeout w Hq Hsize) as (l & wl & Hloop & ->).
  set (query := _construct_query terms cats) in *.
  enough (found_papers l = []
          ∧ length (requests wl) = (length (requests w) + 3)%nat) as [-> ?]
    by (eexists; split; [done|]; by rewrite mark_papers_as_seen_requests).
  revert Hloop.
  apply (while_loop_rule results query max_results request_size timeout
           (fun l1 w1 =>
              found_papers l1 = []
              ∧ seen_papers w1 = seen_papers w
              ∧ 0 ≤ consecutive_seen_requests l1 ≤ 3
              ∧ Z.of_nat (length (requests w1))
                = Z.of_nat (length (requests w)) + consecutive_seen_requests l1)
           (fun l1 w1 =>
              found_papers l1 = []
              ∧ length (requests w1) = (length (requests w) + 3)%nat)).
  - intros l1 w1 (Hfound & _ & Hstall & Hcount) Htest.
    split; [done|]. unfold loop_test, max_consecutive_seen in Htest.
    rewrite Hfound in Htest. cbn in Htest.
    apply andb_false_iff in Htest as [H|H]; apply Z.ltb_ge in H; lia.
  - intros l1 w1 l2 w2 (Hfound & Hsame & Hstall & Hcount) Htest Hbody. exfalso.
    destruct (loop_body_cases results query max_results request_size timeout
                l1 w1) as [[? _]|[_ H]]; [done|].
    cbn zeta in H. unfold list_of_generator in H.
    destruct (Hpages (page_request query request_size l1)) as [Hfail Hitems].
    rewrite Hfail in H.
    destruct (items (results (page_request query request_size l1)))
      as [|paper batch] eqn:Hbatch; [done|].
    rewrite for_paper_in_results_all_seen in H; cycle 1.
    { intros p Hp. unfold already_seen. cbn [with_request seen_papers].
      rewrite Hsame, (Hseen (page_request query request_size l1) p); [done|].
      by rewrite Hbatch. }
    rewrite Hsleep, andb_false_r in H. congruence.
  - intros l1 w1 l2 w2 (Hfound & Hsame & Hstall & Hcount)
      [_ Htest]%andb_true_iff Hbody.
    apply Z.ltb_lt in Htest. unfold max_consecutive_seen in Htest.
    destruct (loop_body_cases results query max_results request_size timeout
                l1 w1) as [[? _]|[_ H]]; [done|].
    cbn zeta in H. unfold list_of_generator in H.
    destruct (Hpages (page_request query request_size l1)) as [Hfail Hitems].
    rewrite Hfail in H.
    destruct (items (results (page_request query request_size l1)))
      as [|paper batch] eqn:Hbatch; [done|].
    rewrite for_paper_in_results_all_seen in H; cycle 1.
    { intros p Hp. unfold already_seen. cbn [with_request seen_papers].
      rewrite Hsame, (Hseen (page_request query request_size l1) p); [done|].
      by rewrite Hbatch. }
    rewrite Hsleep, andb_false_r in H. rewrite H in Hbody.
    injection Hbody as <- <-.
    cbn [with_request seen_papers requests consecutive_seen_requests
           found_papers Z.eqb].
    rewrite length_app. cbn [length]. repeat split; try done; lia.
  - cbn. repeat split; try done; lia.
Qed.

End Stall.

(** ** The cache stays keyed by id under the client's operations *)

Section ClientWorlds.

Variable results : Search → generator.
Variable write_ok : string → bool.

Lemma ledger_rewritten_keyed d d' :
  ledger_rewritten d d' → cache_keyed_by_id d → cache_keyed_by_id d'.
Proof.
  intros [->|[doc ->]] Hkeyed; [done|].
  intros paper_id data Hno.
  rewrite lookup_insert_ne
    by (intros H; by apply (summary_filepath_not_ledger paper_id)).
  by apply Hkeyed.
Qed.

Lemma save_seen_papers_disk w :
  ledger_rewritten (disk w) (disk (_save_seen_papers write_ok w)).
Proof.
  unfold ledger_rewritten. cbn. unfold write_file.
  destruct (write_ok _); eauto.
Qed.

Lemma note_seen_disk now paper_id w :
  ledger_rewritten (disk w) (disk (note_seen write_ok now paper_id w)).
Proof.
  unfold note_seen. destruct (in_dict _ _); [by left|].
  apply (save_seen_papers_disk (mkWorld _ (disk w) (requests w))).
Qed.

Lemma search_papers_disk now terms cats max_results request_size timeout
    w res w' :
  cache_keyed_by_id (disk w) →
  search_papers results write_ok now terms cats max_results request_size
    timeout w = Some (res, w') →
  ledger_rewritten (disk w) (disk w').
Proof.
  intros Hkeyed Hrun. destruct res as [found|e].
  - by destruct (search_papers_found results write_ok _ _ _ _ _ _ _ _ _ Hkeyed
                   Hrun) as (_ & _ & _ & ?).
  - left. unfold search_papers in Hrun. destruct (negb _); [done|].
    destruct (while_loop _ _ _ _ _ _ _ _) as [[[l|e'] wl]|] eqn:H;
      cbn in Hrun; [done| |done].
    injection Hrun as <- <-.
    pose proof H as [_ ->]%while_loop_raises.
    unfold enough_fuel in H. cbn [while_loop] in H.
    destruct (loop_test _ _); [|done]. cbn in H. by injection H as _ <-.
Qed.

Lemma search_disk now terms cats max_results w :
  ledger_rewritten (disk w)
    (disk (search results write_ok now terms cats max_results w).2).
Proof.
  unfold search. destruct (for_paper_in_generator _ _ _ _ _ _); [|by left].
  apply (save_seen_papers_disk (mkWorld _ (disk w) _)).
Qed.

Lemma get_paper_by_id_disk now paper_id w :
  ledger_rewritten (disk w)
    (disk (get_paper_by_id results write_ok now paper_id w).2).
Proof.
  unfold get_paper_by_id.
  assert (Hfetch : ∀ w1 : world, disk w1 = disk w →
            ledger_rewritten (disk w)
              (disk (match items (results (mkSearch EmptyString [paper_id]
                                            None false None)),
                           failure (results (mkSearch EmptyString [paper_id]
                                              None false None))
                     with
                     | result :: _, _ =>
                         match _convert_result result with
                         | Raise e0 => (Raise e0, w1)
                         | Ok paper_data =>
                             (Ok (Some paper_data),
                              note_seen write_ok now paper_id w1)
                         end
                     | [], Some e0 => (Raise e0, w1)
                     | [], None => (Ok None, w1)
                     end).2)).
  { intros w1 Hw1. destruct (items _) as [|result rest].
    - destruct (failure _); cbn; rewrite Hw1; by left.
    - destruct (_convert_result result); cbn; [|rewrite Hw1; by left].
      rewrite <- Hw1. apply note_seen_disk. }
  destruct (_load_summary_from_file (disk w) paper_id) as [[existing|]|e'].
  - destruct (Py.truthy_opt _); [apply note_seen_disk|by apply Hfetch].
  - by apply Hfetch.
  - by left.
Qed.

Lemma get_pdf_url_disk now paper_id w :
  ledger_rewritten (disk w)
    (disk (get_pdf_url results write_ok now paper_id w).2).
Proof.
  pose proof (get_paper_by_id_disk now paper_id w) as H.
  unfold get_pdf_url.
  destruct (get_paper_by_id results write_ok now paper_id w)
    as [[[paper|]|e] w']; cbn in H |- *; try done.
  destruct (PaperData.pdf_url paper) as [u|]; [|done].
  by destruct (Py.truthy u).
Qed.

(** X24. Every world the client's operations lead to, from a disk without
    files and with ids that hold no slash, has its cache typed and keyed by
    record id: each summary file [paper_summaries/<id>.json] holds a record
    of the declared types whose id is the one the file is named after. *)
Lemma client_world_keyed w :
  client_world results write_ok w → cache_keyed_by_id (disk w).
Proof.
  induction 1 as [seen reqs|p w Hno _ IH|now papers w _ IH
                  |now terms cats m rs t w res w' _ IH Hrun
                  |now terms cats m w _ IH|now paper_id w Hno _ IH
                  |now paper_id w Hno _ IH].
  - apply empty_disk_keyed.
  - by apply save_summary_to_file_keeps_keyed.
  - by apply mark_papers_as_seen_keeps_keyed.
  - eapply ledger_rewritten_keyed; [|done]. by eapply search_papers_disk.
  - eapply ledger_rewritten_keyed; [|done]. apply search_disk.
  - eapply ledger_rewritten_keyed; [|done]. apply get_paper_by_id_disk.
  - eapply ledger_rewritten_keyed; [|done]. apply get_pdf_url_disk.
Qed.

End ClientWorlds.

(** * The properties at sample inputs *)

Lemma cached_record_reused_iff_summary_true_witness :
  already_seen blank_cache_world ∅ paper_one = false
  ∧ _load_summary_from_file (disk blank_cache_world) (paper_id_of paper_one)
    = Ok (Some blank_record)
  ∧ (Py.truthy_opt (PaperData.summary blank_record) = true →
     (for_paper_in_results blank_cache_world 1 [paper_one] [] ∅ 0).1.1.1
     !! length (@nil PaperData.t) = Some blank_record).
Proof.
  assert (H1 : already_seen blank_cache_world ∅ paper_one = false)
    by (vm_compute; reflexivity).
  assert (H2 : _load_summary_from_file (disk blank_cache_world)
                 (paper_id_of paper_one) = Ok (Some blank_record))
    by (vm_compute; reflexivity).
  split; [exact H1|]. split; [exact H2|].
  exact (proj1 (cached_record_reused_iff_summary_true blank_cache_world 1
                  paper_one [] [] ∅ 0 blank_record H1 H2)).
Defined.

Lemma stalled_search_stops_after_three_fetches_witness :
  (∀ s paper, paper ∈ items (one_paper_service s) →
              in_dict (paper_id_of paper) (seen_papers seen_one_world) = true)
  ∧ (∃ res w',
       search_papers one_paper_service always_writes a_date None
         (Some ["cs.AI"]) 10 20 1%Q seen_one_world = Some (res, w')
       ∧ (length (requests w') ≤ length (requests seen_one_world) + 3)%nat)
  ∧ loop_body one_paper_service "cat:cs.AI" 10 20 1%Q (mkLocals [] ∅ 20 1)
      seen_one_world
    = Continue (mkLocals [] ∅ 40 2)
        (with_request seen_one_world
           (page_request "cat:cs.AI" 20 (mkLocals [] ∅ 20 1)))
  ∧ loop_body one_paper_service "cat:cs.AI" 10 20 1%Q (mkLocals [] ∅ 20 1)
      empty_world
    = Continue (mkLocals [record_one] {[ "2301.00001v1" ]} 40 0)
        (with_request empty_world
           (page_request "cat:cs.AI" 20 (mkLocals [] ∅ 20 1))).
Proof.
  assert (H : ∀ s paper, paper ∈ items (one_paper_service s) →
                in_dict (paper_id_of paper) (seen_papers seen_one_world) = true).
  { intros s paper Hin. cbn in Hin. apply list_elem_of_singleton in Hin.
    subst paper. vm_compute. reflexivity. }
  pose proof (stalled_search_stops_after_three_fetches one_paper_service
                always_writes a_date None (Some ["cs.AI"]) 10 20 1%Q
                seen_one_world H) as (Hbound & Hzero & Hpage & _).
  split; [exact H|]. split; [exact Hbound|]. split.
  - refine (eq_trans
              (Hzero "cat:cs.AI" (mkLocals [] ∅ 20 1) seen_one_world
                 [paper_one] _ eq_refl _ _) _).
    + discriminate.
    + discriminate.
    + intros paper Hin. apply list_elem_of_singleton in Hin. subst paper.
      vm_compute. reflexivity.
    + vm_compute. reflexivity.
  - refine (eq_trans
              (Hpage "cat:cs.AI" (mkLocals [] ∅ 20 1) empty_world
                 [paper_one] [record_one] {[ "2301.00001v1" ]} 1 _ eq_refl
                 _ _) _).
    + discriminate.
    + discriminate.
    + vm_compute. reflexivity.
    + vm_compute. reflexivity.
Defined.

(** C3, as stated, fails: when the summary file named after the first
    paper holds a record with the id of the second, one call returns two
    records with one id. *)
Lemma misfiled_cache_gives_duplicate_ids :
  ∃ w',
    search_papers two_paper_service always_writes a_date None
      (Some ["cs.AI"]) 5 20 1%Q misfiled_world
    = Some (Ok [misfiled_record; record_two], w')
    ∧ ids_of [misfiled_record; record_two]
      = ["2301.00002v1"; "2301.00002v1"]
    ∧ ¬ NoDup (ids_of [misfiled_record; record_two]).
Proof.
  eexists. split; [vm_compute; reflexivity|]. split; [reflexivity|].
  intros Hnodup. apply NoDup_cons in Hnodup as [Hnotin _].
  apply Hnotin. cbn. apply list_elem_of_here.
Qed.

Lemma search_papers_returns_distinct_new_ids_witness :
  cache_keyed_by_id (disk blank_cache_world)
  ∧ ∃ res w',
      search_papers two_paper_service always_writes a_date None
        (Some ["cs.AI"]) 5 20 1%Q blank_cache_world = Some (res, w')
      ∧ ∀ found, res = Ok found →
          NoDup (ids_of found)
          ∧ ∀ p, p ∈ found →
                 in_dict (PaperData.id p) (seen_papers blank_cache_world)
                 = false.
Proof.
  assert (H : cache_keyed_by_id (disk blank_cache_world)).
  { intros paper_id data Hno Hfile.
    unfold blank_cache_world in Hfile. cbn [disk] in Hfile.
    apply lookup_singleton_Some in Hfile as [Hpath [= <-]].
    rewrite from_dict_to_dict. symmetry. by apply summary_filepath_inj. }
  split; [exact H|].
  exact (search_papers_returns_distinct_new_ids two_paper_service always_writes
           a_date None (Some ["cs.AI"]) 5 20 1%Q blank_cache_world H).
Defined.


(** C7, as stated, fails: with a quota of one and a service that offers two
    new papers, the first call returns the first paper and the second call,
    in the world the first left, returns the second paper.  And without a
    cache keyed by id the second call may return what the first returned:
    when the summary file named after a paper holds a record with another
    id, the first call marks that other id and the second call, in the world
    the first left, returns the same record again, although the first call
    returned fewer records than the quota. *)
Lemma second_search_not_empty :
  (search_papers two_paper_service always_writes a_date None (Some ["cs.AI"])
     1 20 1%Q empty_world
   = Some (Ok [record_one], world_after_first_call)
   ∧ ∃ w2,
       search_papers two_paper_service always_writes a_date None
         (Some ["cs.AI"]) 1 20 1%Q world_after_first_call
       = Some (Ok [record_two], w2)
       ∧ [record_two] ≠ [])
  ∧ ∃ w1 w2,
      search_papers one_paper_service always_writes a_date None
        (Some ["cs.AI"]) 5 20 1%Q misfiled_world
      = Some (Ok [misfiled_record], w1)
      ∧ search_papers one_paper_service always_writes a_date None
          (Some ["cs.AI"]) 5 20 1%Q w1
        = Some (Ok [misfiled_record], w2)
      ∧ Z.of_nat (length [misfiled_record]) < 5.
Proof.
  split.
  - split; [vm_compute; reflexivity|].
    eexists. split; [vm_compute; reflexivity | discriminate].
  - eexists _, _. split; [vm_compute; reflexivity|].
    split; [vm_compute; reflexivity | reflexivity].
Qed.

Lemma second_search_returns_nothing_seen_before_witness :
  cache_keyed_by_id (disk empty_world)
  ∧ search_papers one_paper_service always_writes a_date None (Some ["cs.AI"])
      5 20 1%Q empty_world
    = Some (Ok [record_one], world_after_stalled_call)
  ∧ Z.of_nat (length [record_one]) < 5
  ∧ ∃ w2,
      search_papers one_paper_service always_writes a_date None
        (Some ["cs.AI"]) 5 20 1%Q world_after_stalled_call
      = Some (Ok [], w2).
Proof.
  assert (H1 : cache_keyed_by_id (disk empty_world)) by apply empty_disk_keyed.
  assert (H2 : search_papers one_paper_service always_writes a_date None
                 (Some ["cs.AI"]) 5 20 1%Q empty_world
               = Some (Ok [record_one], world_after_stalled_call))
    by (vm_compute; reflexivity).
  assert (H3 : Z.of_nat (length [record_one]) < 5) by reflexivity.
  split; [exact H1|]. split; [exact H2|]. split; [exact H3|].
  destruct (second_search_returns_nothing_seen_before one_paper_service
              always_writes a_date a_date None (Some ["cs.AI"]) 5 20 1%Q
              empty_world [record_one] world_after_stalled_call H1 H2)
    as (found2 & w2 & Hrun & _ & Hempty).
  exists w2. by rewrite <- (Hempty H3).
Defined.

Lemma get_pdf_url_returns_or_raises_witness :
  (get_paper_by_id one_paper_service always_writes a_date "2301.00001v1"
     empty_world
   = (Ok (Some record_one),
      (get_paper_by_id one_paper_service always_writes a_date "2301.00001v1"
         empty_world).2)
   ∧ get_pdf_url one_paper_service always_writes a_date "2301.00001v1"
       empty_world
     = (Ok "https://arxiv.org/pdf/2301.00001v1",
        (get_paper_by_id one_paper_service always_writes a_date "2301.00001v1"
           empty_world).2))
  ∧ (get_paper_by_id empty_service always_writes a_date "2301.00001v1"
       empty_world
     = (Ok None,
        with_request empty_world
          (mkSearch EmptyString ["2301.00001v1"] None false None))
     ∧ get_pdf_url empty_service always_writes a_date "2301.00001v1"
         empty_world
       = (Raise (ValueError (no_pdf_message "2301.00001v1")),
          with_request empty_world
            (mkSearch EmptyString ["2301.00001v1"] None false None)))
  ∧ get_paper_by_id one_paper_service always_writes a_date "2301.00001v1"
      undecodable_world
    = (Raise UnicodeDecodeError, undecodable_world)
  ∧ get_pdf_url one_paper_service always_writes a_date "2301.00001v1"
      undecodable_world
    = (Raise UnicodeDecodeError, undecodable_world)
  ∧ get_paper_by_id failing_service always_writes a_date "2301.00001v1"
      empty_world
    = (Raise (TransportError "connection reset"),
       with_request empty_world
         (mkSearch EmptyString ["2301.00001v1"] None false None)).
Proof.
  assert (H : get_paper_by_id one_paper_service always_writes a_date
                "2301.00001v1" empty_world
              = (Ok (Some record_one),
                 (get_paper_by_id one_paper_service always_writes a_date
                    "2301.00001v1" empty_world).2))
    by (vm_compute; reflexivity).
  assert (H0 : get_paper_by_id empty_service always_writes a_date
                 "2301.00001v1" empty_world
               = (Ok None,
                  with_request empty_world
                    (mkSearch EmptyString ["2301.00001v1"] None false None)))
    by (vm_compute; reflexivity).
  assert (Hfile : disk undecodable_world !! summary_filepath "2301.00001v1"
                  = Some Undecodable) by (vm_compute; reflexivity).
  pose proof (get_pdf_url_returns_or_raises one_paper_service always_writes
                a_date "2301.00001v1" empty_world) as (Hurl & _).
  pose proof (get_pdf_url_returns_or_raises empty_service always_writes
                a_date "2301.00001v1" empty_world) as (_ & _ & Hnone & _).
  pose proof (get_pdf_url_returns_or_raises one_paper_service always_writes
                a_date "2301.00001v1" undecodable_world)
    as (_ & _ & _ & Hpass & Hdecode & _).
  pose proof (get_pdf_url_returns_or_raises failing_service always_writes
                a_date "2301.00001v1" empty_world)
    as (_ & _ & _ & _ & _ & Hnext & _).
  split; [split; [exact H|]|split; [split; [exact H0|]|split; [|split]]].
  - apply (Hurl record_one "https://arxiv.org/pdf/2301.00001v1" _ H);
      [reflexivity|discriminate].
  - exact (Hnone _ H0).
  - exact (Hdecode Hfile).
  - exact (Hpass _ _ (Hdecode Hfile)).
  - apply (Hnext (TransportError "connection reset")); reflexivity.
Defined.

(** * Further properties of the client *)

(** ** Records and dictionaries *)

(** X1. [from_dict] gives back the record [to_dict] was made from, for every
    record; so two records with the same dictionary are the same record. *)
Theorem to_dict_from_dict_roundtrip (p : PaperData.t) :
  PaperData.from_dict (PaperData.to_dict p) = Ok p
  ∧ ∀ q, PaperData.to_dict p = PaperData.to_dict q → p = q.
Proof.
  split; [apply from_dict_to_dict|].
  intros q Heq. apply (f_equal PaperData.from_dict) in Heq.
  rewrite !from_dict_to_dict in Heq. by injection Heq.
Qed.

Lemma as_str_ok j s : PaperData.as_str j = Ok s → j = JStr s.
Proof. destruct j; cbn; by intros [= <-]. Qed.

Lemma as_opt_str_ok j o :
  PaperData.as_opt_str j = Ok o → j = PaperData.opt_str o.
Proof. destruct j; cbn; by intros [= <-]. Qed.

Lemma as_strs_ok l r : PaperData.as_strs l = Ok r → l = JStr <$> r.
Proof.
  revert r. induction l as [|j l IH]; intros r; cbn [PaperData.as_strs].
  - by intros [= <-].
  - destruct j; try done.
    destruct (PaperData.as_strs l) as [r'|]; [|done].
    intros [= <-]. cbn. f_equal. by apply IH.
Qed.

Lemma as_opt_strs_ok j o :
  PaperData.as_opt_strs j = Ok o → j = PaperData.opt_strs o.
Proof.
  destruct j as [| | | |l|]; cbn; try by intros [= <-].
  destruct (PaperData.as_strs l) as [r|] eqn:H; [|done].
  intros [= <-]. cbn. f_equal. by apply as_strs_ok.
Qed.

Lemma bind_ok {A B} (r : result A) (k : A → result B) b :
  r ≫= k = Ok b → ∃ a, r = Ok a ∧ k a = Ok b.
Proof. destruct r as [a|e]; cbn; [eauto|done]. Qed.

(** X2. [from_dict] accepts a document only if it is a dictionary whose keys
    are field names and which has the keys [id], [title] and [url]; the record
    it returns agrees with the dictionary on every field, a missing optional
    key standing for null. *)
Theorem from_dict_reads_the_dictionary (data : json) (p : PaperData.t) :
  PaperData.from_dict data = Ok p →
  ∃ m,
    data = JDict m
    ∧ dom m ⊆ PaperData.field_names
    ∧ is_Some (m !! "id") ∧ is_Some (m !! "title") ∧ is_Some (m !! "url")
    ∧ ∀ k, k ∈ PaperData.field_names →
           PaperData.kwarg m k = PaperData.kwarg (dict_of p) k.
Proof.
  unfold PaperData.from_dict.
  destruct data as [| | | | |m]; try done.
  case_bool_decide as Hdom; [|done].
  destruct (m !! "id") as [ji|] eqn:Hi; [|done].
  destruct (m !! "title") as [jt|] eqn:Ht; [|done].
  destruct (m !! "url") as [ju|] eqn:Hu; [|done].
  intros H.
  apply bind_ok in H as (i & ->%as_str_ok & H).
  apply bind_ok in H as (t & ->%as_str_ok & H).
  apply bind_ok in H as (u & ->%as_str_ok & H).
  apply bind_ok in H as (pdf & Hpdf%as_opt_str_ok & H).
  apply bind_ok in H as (d & Hd%as_opt_str_ok & H).
  apply bind_ok in H as (c & Hc%as_opt_str_ok & H).
  apply bind_ok in H as (pub & Hpub%as_opt_str_ok & H).
  apply bind_ok in H as (au & Hau%as_opt_strs_ok & H).
  apply bind_ok in H as (ab & Hab%as_opt_str_ok & H).
  apply bind_ok in H as (kw & Hkw%as_opt_strs_ok & H).
  apply bind_ok in H as (su & Hsu%as_opt_str_ok & H).
  apply bind_ok in H as (ca & Hca%as_opt_strs_ok & H).
  injection H as <-.
  exists m. repeat split; eauto.
  intros k Hk. unfold PaperData.field_names in Hk.
  rewrite elem_of_list_to_set in Hk.
  repeat (apply elem_of_cons in Hk as [->|Hk];
          [first [ by rewrite Hpdf | by rewrite Hd | by rewrite Hc
                 | by rewrite Hpub | by rewrite Hau | by rewrite Hab
                 | by rewrite Hkw | by rewrite Hsu | by rewrite Hca
                 | by (unfold PaperData.kwarg; rewrite ?Hi, ?Ht, ?Hu) ]|]).
  by apply elem_of_nil in Hk.
Qed.

(** ** Blank summaries *)

Lemma lstrip_empty_iff s : Py.lstrip s = EmptyString ↔ all_space s = true.
Proof.
  induction s as [|c s IH]; [done|]. cbn [Py.lstrip all_space].
  destruct (Py.isspace c); cbn [andb]; [done|]. split; discriminate.
Qed.

Lemma rstrip_empty_iff s : Py.rstrip s = EmptyString ↔ all_space s = true.
Proof.
  induction s as [|c s IH]; [done|]. cbn [Py.rstrip all_space].
  destruct (Py.rstrip s) as [|d t].
  - rewrite (proj1 IH eq_refl), andb_true_r.
    destruct (Py.isspace c); split; done.
  - destruct (all_space s); [by specialize (proj2 IH eq_refl)|].
    rewrite andb_false_r. split; discriminate.
Qed.

Lemma all_space_lstrip s : all_space (Py.lstrip s) = all_space s.
Proof.
  induction s as [|c s IH]; [done|]. cbn [Py.lstrip].
  destruct (Py.isspace c) eqn:Hc; [|done]. cbn [all_space]. by rewrite Hc.
Qed.

Lemma strip_empty_iff s : Py.strip s = EmptyString ↔ all_space s = true.
Proof. unfold Py.strip. by rewrite rstrip_empty_iff, all_space_lstrip. Qed.

(** The test of [save_summary_to_file] holds exactly of the summaries that
    are null or made of whitespace only. *)
Lemma blank_summary_iff (p : PaperData.t) :
  blank_summary p = true
  ↔ match PaperData.summary p with
    | None => True
    | Some s => all_space s = true
    end.
Proof.
  unfold blank_summary. destruct (PaperData.summary p) as [s|]; [|done].
  rewrite <- strip_empty_iff. destruct s as [|c s]; [done|]. cbn [Py.truthy negb orb].
  destruct (Py.strip (String c s)); split; done.
Qed.

Section Saving.

Variable write_ok : string → bool.

(** X3. [save_summary_to_file] changes nothing when the summary of the record
    is null or made of whitespace only (the empty string included); for any
    other record, if the write succeeds, the summary file of the record's id
    holds the record's dictionary afterwards. *)
Theorem save_summary_to_file_writes_unless_blank (p : PaperData.t) (w : world) :
  let blank := match PaperData.summary p with
               | None => True
               | Some s => all_space s = true
               end in
  (blank → save_summary_to_file write_ok p w = w)
  ∧ (¬ blank →
     write_ok (summary_filepath (PaperData.id p)) = true →
     disk (save_summary_to_file write_ok p w) !! summary_filepath (PaperData.id p)
     = Some (Document (PaperData.to_dict p))).
Proof.
  cbn zeta. rewrite <- blank_summary_iff. split.
  - apply save_summary_to_file_blank.
  - intros Hblank. apply save_summary_to_file_disk.
    by destruct (blank_summary p).
Qed.

(** X4. [save_summary_to_file], given a record whose id holds no slash,
    touches at most the summary file of that id: [seen_papers], the log of
    requests, the ledger file and the summary files of all other ids without
    a slash are as before. *)
Theorem save_summary_to_file_touches_one_file (p : PaperData.t) (w : world) :
  Py.contains "/" (PaperData.id p) = false →
  let w' := save_summary_to_file write_ok p w in
  seen_papers w' = seen_papers w
  ∧ requests w' = requests w
  ∧ disk w' !! SEEN_PAPERS_FILE = disk w !! SEEN_PAPERS_FILE
  ∧ _load_seen_papers (disk w') = _load_seen_papers (disk w)
  ∧ (∀ paper_id,
       Py.contains "/" paper_id = false →
       paper_id ≠ PaperData.id p →
       disk w' !! summary_filepath paper_id
       = disk w !! summary_filepath paper_id
       ∧ _load_summary_from_file (disk w') paper_id
         = _load_summary_from_file (disk w) paper_id).
Proof.
  intros _. cbn zeta.
  assert (Hframe : ∀ path, path ≠ summary_filepath (PaperData.id p) →
            disk (save_summary_to_file write_ok p w) !! path = disk w !! path).
  { intros path Hpath. unfold save_summary_to_file, write_file.
    destruct (blank_summary p); [done|]. cbn [disk].
    destruct (write_ok _); [|done]. by rewrite lookup_insert_ne. }
  assert (Hledger : SEEN_PAPERS_FILE ≠ summary_filepath (PaperData.id p)).
  { intros H. by apply (summary_filepath_not_ledger (PaperData.id p)). }
  split; [|split; [|split; [by apply Hframe|split]]].
  - unfold save_summary_to_file. by destruct (blank_summary p).
  - unfold save_summary_to_file. by destruct (blank_summary p).
  - unfold _load_seen_papers. by rewrite Hframe.
  - intros paper_id _ Hne.
    assert (Hpath : summary_filepath paper_id
                    ≠ summary_filepath (PaperData.id p)).
    { intros H. by apply summary_filepath_inj in H. }
    split; [by apply Hframe|].
    unfold _load_summary_from_file. by rewrite Hframe.
Qed.

End Saving.

(** ** The ledger *)

Lemma ledger_of_json_roundtrip (m : gmap string string) :
  ledger_of_json (JDict (JStr <$> m)) = Ok m.
Proof.
  unfold ledger_of_json. rewrite bool_decide_eq_true_2.
  - f_equal. apply map_eq. intros k.
    rewrite lookup_omap, lookup_fmap. by destruct (m !! k).
  - intros k v. rewrite lookup_fmap.
    destruct (m !! k); cbn; [|done]. intros [= <-]. by eexists.
Qed.

Section Ledger.

Variable results : Search → generator.
Variable write_ok : string → bool.

Lemma save_seen_papers_synced (w : world) :
  write_ok SEEN_PAPERS_FILE = true →
  ledger_synced (_save_seen_papers write_ok w).
Proof.
  intros Hok. unfold ledger_synced, _load_seen_papers. cbn. unfold write_file.
  rewrite Hok, lookup_insert_eq. apply ledger_of_json_roundtrip.
Qed.

(** X5. [mark_papers_as_seen] gives every listed record's id the current
    date in [seen_papers] and leaves all other entries as they were; it sends
    no request and leaves the summary file of every id without a slash
    readable as before; and when the write of the ledger file succeeds, that
    file holds the new [seen_papers]. *)
Theorem mark_papers_as_seen_updates_ledger
    (now : string) (papers : list PaperData.t) (w : world) :
  let w' := mark_papers_as_seen write_ok now papers w in
  (∀ x, seen_papers w' !! x
        = if bool_decide (x ∈ ids_of papers) then Some now
          else seen_papers w !! x)
  ∧ requests w' = requests w
  ∧ (∀ paper_id,
       Py.contains "/" paper_id = false →
       _load_summary_from_file (disk w') paper_id
       = _load_summary_from_file (disk w) paper_id)
  ∧ (write_ok SEEN_PAPERS_FILE = true → ledger_synced w').
Proof.
  cbn zeta. split; [|split; [done|split]].
  - intros x. apply mark_papers_as_seen_lookup.
  - intros paper_id Hno. cbn. unfold write_file.
    destruct (write_ok _); [|done].
    by apply load_summary_after_ledger_write.
  - intros Hok. by apply save_seen_papers_synced.
Qed.

(** X6. Marking the same records twice with the same date is the same as
    marking them once. *)
Theorem mark_papers_as_seen_idempotent
    (now : string) (papers : list PaperData.t) (w : world) :
  mark_papers_as_seen write_ok now papers
    (mark_papers_as_seen write_ok now papers w)
  = mark_papers_as_seen write_ok now papers w.
Proof.
  assert (Hseen : seen_papers
                    (mark_papers_as_seen write_ok now papers
                       (mark_papers_as_seen write_ok now papers w))
                  = seen_papers (mark_papers_as_seen write_ok now papers w)).
  { apply map_eq. intros x. rewrite !mark_papers_as_seen_lookup.
    by destruct (bool_decide _). }
  unfold mark_papers_as_seen, _save_seen_papers in *.
  cbn [seen_papers disk requests] in *. rewrite Hseen. f_equal.
  unfold write_file. destruct (write_ok _); [|done].
  by rewrite insert_insert_eq.
Qed.

(** The loop of [search_papers] changes neither [seen_papers] nor the disk,
    however it ends. *)
Lemma while_loop_world fuel query max_results request_size timeout l w r w' :
  while_loop results fuel query max_results request_size timeout l w
  = Some (r, w') →
  seen_papers w' = seen_papers w ∧ disk w' = disk w.
Proof.
  revert l w. induction fuel as [|fuel IH]; intros l w; [done|].
  cbn [while_loop]. destruct (loop_test max_results l); [|by intros [= _ <-]].
  pose proof (loop_body_world results query max_results request_size timeout
                l w) as Hw.
  destruct (loop_body results query max_results request_size timeout l w)
    as [l1 w1|l1 w1|e w1]; subst w1.
  - intros H. by apply IH in H.
  - by intros [= _ <-].
  - by intros [= _ <-].
Qed.

(** What [search_papers] does to the world: nothing, or one marking of what
    it returns, after the requests of its loop. *)
Lemma search_papers_world now terms cats max_results request_size timeout
    w res w' :
  search_papers results write_ok now terms cats max_results request_size
    timeout w = Some (res, w') →
  (seen_papers w' = seen_papers w ∧ disk w' = disk w
   ∧ (res = Ok [] ∨ ∃ e, res = Raise e))
  ∨ ∃ found wl,
      res = Ok found ∧ seen_papers wl = seen_papers w ∧ disk wl = disk w
      ∧ w' = mark_papers_as_seen write_ok now found wl.
Proof.
  unfold search_papers. destruct (negb _).
  { intros [= <- <-]. left. repeat split; auto. }
  destruct (while_loop _ _ _ _ _ _ _ _) as [[[l|e] wl]|] eqn:H; cbn; [| |done].
  - intros [= <- <-]. right. apply while_loop_world in H as [? ?].
    by exists (found_papers l), wl.
  - intros [= <- <-]. left. apply while_loop_world in H as [? ?].
    repeat split; eauto.
Qed.


End Ledger.

(** ** The query of [search_papers] *)

(** X8. [_construct_query] gives the empty string exactly when there is no
    category and the terms are absent, an empty list, or the single empty
    term; so only then does [search_papers] return without a request for
    lack of criteria. *)
Theorem construct_query_empty_iff (search_terms categories : option (list string)) :
  Py.truthy (_construct_query search_terms categories) = false
  ↔ (categories = None ∨ categories = Some [])
    ∧ (search_terms = None ∨ search_terms = Some []
       ∨ search_terms = Some [EmptyString]).
Proof.
  split.
  - destruct categories as [[|c [|c' cs]]|];
      destruct search_terms as [[|t [|t' ts]]|]; cbn; try done; auto 6.
    + unfold quote_encoded. destruct (Py.contains " " t); [done|].
      destruct t; [auto 6|done].
    + unfold quote_encoded. destruct (Py.contains " " t); [done|].
      destruct t; [auto 6|done].
  - intros [[-> | ->] [-> | [-> | ->]]]; reflexivity.
Qed.

(** X9. With at least one category and at least one term, the query is the
    category clause, then [ AND ], then the term clause, each clause being
    what [_construct_query] builds from the categories or the terms alone. *)
Theorem construct_query_and_joins (terms cats : list string) :
  cats ≠ [] → terms ≠ [] →
  _construct_query (Some terms) (Some cats)
  = _construct_query None (Some cats) +:+ " AND "
    +:+ _construct_query (Some terms) None.
Proof.
  intros Hc Ht.
  destruct cats as [|c [|c' cs]]; [done| |];
    destruct terms as [|t [|t' ts]]; done.
Qed.

(** ** What [_convert_result] makes of a remote result *)


(** X11. The [pdf_url] of a converted record never starts with [http:]: a
    link of the result that does has its scheme replaced by [https], any
    other link is kept, and a result without the attribute gets the arXiv
    link of its id. *)
Theorem convert_result_pdf_url_is_https (r : ArxivResult.t) (p : PaperData.t) :
  _convert_result r = Ok p →
  ∃ u,
    PaperData.pdf_url p = Some u
    ∧ Py.startswith "http:" u = false
    ∧ match ArxivResult.pdf_url r with
      | Some (Some link) =>
          if Py.startswith "http:" link then u = "https" +:+ Py.drop 4 link
          else u = link
      | Some None => False
      | None => u = "https://arxiv.org/pdf/" +:+ PaperData.id p +:+ ".pdf"
      end.
Proof.
  unfold _convert_result.
  destruct (ArxivResult.pdf_url r) as [[link|]|]; cbn [mbind result_bind];
    [| done |].
  - destruct (Py.startswith "http:" link) eqn:Hlink; intros [= <-]; cbn;
      eexists; repeat split; done.
  - intros [= <-]. cbn. eexists. repeat split; done.
Qed.

(** ** Looking one paper up: [get_paper_by_id] *)

Section Lookup.

Variable results : Search → generator.
Variable write_ok : string → bool.

Lemma note_seen_spec now paper_id w :
  let w' := note_seen write_ok now paper_id w in
  in_dict paper_id (seen_papers w') = true
  ∧ requests w' = requests w
  ∧ (∀ x, x ≠ paper_id → seen_papers w' !! x = seen_papers w !! x)
  ∧ (in_dict paper_id (seen_papers w) = true → w' = w).
Proof.
  cbn zeta. unfold note_seen.
  destruct (in_dict paper_id (seen_papers w)) eqn:Hin; [done|].
  cbn. repeat split; try done.
  - unfold in_dict. by rewrite lookup_insert_eq.
  - intros x Hx. by rewrite lookup_insert_ne.
Qed.

(** The request [get_paper_by_id] sends. *)
Local Abbreviation id_request paper_id :=
  (mkSearch EmptyString [paper_id] None false None).

(** [get_paper_by_id] when the cache has nothing to offer. *)
Lemma get_paper_by_id_fetch now paper_id w :
  (_load_summary_from_file (disk w) paper_id = Ok None
   ∨ ∃ existing,
       _load_summary_from_file (disk w) paper_id = Ok (Some existing)
       ∧ Py.truthy_opt (PaperData.summary existing) = false) →
  get_paper_by_id results write_ok now paper_id w
  = let w1 := with_request w (id_request paper_id) in
    match items (results (id_request paper_id)),
          failure (results (id_request paper_id)) with
    | result :: _, _ =>
        match _convert_result result with
        | Raise e => (Raise e, w1)
        | Ok paper_data =>
            (Ok (Some paper_data), note_seen write_ok now paper_id w1)
        end
    | [], Some e => (Raise e, w1)
    | [], None => (Ok None, w1)
    end.
Proof.
  unfold get_paper_by_id. intros [->|(existing & -> & ->)]; reflexivity.
Qed.

(** X12. When the summary file of the id holds a record whose summary is
    true, [get_paper_by_id] returns that record without sending a request,
    and the id is in [seen_papers] afterwards, the other entries being as
    before. *)
Theorem get_paper_by_id_uses_cache now paper_id w cached :
  _load_summary_from_file (disk w) paper_id = Ok (Some cached) →
  Py.truthy_opt (PaperData.summary cached) = true →
  let out := get_paper_by_id results write_ok now paper_id w in
  out.1 = Ok (Some cached)
  ∧ requests out.2 = requests w
  ∧ in_dict paper_id (seen_papers out.2) = true
  ∧ ∀ x, x ≠ paper_id → seen_papers out.2 !! x = seen_papers w !! x.
Proof.
  intros Hload Hsum. cbn zeta. unfold get_paper_by_id. rewrite Hload, Hsum.
  cbn [fst snd].
  destruct (note_seen_spec now paper_id w) as (? & ? & ? & _). done.
Qed.

(** X13. [get_paper_by_id] never changes the ledger entry of another id and
    never replaces the date of an id already in [seen_papers]: if the id is
    there, [seen_papers] and the disk are left as they were; and the id is
    in [seen_papers] afterwards only if it was before or a record is
    returned. *)
Theorem get_paper_by_id_ledger_effect now paper_id w :
  let out := get_paper_by_id results write_ok now paper_id w in
  (∀ x, x ≠ paper_id → seen_papers out.2 !! x = seen_papers w !! x)
  ∧ (in_dict paper_id (seen_papers w) = true →
     seen_papers out.2 = seen_papers w ∧ disk out.2 = disk w)
  ∧ (in_dict paper_id (seen_papers out.2) = true →
     in_dict paper_id (seen_papers w) = true ∨ ∃ p, out.1 = Ok (Some p)).
Proof.
  cbn zeta.
  assert (Hnote : ∀ w1 : world, seen_papers w1 = seen_papers w →
            disk w1 = disk w → ∀ p : PaperData.t,
            let out := (Ok (Some p), note_seen write_ok now paper_id w1) in
            (∀ x, x ≠ paper_id → seen_papers out.2 !! x = seen_papers w !! x)
            ∧ (in_dict paper_id (seen_papers w) = true →
               seen_papers out.2 = seen_papers w ∧ disk out.2 = disk w)
            ∧ (in_dict paper_id (seen_papers out.2) = true →
               in_dict paper_id (seen_papers w) = true
               ∨ ∃ p', out.1 = Ok (Some p'))).
  { intros w1 Hs Hd p. cbn zeta. cbn [fst snd].
    destruct (note_seen_spec now paper_id w1) as (_ & _ & Hother & Hsame).
    rewrite <- Hs, <- Hd. split; [done|]. split.
    - intros Hin. by rewrite (Hsame Hin).
    - intros _. right. by exists p. }
  assert (Hkeep : ∀ (res : result (option PaperData.t)) (w1 : world),
            seen_papers w1 = seen_papers w → disk w1 = disk w →
            (∀ x, x ≠ paper_id → seen_papers (res, w1).2 !! x = seen_papers w !! x)
            ∧ (in_dict paper_id (seen_papers w) = true →
               seen_papers (res, w1).2 = seen_papers w
               ∧ disk (res, w1).2 = disk w)
            ∧ (in_dict paper_id (seen_papers (res, w1).2) = true →
               in_dict paper_id (seen_papers w) = true
               ∨ ∃ p', (res, w1).1 = Ok (Some p'))).
  { intros res w1 Hs Hd. cbn [fst snd]. rewrite Hs, Hd. repeat split; auto. }
  assert (Hfetch :
            let out :=
              let w1 := with_request w (id_request paper_id) in
              match items (results (id_request paper_id)),
                    failure (results (id_request paper_id)) with
              | result :: _, _ =>
                  match _convert_result result with
                  | Raise e => (Raise e, w1)
                  | Ok paper_data =>
                      (Ok (Some paper_data), note_seen write_ok now paper_id w1)
                  end
              | [], Some e => (Raise e, w1)
              | [], None => (Ok None, w1)
              end in
            (∀ x, x ≠ paper_id → seen_papers out.2 !! x = seen_papers w !! x)
            ∧ (in_dict paper_id (seen_papers w) = true →
               seen_papers out.2 = seen_papers w ∧ disk out.2 = disk w)
            ∧ (in_dict paper_id (seen_papers out.2) = true →
               in_dict paper_id (seen_papers w) = true
               ∨ ∃ p', out.1 = Ok (Some p'))).
  { cbn zeta. destruct (items _) as [|result rest].
    - destruct (failure _); by apply Hkeep.
    - destruct (_convert_result result); [by apply Hnote|by apply Hkeep]. }
  destruct (_load_summary_from_file (disk w) paper_id)
    as [[existing|]|e] eqn:Hload.
  - destruct (Py.truthy_opt (PaperData.summary existing)) eqn:Hsum.
    + unfold get_paper_by_id. rewrite Hload, Hsum. by apply Hnote.
    + rewrite get_paper_by_id_fetch by eauto. apply Hfetch.
  - rewrite get_paper_by_id_fetch by eauto. apply Hfetch.
  - unfold get_paper_by_id. rewrite Hload. by apply Hkeep.
Qed.

(** X14. When the cache offers no record with a true summary and the service
    has nothing under the id, [get_paper_by_id] returns null after exactly
    one request, by id, and marks nothing. *)
Theorem get_paper_by_id_not_found now paper_id w :
  (_load_summary_from_file (disk w) paper_id = Ok None
   ∨ ∃ existing,
       _load_summary_from_file (disk w) paper_id = Ok (Some existing)
       ∧ Py.truthy_opt (PaperData.summary existing) = false) →
  results (id_request paper_id) = mkGen [] None →
  get_paper_by_id results write_ok now paper_id w
  = (Ok None,
     mkWorld (seen_papers w) (disk w) (requests w ++ [id_request paper_id])).
Proof.
  intros Hcache Hgen. rewrite get_paper_by_id_fetch by done.
  cbn zeta. by rewrite Hgen.
Qed.

(** X15. A record with a summary that is not blank, once saved with
    [save_summary_to_file] (the write succeeding), is what [get_paper_by_id]
    returns for its id, and no request is sent. *)
Theorem get_paper_by_id_after_save now (p : PaperData.t) (w : world) :
  blank_summary p = false →
  write_ok (summary_filepath (PaperData.id p)) = true →
  let saved := save_summary_to_file write_ok p w in
  let out := get_paper_by_id results write_ok now (PaperData.id p) saved in
  out.1 = Ok (Some p) ∧ requests out.2 = requests w.
Proof.
  intros Hblank Hok. cbn zeta.
  assert (Hload : _load_summary_from_file
                    (disk (save_summary_to_file write_ok p w)) (PaperData.id p)
                  = Ok (Some p)).
  { unfold _load_summary_from_file.
    rewrite (save_summary_to_file_disk write_ok p w Hblank Hok).
    by rewrite from_dict_to_dict. }
  assert (Hsum : Py.truthy_opt (PaperData.summary p) = true).
  { unfold blank_summary in Hblank.
    destruct (PaperData.summary p) as [s|]; [|done]. cbn.
    by destruct (Py.truthy s). }
  unfold get_paper_by_id. rewrite Hload, Hsum. cbn [fst snd].
  destruct (note_seen_spec now (PaperData.id p)
              (save_summary_to_file write_ok p w)) as (_ & -> & _).
  split; [done|]. unfold save_summary_to_file. by destruct (blank_summary p).
Qed.

End Lookup.

(** ** More on [search_papers] *)

Section Discovering.

Variable results : Search → generator.
Variable write_ok : string → bool.

(** What one iteration can make of [found_papers] and [seen_in_this_run]:
    what they were, or what the batch loop made of them. *)
Lemma loop_body_locals (Φ : list PaperData.t → gset string → Prop)
    query max_results request_size timeout l w l' w' :
  loop_body results query max_results request_size timeout l w = Continue l' w'
  ∨ loop_body results query max_results request_size timeout l w = Break l' w' →
  Φ (found_papers l) (seen_in_this_run l) →
  (∀ batch,
     let out := for_paper_in_results
                  (with_request w (page_request query request_size l))
                  max_results batch (found_papers l) (seen_in_this_run l) 0 in
     Φ out.1.1.1 out.1.1.2) →
  Φ (found_papers l') (seen_in_this_run l').
Proof.
  intros Hbody Hold Hbatch.
  destruct (loop_body_cases results query max_results request_size timeout l w)
    as [[_ H]|[_ H]]; [destruct Hbody; congruence|].
  cbn zeta in H.
  destruct (list_of_generator _) as [[|paper batch]|e].
  - assert (l' = l) as -> by (destruct Hbody; congruence). done.
  - specialize (Hbatch (paper :: batch)). cbn zeta in Hbatch.
    destruct (for_paper_in_results _ _ _ _ _ _) as [[[found run] new] [e|]];
      cbn [fst snd] in Hbatch; rewrite H in Hbody.
    + assert (l' = mkLocals found run (start_index l)
                     (consecutive_seen_requests l)) as ->
        by (destruct Hbody; congruence).
      done.
    + assert (l' = mkLocals found run (start_index l + request_size)
                     (if new =? 0 then consecutive_seen_requests l + 1 else 0))
        as -> by (destruct (_ && _); destruct Hbody; congruence).
      done.
  - assert (l' = l) as -> by (destruct Hbody; congruence). done.
Qed.

(** X16. [search_papers] never returns more than [max_results] records, and
    none when [max_results] is zero or negative. *)
Theorem search_papers_respects_quota
    now terms cats max_results request_size timeout w found w' :
  search_papers results write_ok now terms cats max_results request_size
    timeout w = Some (Ok found, w') →
  Z.of_nat (length found) ≤ Z.max 0 max_results.
Proof.
  unfold search_papers. destruct (negb _).
  { intros [= <- _]. cbn. lia. }
  destruct (while_loop _ _ _ _ _ _ _ _) as [[[l|e] wl]|] eqn:Hloop; cbn;
    [|done|done].
  intros [= <- _]. revert Hloop.
  apply (while_loop_rule results (_construct_query terms cats) max_results
           request_size timeout
           (fun l1 _ => Z.of_nat (length (found_papers l1)) ≤ Z.max 0 max_results)
           (fun l1 _ => Z.of_nat (length (found_papers l1)) ≤ Z.max 0 max_results)).
  - auto.
  - intros l1 w1 l2 w2 Hle [Hlen _]%andb_true_iff Hbody.
    apply Z.ltb_lt in Hlen.
    apply (loop_body_locals
             (fun f _ => Z.of_nat (length f) ≤ Z.max 0 max_results)
             (_construct_query terms cats) max_results request_size timeout
             l1 w1 l2 w2); [by right|done|].
    intros batch. cbn zeta.
    pose proof (for_paper_in_results_quota
                  (with_request w1 (page_request (_construct_query terms cats)
                                      request_size l1))
                  max_results batch (found_papers l1) (seen_in_this_run l1) 0
                  Hlen). lia.
  - intros l1 w1 l2 w2 Hle [Hlen _]%andb_true_iff Hbody.
    apply Z.ltb_lt in Hlen.
    apply (loop_body_locals
             (fun f _ => Z.of_nat (length f) ≤ Z.max 0 max_results)
             (_construct_query terms cats) max_results request_size timeout
             l1 w1 l2 w2); [by left|done|].
    intros batch. cbn zeta.
    pose proof (for_paper_in_results_quota
                  (with_request w1 (page_request (_construct_query terms cats)
                                      request_size l1))
                  max_results batch (found_papers l1) (seen_in_this_run l1) 0
                  Hlen). lia.
  - cbn. lia.
Qed.

(** X17. After [search_papers] returns a list, [seen_papers] holds what it
    held before and the ids of the returned records, nothing else; the
    returned ids carry the current date. *)
Theorem search_papers_marks_what_it_returns
    now terms cats max_results request_size timeout w found w' :
  search_papers results write_ok now terms cats max_results request_size
    timeout w = Some (Ok found, w') →
  ∀ x, seen_papers w' !! x
       = if bool_decide (x ∈ ids_of found) then Some now
         else seen_papers w !! x.
Proof.
  intros Hrun x.
  apply search_papers_world in Hrun
    as [(Hs & _ & [[= ->]|[e [=]]])|(found' & wl & [= <-] & Hs & _ & ->)].
  - rewrite Hs. cbn. by rewrite bool_decide_eq_false_2 by apply not_elem_of_nil.
  - by rewrite mark_papers_as_seen_lookup, Hs.
Qed.

(** X18. With a query, a positive [max_results] and a [request_size] of
    zero, [search_papers] raises [ZeroDivisionError] before any request and
    leaves the world as it was. *)
Theorem search_papers_zero_request_size
    now terms cats max_results timeout w :
  Py.truthy (_construct_query terms cats) = true →
  0 < max_results →
  search_papers results write_ok now terms cats max_results 0 timeout w
  = Some (Raise ZeroDivisionError, w).
Proof.
  intros Hq Hmax. rewrite search_papers_zero_size by done.
  by apply Z.ltb_lt in Hmax as ->.
Qed.

(** X19. With [max_results] zero or negative, [search_papers] sends no
    request and returns the empty list. *)
Theorem search_papers_no_quota_no_request
    now terms cats max_results request_size timeout w :
  max_results ≤ 0 →
  ∃ w',
    search_papers results write_ok now terms cats max_results request_size
      timeout w = Some (Ok [], w')
    ∧ requests w' = requests w
    ∧ seen_papers w' = seen_papers w.
Proof.
  intros Hmax. unfold search_papers. destruct (negb _); [by exists w|].
  unfold enough_fuel. cbn [while_loop].
  unfold loop_test, initial_locals. cbn [found_papers length].
  destruct (Z.ltb_spec (Z.of_nat 0) max_results) as [?|_]; [lia|].
  cbn. eexists. repeat split; done.
Qed.

End Discovering.

(** ** The requests of [search_papers] *)

Lemma page_requests_S query size n :
  page_requests query size (S n)
  = page_requests query size n
    ++ [mkSearch query [] (Some size) true (Some (Z.of_nat n * size))].
Proof. unfold page_requests. by rewrite seq_S, fmap_app. Qed.

Section Requests.

Variable results : Search → generator.
Variable write_ok : string → bool.

(** A complete iteration moves to the next page. *)
Lemma loop_body_next_page query max_results request_size timeout l w l' w' :
  loop_body results query max_results request_size timeout l w = Continue l' w' →
  start_index l' = start_index l + request_size.
Proof.
  intros Hbody.
  destruct (loop_body_cases results query max_results request_size timeout l w)
    as [[_ H]|[_ H]]; [congruence|].
  cbn zeta in H.
  destruct (list_of_generator _) as [[|paper batch]|e]; [congruence| |congruence].
  destruct (for_paper_in_results _ _ _ _ _ _) as [[[found run] new] [e|]];
    rewrite H in Hbody; [done|].
  destruct (_ && _); [done|]. by injection Hbody as <- _.
Qed.

(** With a request size of zero the loop sends nothing. *)
Lemma while_loop_zero_size fuel query max_results timeout l w r w' :
  while_loop results fuel query max_results 0 timeout l w = Some (r, w') →
  w' = w.
Proof.
  destruct fuel as [|fuel]; [done|]. cbn [while_loop].
  destruct (loop_test max_results l); cbn; by intros [= _ <-].
Qed.

(** X20. The requests [search_papers] sends are page requests for its query
    and request size, newest first, at the offsets [0], [request_size],
    [2 * request_size], ... in this order, without a gap. *)
Theorem search_papers_requests_consecutive_pages
    now terms cats max_results request_size timeout w res w' :
  search_papers results write_ok now terms cats max_results request_size
    timeout w = Some (res, w') →
  ∃ n, requests w'
       = requests w
         ++ page_requests (_construct_query terms cats) request_size n.
Proof.
  unfold search_papers. destruct (negb _).
  { intros [= _ <-]. exists 0%nat. cbn. by rewrite app_nil_r. }
  set (query := _construct_query terms cats).
  destruct (while_loop _ _ _ _ _ _ _ _) as [[[l|e] wl]|] eqn:Hloop; cbn;
    [| |done].
  - intros [= _ <-]. rewrite mark_papers_as_seen_requests. revert Hloop.
    apply (while_loop_rule results query max_results request_size timeout
             (fun l1 w1 =>
                ∃ n, start_index l1 = Z.of_nat n * request_size
                     ∧ requests w1
                       = requests w ++ page_requests query request_size n)
             (fun _ w1 =>
                ∃ n, requests w1
                     = requests w ++ page_requests query request_size n)).
    + intros l1 w1 (n & _ & Hreq) _. eauto.
    + intros l1 w1 l2 w2 (n & Hstart & Hreq) _ Hbody.
      pose proof (loop_body_world results query max_results request_size
                    timeout l1 w1) as Hw.
      rewrite Hbody in Hw. subst w2. exists (S n).
      cbn [with_request requests]. rewrite Hreq, page_requests_S, app_assoc.
      unfold page_request. by rewrite Hstart.
    + intros l1 w1 l2 w2 (n & Hstart & Hreq) _ Hbody.
      pose proof (loop_body_world results query max_results request_size
                    timeout l1 w1) as Hw.
      rewrite Hbody in Hw. subst w2. exists (S n).
      cbn [with_request requests]. rewrite Hreq, page_requests_S, app_assoc.
      unfold page_request. rewrite Hstart. split; [|done].
      rewrite (loop_body_next_page _ _ _ _ _ _ _ _ Hbody), Hstart. lia.
    + exists 0%nat. cbn. by rewrite app_nil_r.
  - intros [= _ <-]. exists 0%nat.
    pose proof Hloop as [_ ->]%while_loop_raises.
    apply while_loop_zero_size in Hloop as ->. cbn. by rewrite app_nil_r.
Qed.

(** X21. With a negative delay the pause after the first page raises inside
    the [try], so [search_papers] sends at most one request. *)
Theorem search_papers_negative_delay_one_request
    now terms cats max_results request_size timeout w res w' :
  Qle_bool 0 timeout = false →
  search_papers results write_ok now terms cats max_results request_size
    timeout w = Some (res, w') →
  (length (requests w') ≤ length (requests w) + 1)%nat.
Proof.
  intros Hsleep. unfold search_papers. destruct (negb _).
  { intros [= _ <-]. lia. }
  set (query := _construct_query terms cats).
  destruct (while_loop _ _ _ _ _ _ _ _) as [[[l|e] wl]|] eqn:Hloop; cbn;
    [| |done].
  - intros [= _ <-]. rewrite mark_papers_as_seen_requests. revert Hloop.
    apply (while_loop_rule results query max_results request_size timeout
             (fun l1 w1 =>
                requests w1 = requests w
                ∨ (loop_test max_results l1 = false
                   ∧ length (requests w1) = (length (requests w) + 1)%nat))
             (fun _ w1 =>
                (length (requests w1) ≤ length (requests w) + 1)%nat)).
    + intros l1 w1 [->|[_ ->]] _; [lia|done].
    + intros l1 w1 l2 w2 [Hreq|[Htest _]] Htest' Hbody; [|congruence].
      pose proof (loop_body_world results query max_results request_size
                    timeout l1 w1) as Hw.
      rewrite Hbody in Hw. subst w2. cbn [with_request requests].
      rewrite Hreq, length_app. cbn [length]. lia.
    + intros l1 w1 l2 w2 [Hreq|[Htest _]] Htest' Hbody; [|congruence].
      right.
      pose proof (loop_body_world results query max_results request_size
                    timeout l1 w1) as Hw.
      rewrite Hbody in Hw. subst w2. cbn [with_request requests].
      rewrite Hreq, length_app. cbn [length]. split; [|done].
      destruct (loop_body_cases results query max_results request_size timeout
                  l1 w1) as [[_ H]|[_ H]]; [congruence|].
      cbn zeta in H.
      destruct (list_of_generator _) as [[|paper batch]|e];
        [congruence| |congruence].
      destruct (for_paper_in_results _ _ _ _ _ _) as [[[found run] new] [e|]];
        rewrite H in Hbody; [done|].
      assert (Hraises : sleep_raises timeout = true)
        by (unfold sleep_raises; by rewrite Hsleep).
      rewrite Hraises, andb_true_r in Hbody.
      match type of Hbody with
      | context [loop_test max_results ?x] =>
          destruct (loop_test max_results x) eqn:Ht
      end; [done|].
      injection Hbody as <-. exact Ht.
    + by left.
  - intros [= _ <-].
    pose proof Hloop as [_ ->]%while_loop_raises.
    apply while_loop_zero_size in Hloop as ->. lia.
Qed.

End Requests.

(** ** The older entry point: [search] *)

(** Accepting a new candidate keeps the run invariant. *)
Lemma run_invariant_accept w found run paper paper_data :
  cache_keyed_by_id (disk w) →
  already_seen w run paper = false →
  record_for (disk w) paper = Ok paper_data →
  run_invariant w found run →
  run_invariant w (found ++ [paper_data]) ({[paper_id_of paper]} ∪ run).
Proof.
  intros Hkeyed [Hnew Hnotin]%already_seen_false Hid%record_for_id
    (Hnodup & Hrun & Hfresh); [|done].
  unfold run_invariant, ids_of in *. rewrite fmap_app. cbn [fmap list_fmap].
  rewrite Hid. split; [|split].
  - apply NoDup_app. split; [done|]. split; [|apply NoDup_singleton].
    intros x Hx ->%list_elem_of_singleton. apply Hnotin. by apply Hrun.
  - intros x. rewrite elem_of_union, elem_of_singleton, elem_of_app,
      list_elem_of_singleton, Hrun. tauto.
  - intros x [->%elem_of_singleton|Hx]%elem_of_union; auto.
Qed.

Section OlderSearch.

Variable results : Search → generator.
Variable write_ok : string → bool.

Lemma for_paper_in_generator_invariant w max_results pending failure_at_end
    found run found' :
  cache_keyed_by_id (disk w) →
  run_invariant w found run →
  for_paper_in_generator w max_results pending failure_at_end found run
  = Ok found' →
  ∃ run', run_invariant w found' run'.
Proof.
  intros Hkeyed. revert found run.
  induction pending as [|paper rest IH]; intros found run Hinv.
  - cbn. destruct failure_at_end; [done|]. intros [= <-]. eauto.
  - cbn [for_paper_in_generator].
    change (in_dict _ (seen_papers w) || bool_decide (_ ∈ run))
      with (already_seen w run paper).
    destruct (already_seen w run paper) eqn:Hseen; [by apply IH|].
    change (_load_summary_from_file _ _ ≫= _) with (record_for (disk w) paper).
    destruct (record_for (disk w) paper) as [paper_data|e] eqn:Hrec; [|done].
    cbn [mbind result_bind].
    pose proof (run_invariant_accept w found run paper paper_data Hkeyed Hseen
                  Hrec Hinv) as Hinv'.
    destruct (_ >=? _); [intros [= <-]; eauto|]. by apply IH.
Qed.

Lemma for_paper_in_generator_quota w max_results pending failure_at_end
    found run found' :
  for_paper_in_generator w max_results pending failure_at_end found run
  = Ok found' →
  Z.of_nat (length found') ≤ Z.max (Z.of_nat (length found) + 1) max_results.
Proof.
  revert found run. induction pending as [|paper rest IH]; intros found run.
  - cbn. destruct failure_at_end; [done|]. intros [= <-]. lia.
  - cbn [for_paper_in_generator]. destruct (_ || _); [apply IH|].
    change (_load_summary_from_file _ _ ≫= _) with (record_for (disk w) paper).
    destruct (record_for (disk w) paper) as [paper_data|e]; [|done].
    cbn [mbind result_bind].
    destruct (Z.geb_spec (Z.of_nat (length (found ++ [paper_data]))) max_results)
      as [Hge|Hlt].
    + intros [= <-]. rewrite length_app. cbn [length]. lia.
    + intros H%IH. rewrite length_app in *. cbn [length] in *. lia.
Qed.

(** X22. [search] sends exactly one request, for up to 100 results.  When it
    returns, the records have pairwise distinct ids that were not in
    [seen_papers] (the cache being typed and keyed by id), there are at most
    [max_results] of them, or one if [max_results] is below one, and
    [seen_papers] has gained exactly their ids, with the current date.  When
    it raises, [seen_papers] and the disk are as before: what was accepted
    before the failure is not marked. *)
Theorem search_outcome now terms cats max_results w :
  cache_keyed_by_id (disk w) →
  let out := search results write_ok now terms cats max_results w in
  requests out.2
  = requests w ++ [mkSearch (search_query terms cats) [] (Some 100) true None]
  ∧ match out.1 with
    | Ok found =>
        NoDup (ids_of found)
        ∧ (∀ p, p ∈ found → in_dict (PaperData.id p) (seen_papers w) = false)
        ∧ Z.of_nat (length found) ≤ Z.max 1 max_results
        ∧ ∀ x, seen_papers out.2 !! x
               = if bool_decide (x ∈ ids_of found) then Some now
                 else seen_papers w !! x
    | Raise _ => seen_papers out.2 = seen_papers w ∧ disk out.2 = disk w
    end.
Proof.
  intros Hkeyed. cbn zeta. unfold search.
  set (request := mkSearch (search_query terms cats) [] (Some 100) true None).
  set (w1 := mkWorld (seen_papers w) (disk w) (requests w ++ [request])).
  destruct (for_paper_in_generator w1 max_results _ _ [] ∅) as [found|e]
    eqn:Hloop; cbn [fst snd]; [|done].
  split; [done|].
  assert (Hinit : run_invariant w1 [] ∅).
  { split; [apply NoDup_nil_2|]. split.
    - intros x. split; intros H; [by apply elem_of_empty in H|].
      by apply elem_of_nil in H.
    - intros x H. by apply elem_of_empty in H. }
  destruct (for_paper_in_generator_invariant w1 max_results _ _ [] ∅ found
              Hkeyed Hinit Hloop) as [run (Hnodup & Hrun & Hfresh)].
  apply for_paper_in_generator_quota in Hloop. cbn in Hloop.
  split; [done|]. split; [|split; [lia|]].
  - intros p Hp. apply (Hfresh (PaperData.id p)), Hrun.
    unfold ids_of. by apply list_elem_of_fmap_2.
  - intros x. by rewrite mark_papers_as_seen_lookup.
Qed.

End OlderSearch.

(** ** [search_papers] ends *)

Section Ending.

Variable results : Search → generator.
Variable write_ok : string → bool.

(** X23. [search_papers] always returns or raises: its loop ends, after at
    most [3 * max_results + 3] requests. *)
Theorem search_papers_ends_within_bound
    now terms cats max_results request_size timeout w :
  ∃ res w',
    search_papers results write_ok now terms cats max_results request_size
      timeout w = Some (res, w')
    ∧ (length (requests w')
       ≤ length (requests w) + Z.to_nat (3 * max_results + 3))%nat.
Proof.
  destruct (search_papers_returns results write_ok now terms cats max_results
              request_size timeout w) as [[res w'] Hrun].
  exists res, w'. split; [done|].
  unfold search_papers in Hrun. destruct (negb _).
  { injection Hrun as _ <-. lia. }
  set (query := _construct_query terms cats) in *.
  destruct (while_loop _ _ _ _ _ _ _ _) as [[[l|e] wl]|] eqn:Hloop;
    cbn in Hrun; [| |done].
  - injection Hrun as _ <-. rewrite mark_papers_as_seen_requests. revert Hloop.
    apply (while_loop_rule results query max_results request_size timeout
             (fun l1 w1 =>
                (length (requests w1) + loop_measure max_results l1
                 ≤ length (requests w) + Z.to_nat (3 * max_results + 3))%nat
                ∨ (loop_test max_results l1 = false
                   ∧ (length (requests w1)
                      ≤ length (requests w) + Z.to_nat (3 * max_results + 3))%nat))
             (fun _ w1 =>
                (length (requests w1)
                 ≤ length (requests w) + Z.to_nat (3 * max_results + 3))%nat)).
    + intros l1 w1 [?|[_ ?]] _; lia.
    + intros l1 w1 l2 w2 [Hle|[? _]] Htest Hbody; [|congruence].
      pose proof (loop_body_world results query max_results request_size
                    timeout l1 w1) as Hw.
      rewrite Hbody in Hw. subst w2. cbn [with_request requests].
      rewrite length_app. cbn [length].
      assert (0 < loop_measure max_results l1)%nat; [|lia].
      apply andb_true_iff in Htest as [H1 H2]. apply Z.ltb_lt in H1, H2.
      unfold loop_measure, max_consecutive_seen in *. lia.
    + intros l1 w1 l2 w2 [Hle|[? _]] Htest Hbody; [|congruence].
      left.
      pose proof (loop_body_measure results query max_results request_size
                    timeout l1 l2 w1 w2 Htest Hbody).
      pose proof (loop_body_world results query max_results request_size
                    timeout l1 w1) as Hw.
      rewrite Hbody in Hw. subst w2. cbn [with_request requests].
      rewrite length_app. cbn [length]. lia.
    + destruct (loop_test max_results initial_locals) eqn:Htest.
      * left. apply andb_true_iff in Htest as [H1 _]. apply Z.ltb_lt in H1.
        unfold loop_measure, initial_locals, max_consecutive_seen in *.
        cbn [found_papers consecutive_seen_requests length] in *. lia.
      * right. split; [done|lia].
  - injection Hrun as _ <-.
    pose proof Hloop as [_ ->]%while_loop_raises.
    apply while_loop_zero_size in Hloop as ->. lia.
Qed.

End Ending.

(** * The further properties at sample inputs *)

Lemma from_dict_reads_the_dictionary_witness :
  PaperData.from_dict (PaperData.to_dict sample_record) = Ok sample_record
  ∧ ∃ m,
      PaperData.to_dict sample_record = JDict m
      ∧ dom m ⊆ PaperData.field_names
      ∧ is_Some (m !! "id") ∧ is_Some (m !! "title") ∧ is_Some (m !! "url")
      ∧ ∀ k, k ∈ PaperData.field_names →
             PaperData.kwarg m k = PaperData.kwarg (dict_of sample_record) k.
Proof.
  assert (H : PaperData.from_dict (PaperData.to_dict sample_record)
              = Ok sample_record) by apply from_dict_to_dict.
  split; [exact H|].
  exact (from_dict_reads_the_dictionary (PaperData.to_dict sample_record)
           sample_record H).
Defined.

Lemma save_summary_to_file_writes_unless_blank_witness :
  all_space "   " = true
  ∧ save_summary_to_file always_writes blank_record empty_world = empty_world.
Proof.
  assert (H : all_space "   " = true) by reflexivity.
  split; [exact H|].
  exact (proj1 (save_summary_to_file_writes_unless_blank always_writes
                  blank_record empty_world) H).
Defined.

Lemma save_summary_to_file_touches_one_file_witness :
  Py.contains "/" (PaperData.id sample_record) = false
  ∧ _load_seen_papers (disk (save_summary_to_file always_writes sample_record
                               seen_one_world))
    = _load_seen_papers (disk seen_one_world)
  ∧ _load_summary_from_file
      (disk (save_summary_to_file always_writes sample_record
               blank_cache_world)) "2301.00001v1"
    = Ok (Some blank_record).
Proof.
  assert (H : Py.contains "/" (PaperData.id sample_record) = false)
    by reflexivity.
  pose proof (save_summary_to_file_touches_one_file always_writes
                sample_record seen_one_world H) as (_ & _ & _ & Hledger & _).
  pose proof (save_summary_to_file_touches_one_file always_writes
                sample_record blank_cache_world H) as (_ & _ & _ & _ & Hother).
  split; [exact H|]. split; [exact Hledger|].
  refine (eq_trans (proj2 (Hother "2301.00001v1" _ _)) _).
  - reflexivity.
  - discriminate.
  - vm_compute. reflexivity.
Defined.

Lemma mark_papers_as_seen_updates_ledger_witness :
  always_writes SEEN_PAPERS_FILE = true
  ∧ ledger_synced
      (mark_papers_as_seen always_writes a_date [record_one] empty_world).
Proof.
  assert (H : always_writes SEEN_PAPERS_FILE = true) by reflexivity.
  split; [exact H|].
  exact (proj2 (proj2 (proj2 (mark_papers_as_seen_updates_ledger always_writes
                                a_date [record_one] empty_world))) H).
Defined.


Lemma construct_query_and_joins_witness :
  _construct_query (Some ["a b"; "c"]) (Some ["cs.AI"; "cs.LG"])
  = _construct_query None (Some ["cs.AI"; "cs.LG"]) +:+ " AND "
    +:+ _construct_query (Some ["a b"; "c"]) None.
Proof.
  apply (construct_query_and_joins ["a b"; "c"] ["cs.AI"; "cs.LG"]);
    discriminate.
Defined.


Lemma convert_result_pdf_url_is_https_witness :
  _convert_result paper_one = Ok record_one
  ∧ ∃ u,
      PaperData.pdf_url record_one = Some u
      ∧ Py.startswith "http:" u = false
      ∧ match ArxivResult.pdf_url paper_one with
        | Some (Some link) =>
            if Py.startswith "http:" link then u = "https" +:+ Py.drop 4 link
            else u = link
        | Some None => False
        | None =>
            u = "https://arxiv.org/pdf/" +:+ PaperData.id record_one +:+ ".pdf"
        end.
Proof.
  assert (H : _convert_result paper_one = Ok record_one) by reflexivity.
  split; [exact H|].
  exact (convert_result_pdf_url_is_https paper_one record_one H).
Defined.

Lemma get_paper_by_id_uses_cache_witness :
  _load_summary_from_file (disk saved_world) "save002" = Ok (Some sample_record)
  ∧ Py.truthy_opt (PaperData.summary sample_record) = true
  ∧ (get_paper_by_id one_paper_service always_writes a_date "save002"
       saved_world).1 = Ok (Some sample_record)
  ∧ requests (get_paper_by_id one_paper_service always_writes a_date "save002"
                saved_world).2 = requests saved_world.
Proof.
  assert (H1 : _load_summary_from_file (disk saved_world) "save002"
               = Ok (Some sample_record)) by (vm_compute; reflexivity).
  assert (H2 : Py.truthy_opt (PaperData.summary sample_record) = true)
    by reflexivity.
  split; [exact H1|]. split; [exact H2|].
  pose proof (get_paper_by_id_uses_cache one_paper_service always_writes a_date
                "save002" saved_world sample_record H1 H2) as (? & ? & _).
  by split.
Defined.

Lemma get_paper_by_id_ledger_effect_witness :
  in_dict "2301.00001v1" (seen_papers seen_one_world) = true
  ∧ seen_papers (get_paper_by_id one_paper_service always_writes a_date
                   "2301.00001v1" seen_one_world).2
    = seen_papers seen_one_world
  ∧ disk (get_paper_by_id one_paper_service always_writes a_date
            "2301.00001v1" seen_one_world).2
    = disk seen_one_world.
Proof.
  assert (H : in_dict "2301.00001v1" (seen_papers seen_one_world) = true)
    by reflexivity.
  split; [exact H|].
  exact (proj1 (proj2 (get_paper_by_id_ledger_effect one_paper_service
                         always_writes a_date "2301.00001v1" seen_one_world))
           H).
Defined.

Lemma get_paper_by_id_not_found_witness :
  get_paper_by_id empty_service always_writes a_date "2301.00009v1" empty_world
  = (Ok None,
     mkWorld ∅ ∅ [mkSearch EmptyString ["2301.00009v1"] None false None]).
Proof.
  apply (get_paper_by_id_not_found empty_service always_writes a_date
           "2301.00009v1" empty_world).
  - left. reflexivity.
  - reflexivity.
Defined.

Lemma get_paper_by_id_after_save_witness :
  (get_paper_by_id one_paper_service always_writes a_date "save002"
     (save_summary_to_file always_writes sample_record empty_world)).1
  = Ok (Some sample_record)
  ∧ requests
      (get_paper_by_id one_paper_service always_writes a_date "save002"
         (save_summary_to_file always_writes sample_record empty_world)).2
    = requests empty_world.
Proof.
  apply (get_paper_by_id_after_save one_paper_service always_writes a_date
           sample_record empty_world); reflexivity.
Defined.

Lemma search_papers_respects_quota_witness :
  search_papers two_paper_service always_writes a_date None (Some ["cs.AI"])
    1 20 1%Q empty_world
  = Some (Ok [record_one], world_after_first_call)
  ∧ Z.of_nat (length [record_one]) ≤ Z.max 0 1.
Proof.
  assert (H : search_papers two_paper_service always_writes a_date None
                (Some ["cs.AI"]) 1 20 1%Q empty_world
              = Some (Ok [record_one], world_after_first_call))
    by (vm_compute; reflexivity).
  split; [exact H|].
  exact (search_papers_respects_quota two_paper_service always_writes a_date
           None (Some ["cs.AI"]) 1 20 1%Q empty_world [record_one]
           world_after_first_call H).
Defined.

Lemma search_papers_marks_what_it_returns_witness :
  search_papers two_paper_service always_writes a_date None (Some ["cs.AI"])
    1 20 1%Q empty_world
  = Some (Ok [record_one], world_after_first_call)
  ∧ ∀ x, seen_papers world_after_first_call !! x
         = if bool_decide (x ∈ ids_of [record_one]) then Some a_date
           else seen_papers empty_world !! x.
Proof.
  assert (H : search_papers two_paper_service always_writes a_date None
                (Some ["cs.AI"]) 1 20 1%Q empty_world
              = Some (Ok [record_one], world_after_first_call))
    by (vm_compute; reflexivity).
  split; [exact H|].
  exact (search_papers_marks_what_it_returns two_paper_service always_writes
           a_date None (Some ["cs.AI"]) 1 20 1%Q empty_world [record_one]
           world_after_first_call H).
Defined.

Lemma search_papers_zero_request_size_witness :
  search_papers one_paper_service always_writes a_date None (Some ["cs.AI"])
    5 0 1%Q empty_world
  = Some (Raise ZeroDivisionError, empty_world).
Proof.
  apply (search_papers_zero_request_size one_paper_service always_writes a_date
           None (Some ["cs.AI"]) 5 1%Q empty_world); [reflexivity|lia].
Defined.

Lemma search_papers_no_quota_no_request_witness :
  ∃ w',
    search_papers one_paper_service always_writes a_date None (Some ["cs.AI"])
      0 20 1%Q empty_world = Some (Ok [], w')
    ∧ requests w' = requests empty_world
    ∧ seen_papers w' = seen_papers empty_world.
Proof.
  apply (search_papers_no_quota_no_request one_paper_service always_writes
           a_date None (Some ["cs.AI"]) 0 20 1%Q empty_world). lia.
Defined.

Lemma search_papers_requests_consecutive_pages_witness :
  search_papers two_paper_service always_writes a_date None (Some ["cs.AI"])
    1 20 1%Q empty_world
  = Some (Ok [record_one], world_after_first_call)
  ∧ ∃ n, requests world_after_first_call
         = requests empty_world
           ++ page_requests (_construct_query None (Some ["cs.AI"])) 20 n.
Proof.
  assert (H : search_papers two_paper_service always_writes a_date None
                (Some ["cs.AI"]) 1 20 1%Q empty_world
              = Some (Ok [record_one], world_after_first_call))
    by (vm_compute; reflexivity).
  split; [exact H|].
  exact (search_papers_requests_consecutive_pages two_paper_service
           always_writes a_date None (Some ["cs.AI"]) 1 20 1%Q empty_world
           (Ok [record_one]) world_after_first_call H).
Defined.

Lemma search_papers_negative_delay_one_request_witness :
  Qle_bool 0 negative_delay = false
  ∧ search_papers one_paper_service always_writes a_date None (Some ["cs.AI"])
      5 20 negative_delay empty_world
    = Some (Ok [record_one], world_after_first_call)
  ∧ (length (requests world_after_first_call)
     ≤ length (requests empty_world) + 1)%nat.
Proof.
  assert (H1 : Qle_bool 0 negative_delay = false) by reflexivity.
  assert (H2 : search_papers one_paper_service always_writes a_date None
                 (Some ["cs.AI"]) 5 20 negative_delay empty_world
               = Some (Ok [record_one], world_after_first_call))
    by (vm_compute; reflexivity).
  split; [exact H1|]. split; [exact H2|].
  exact (search_papers_negative_delay_one_request one_paper_service
           always_writes a_date None (Some ["cs.AI"]) 5 20 negative_delay
           empty_world (Ok [record_one]) world_after_first_call H1 H2).
Defined.

Lemma search_outcome_witness :
  cache_keyed_by_id (disk empty_world)
  ∧ requests (search one_paper_service always_writes a_date None
                (Some ["cs.AI"]) 10 empty_world).2
    = requests empty_world
      ++ [mkSearch (search_query None (Some ["cs.AI"])) [] (Some 100) true None].
Proof.
  assert (H : cache_keyed_by_id (disk empty_world)) by apply empty_disk_keyed.
  split; [exact H|].
  exact (proj1 (search_outcome one_paper_service always_writes a_date None
                  (Some ["cs.AI"]) 10 empty_world H)).
Defined.

Lemma client_world_keyed_witness :
  client_world one_paper_service always_writes saved_world
  ∧ cache_keyed_by_id (disk saved_world).
Proof.
  assert (H : client_world one_paper_service always_writes saved_world)
    by (apply client_world_save;
        [reflexivity | apply (client_world_start _ _ ∅ [])]).
  split; [exact H|].
  exact (client_world_keyed one_paper_service always_writes saved_world H).
Defined.

Lemma stalled_search_makes_three_fetches_witness :
  sleep_raises 1%Q = false
  ∧ (∀ s, failure (one_paper_service s) = None
          ∧ items (one_paper_service s) ≠ [])
  ∧ (∀ s paper, paper ∈ items (one_paper_service s) →
                in_dict (paper_id_of paper) (seen_papers seen_one_world) = true)
  ∧ ∃ w',
      search_papers one_paper_service always_writes a_date None
        (Some ["cs.AI"]) 10 20 1%Q seen_one_world = Some (Ok [], w')
      ∧ length (requests w') = (length (requests seen_one_world) + 3)%nat.
Proof.
  assert (H0 : sleep_raises 1%Q = false) by reflexivity.
  assert (H1 : ∀ s, failure (one_paper_service s) = None
                    ∧ items (one_paper_service s) ≠ []) by (by intros s).
  assert (H2 : ∀ s paper, paper ∈ items (one_paper_service s) →
                 in_dict (paper_id_of paper) (seen_papers seen_one_world) = true).
  { intros s paper Hin. cbn in Hin. apply list_elem_of_singleton in Hin.
    subst paper. vm_compute. reflexivity. }
  split; [exact H0|]. split; [exact H1|]. split; [exact H2|].
  apply (stalled_search_makes_three_fetches one_paper_service always_writes
           a_date None (Some ["cs.AI"]) 10 20 1%Q seen_one_world);
    [reflexivity | lia | discriminate | exact H0 | exact H1 | exact H2].
Defined.
